(** * Multi-provider inference orchestration: a shallow embedding

    The development follows [services/geminiService.ts]: the JSON
    extractor, the model discovery cache, the three provider adapters,
    the fallback orchestrator and the swarm and hybrid engines.

    Modelling conventions.
    - A JavaScript string is a [string]: a sequence of code units below
      256.  Numbers that occur in JSON values are integers ([Z]).
    - A function that may throw returns an [Outcome]; [try]/[catch] is
      [match] on it.  Module-level variables (the two catalogs and the
      instant of the last discovery) are fields of [State]; every
      network request is appended to the state's trace.
    - The network and the clock are an oracle, [World]: a response is a
      function of the request and of the number of events recorded
      before it.
    - An asynchronous call runs to completion where it is started, also
      the refresh that the orchestrator starts without awaiting it;
      [Promise.all] runs its branches in list order. *)

From Stdlib Require Import String Ascii List ZArith NArith Lia Bool Arith.
From Stdlib Require Import Decimal DecimalN DecimalPos DecimalFacts.
From Stdlib Require Import Sorted Permutation.
Import ListNotations.
Open Scope list_scope.
Open Scope string_scope.
Open Scope nat_scope.

Set Implicit Arguments.
Set Warnings "-register-all".

(** ** JavaScript strings *)

Module Js.

Definition code (c : ascii) : nat := nat_of_ascii c.

(** The double quote and the line feed, which string literals below
    cannot hold directly. *)
Definition dquote : ascii := ascii_of_nat 34.
Definition dq : string := String dquote "".
Definition nl : string := String (ascii_of_nat 10) "".

Fixpoint drop (n : nat) (s : string) : string :=
  match n, s with
  | O, _ => s
  | S n', String _ s' => drop n' s'
  | S _, "" => ""
  end.

Fixpoint take (n : nat) (s : string) : string :=
  match n, s with
  | O, _ => ""
  | S n', String c s' => String c (take n' s')
  | S _, "" => ""
  end.

(** [s.startsWith(pat)] *)
Fixpoint startsWith (pat s : string) : bool :=
  match pat, s with
  | "", _ => true
  | String a p', String b s' => Ascii.eqb a b && startsWith p' s'
  | String _ _, "" => false
  end.

(** [s.indexOf(pat)], as an option. *)
Fixpoint find (pat s : string) : option nat :=
  if startsWith pat s then Some O
  else match s with
       | "" => None
       | String _ s' => option_map S (find pat s')
       end.

(** [s.lastIndexOf(pat)], as an option. *)
Fixpoint findLast (pat s : string) : option nat :=
  match s with
  | "" => if startsWith pat "" then Some O else None
  | String _ s' =>
      match findLast pat s' with
      | Some n => Some (S n)
      | None => if startsWith pat s then Some O else None
      end
  end.

Definition index_or_minus1 (o : option nat) : Z :=
  match o with
  | Some n => Z.of_nat n
  | None => (-1)%Z
  end.

Definition indexOf (s pat : string) : Z := index_or_minus1 (find pat s).
Definition lastIndexOf (s pat : string) : Z := index_or_minus1 (findLast pat s).

(** [s.includes(pat)] *)
Definition includes (s pat : string) : bool :=
  match find pat s with
  | Some _ => true
  | None => false
  end.

(** [s.substring(i, j)]: negative arguments count as 0, arguments
    beyond the length as the length, and the two are swapped when
    [i > j]. *)
Definition substring (s : string) (i j : Z) : string :=
  let len := Z.of_nat (String.length s) in
  let clamp := fun k => Z.max 0 (Z.min k len) in
  let a := Z.min (clamp i) (clamp j) in
  let b := Z.max (clamp i) (clamp j) in
  take (Z.to_nat (b - a)) (drop (Z.to_nat a) s).

(** [toLowerCase] on code units below 256: the ASCII capitals and the
    Latin-1 capitals (0xC0 to 0xDE, the multiplication sign apart). *)
Definition lowerChar (c : ascii) : ascii :=
  let n := code c in
  if ((65 <=? n) && (n <=? 90))
     || ((192 <=? n) && (n <=? 222) && negb (n =? 215))
  then ascii_of_nat (n + 32)
  else c.

Fixpoint toLowerCase (s : string) : string :=
  match s with
  | "" => ""
  | String c s' => String (lowerChar c) (toLowerCase s')
  end.

(** The class [\s] of regular expressions, which is also what [trim]
    removes: tab, line feed, vertical tab, form feed, carriage return,
    space and the no-break space. *)
Definition isSpace (c : ascii) : bool :=
  let n := code c in
  ((9 <=? n) && (n <=? 13)) || (n =? 32) || (n =? 160).

Fixpoint trimStart (s : string) : string :=
  match s with
  | "" => ""
  | String c s' => if isSpace c then trimStart s' else s
  end.

Fixpoint trimEnd (s : string) : string :=
  match s with
  | "" => ""
  | String c s' =>
      match trimEnd s' with
      | "" => if isSpace c then "" else String c ""
      | t => String c t
      end
  end.

Definition trim (s : string) : string := trimEnd (trimStart s).

Definition isEmpty (s : string) : bool :=
  match s with
  | "" => true
  | _ => false
  end.

(** [l.join(sep)] *)
Fixpoint join (sep : string) (l : list string) : string :=
  match l with
  | [] => ""
  | [x] => x
  | x :: rest => x ++ sep ++ join sep rest
  end.

(** [s.split(/\s+/)]: the pieces between maximal runs of white space;
    a leading or trailing run gives an empty first or last piece. *)
Fixpoint splitSpaces_aux (cur : string) (inSpace : bool) (s : string)
  : list string :=
  match s with
  | "" => [cur]
  | String c s' =>
      if isSpace c then
        if inSpace then splitSpaces_aux cur true s'
        else cur :: splitSpaces_aux "" true s'
      else splitSpaces_aux (cur ++ String c "") false s'
  end.

Definition splitSpaces (s : string) : list string :=
  splitSpaces_aux "" false s.

(** Decimal digits of a natural number, for template literals. *)
Fixpoint uint_to_string (d : Decimal.uint) : string :=
  match d with
  | Nil => ""
  | D0 d' => String "0" (uint_to_string d')
  | D1 d' => String "1" (uint_to_string d')
  | D2 d' => String "2" (uint_to_string d')
  | D3 d' => String "3" (uint_to_string d')
  | D4 d' => String "4" (uint_to_string d')
  | D5 d' => String "5" (uint_to_string d')
  | D6 d' => String "6" (uint_to_string d')
  | D7 d' => String "7" (uint_to_string d')
  | D8 d' => String "8" (uint_to_string d')
  | D9 d' => String "9" (uint_to_string d')
  end.

Definition N_to_string (n : N) : string := uint_to_string (N.to_uint n).
Definition nat_to_string (n : nat) : string := N_to_string (N.of_nat n).

(** [Array.from(new Set(l))]: the first occurrence of each element, in
    order. *)
Fixpoint dedup_acc (seen : list string) (l : list string) : list string :=
  match l with
  | [] => []
  | x :: rest =>
      if existsb (String.eqb x) seen then dedup_acc seen rest
      else x :: dedup_acc (x :: seen) rest
  end.

Definition dedup (l : list string) : list string := dedup_acc [] l.

(** [Array.prototype.sort(cmp)] is stable: insertion keeps an element
    before the later elements that compare equal to it.  [cmp a b] is the
    comparator's result, negative when [a] goes first. *)
Section Sort.
Variable A : Type.
Variable cmp : A -> A -> Z.

Fixpoint insert (x : A) (l : list A) : list A :=
  match l with
  | [] => [x]
  | y :: rest =>
      if (cmp x y <=? 0)%Z then x :: l else y :: insert x rest
  end.

Fixpoint sort (l : list A) : list A :=
  match l with
  | [] => []
  | x :: rest => insert x (sort rest)
  end.
End Sort.

End Js.

(** ** JSON values, [JSON.stringify] and [JSON.parse]

    Numbers are integers, printed and read in plain decimal notation (a
    literal with a fraction or an exponent is outside the model and is
    refused, and so is an escape for a code unit above 255).  An object
    is the list of its members in the order they are written;
    [JSON.parse] keeps the last value of a repeated key. *)

Module Json.

Inductive json : Type :=
| JNull
| JBool (b : bool)
| JNumber (n : Z)
| JString (s : string)
| JArray (l : list json)
| JObject (members : list (string * json)).

Definition backslash : ascii := ascii_of_nat 92.

Definition esc (c : ascii) : string := String backslash (String c "").

Definition hexDigit (n : nat) : ascii :=
  match n with
  | 0 => "0" | 1 => "1" | 2 => "2" | 3 => "3" | 4 => "4"
  | 5 => "5" | 6 => "6" | 7 => "7" | 8 => "8" | 9 => "9"
  | 10 => "a" | 11 => "b" | 12 => "c" | 13 => "d" | 14 => "e"
  | _ => "f"
  end%char.

(** One code unit inside a string literal (QuoteJSONString). *)
Definition quoteChar (c : ascii) : string :=
  let n := Js.code c in
  if n =? 34 then esc Js.dquote
  else if n =? 92 then esc backslash
  else if n =? 8 then esc "b"
  else if n =? 12 then esc "f"
  else if n =? 10 then esc "n"
  else if n =? 13 then esc "r"
  else if n =? 9 then esc "t"
  else if n <? 32 then
    esc "u" ++ "00" ++ String (hexDigit (n / 16)) (String (hexDigit (n mod 16)) "")
  else String c "".

Fixpoint quoteChars (s : string) : string :=
  match s with
  | "" => ""
  | String c s' => quoteChar c ++ quoteChars s'
  end.

Definition quote (s : string) : string :=
  Js.dq ++ quoteChars s ++ Js.dq.

Definition number_to_string (n : Z) : string :=
  if (n <? 0)%Z then "-" ++ Js.N_to_string (Z.abs_N n)
  else Js.N_to_string (Z.abs_N n).

(** What follows the first element of an array, and the first member
    of an object. *)
Definition elementsTail (str : json -> string) : list json -> string :=
  fix tail (l : list json) : string :=
    match l with
    | [] => "]"
    | y :: l' => "," ++ str y ++ tail l'
    end.

Definition membersTail (str : json -> string)
  : list (string * json) -> string :=
  fix tail (l : list (string * json)) : string :=
    match l with
    | [] => "}"
    | kv :: l' => "," ++ quote (fst kv) ++ ":" ++ str (snd kv) ++ tail l'
    end.

(** [JSON.stringify(v)], without indentation. *)
Fixpoint stringify (v : json) : string :=
  match v with
  | JNull => "null"
  | JBool true => "true"
  | JBool false => "false"
  | JNumber n => number_to_string n
  | JString s => quote s
  | JArray l =>
      match l with
      | [] => "[]"
      | x :: rest => "[" ++ stringify x ++ elementsTail stringify rest
      end
  | JObject ms =>
      match ms with
      | [] => "{}"
      | kv :: rest =>
          "{" ++ quote (fst kv) ++ ":" ++ stringify (snd kv)
          ++ membersTail stringify rest
      end
  end.

(** White space of the JSON grammar. *)
Definition isWs (c : ascii) : bool :=
  let n := Js.code c in
  (n =? 9) || (n =? 10) || (n =? 13) || (n =? 32).

Fixpoint skipWs (s : string) : string :=
  match s with
  | "" => ""
  | String c s' => if isWs c then skipWs s' else s
  end.

Definition digit (c : ascii) : option (uint -> uint) :=
  match Js.code c - 48, Js.code c <? 48 with
  | _, true => None
  | 0, _ => Some D0 | 1, _ => Some D1 | 2, _ => Some D2 | 3, _ => Some D3
  | 4, _ => Some D4 | 5, _ => Some D5 | 6, _ => Some D6 | 7, _ => Some D7
  | 8, _ => Some D8 | 9, _ => Some D9
  | _, _ => None
  end.

Fixpoint scanDigits (s : string) : uint * string :=
  match s with
  | "" => (Nil, "")
  | String c s' =>
      match digit c with
      | Some d => let (u, r) := scanDigits s' in (d u, r)
      | None => (Nil, s)
      end
  end.

(** After the digits of a number: a fraction or an exponent is refused. *)
Definition startsFraction (s : string) : bool :=
  match s with
  | "" => false
  | String c _ => Ascii.eqb c "." || Ascii.eqb c "e" || Ascii.eqb c "E"
  end.

Definition parseNumber (s : string) : option (Z * string) :=
  let (neg, s1) :=
    match s with
    | String c r => if Ascii.eqb c "-" then (true, r) else (false, s)
    | "" => (false, s)
    end in
  let (u, rest) := scanDigits s1 in
  let ok :=
    match u with
    | Nil => false
    | D0 Nil => true
    | D0 _ => false
    | _ => true
    end in
  if ok && negb (startsFraction rest) then
    let n := Z.of_N (N.of_uint u) in
    Some (if neg then (- n)%Z else n, rest)
  else None.

Definition hexVal (c : ascii) : option nat :=
  let n := Js.code c in
  if (48 <=? n) && (n <=? 57) then Some (n - 48)
  else if (97 <=? n) && (n <=? 102) then Some (n - 87)
  else if (65 <=? n) && (n <=? 70) then Some (n - 55)
  else None.

Definition hex4 (a b c d : ascii) : option nat :=
  match hexVal a, hexVal b, hexVal c, hexVal d with
  | Some x, Some y, Some z, Some w => Some (((x * 16 + y) * 16 + z) * 16 + w)
  | _, _, _, _ => None
  end.

Definition unescape (c : ascii) : option ascii :=
  let n := Js.code c in
  if n =? 34 then Some Js.dquote
  else if n =? 92 then Some backslash
  else if n =? 47 then Some "/"%char
  else if n =? 98 then Some (ascii_of_nat 8)
  else if n =? 102 then Some (ascii_of_nat 12)
  else if n =? 110 then Some (ascii_of_nat 10)
  else if n =? 114 then Some (ascii_of_nat 13)
  else if n =? 116 then Some (ascii_of_nat 9)
  else None.

(** The characters of a string literal after its opening quote, up to
    and including the closing quote. *)
Fixpoint parseStringBody (s : string) : option (string * string) :=
  match s with
  | "" => None
  | String c r =>
      if Ascii.eqb c Js.dquote then Some ("", r)
      else if Ascii.eqb c backslash then
        match r with
        | "" => None
        | String e r1 =>
            if Ascii.eqb e "u" then
              match r1 with
              | String h1 (String h2 (String h3 (String h4 r2))) =>
                  match hex4 h1 h2 h3 h4 with
                  | Some n =>
                      if n <? 256 then
                        match parseStringBody r2 with
                        | Some (t, r3) => Some (String (ascii_of_nat n) t, r3)
                        | None => None
                        end
                      else None
                  | None => None
                  end
              | _ => None
              end
            else
              match unescape e with
              | Some x =>
                  match parseStringBody r1 with
                  | Some (t, r2) => Some (String x t, r2)
                  | None => None
                  end
              | None => None
              end
        end
      else if Js.code c <? 32 then None
      else
        match parseStringBody r with
        | Some (t, r1) => Some (String c t, r1)
        | None => None
        end
  end.

(** Defining a property that is already there keeps its place and
    takes the new value. *)
Fixpoint setMember (k : string) (v : json) (ms : list (string * json))
  : list (string * json) :=
  match ms with
  | [] => [(k, v)]
  | (k', v') :: rest =>
      if String.eqb k k' then (k', v) :: rest
      else (k', v') :: setMember k v rest
  end.

Definition buildObject (ms : list (string * json)) : list (string * json) :=
  fold_left (fun acc kv => setMember (fst kv) (snd kv) acc) ms [].

Fixpoint parseValue (fuel : nat) (s : string) : option (json * string) :=
  match fuel with
  | O => None
  | S f =>
      match s with
      | "" => None
      | String c r =>
          if Ascii.eqb c "{" then
            match skipWs r with
            | "" => None
            | String c1 r1 =>
                if Ascii.eqb c1 "}" then Some (JObject [], r1)
                else
                  match parseMembers f (String c1 r1) with
                  | Some (ms, r2) => Some (JObject (buildObject ms), r2)
                  | None => None
                  end
            end
          else if Ascii.eqb c "[" then
            match skipWs r with
            | "" => None
            | String c1 r1 =>
                if Ascii.eqb c1 "]" then Some (JArray [], r1)
                else
                  match parseElements f (String c1 r1) with
                  | Some (vs, r2) => Some (JArray vs, r2)
                  | None => None
                  end
            end
          else if Ascii.eqb c Js.dquote then
            match parseStringBody r with
            | Some (t, r1) => Some (JString t, r1)
            | None => None
            end
          else if Js.startsWith "true" s then Some (JBool true, Js.drop 4 s)
          else if Js.startsWith "false" s then Some (JBool false, Js.drop 5 s)
          else if Js.startsWith "null" s then Some (JNull, Js.drop 4 s)
          else
            match parseNumber s with
            | Some (n, r1) => Some (JNumber n, r1)
            | None => None
            end
      end
  end
with parseElements (fuel : nat) (s : string) : option (list json * string) :=
  match fuel with
  | O => None
  | S f =>
      match parseValue f s with
      | None => None
      | Some (v, r) =>
          match skipWs r with
          | "" => None
          | String c r1 =>
              if Ascii.eqb c "," then
                match parseElements f (skipWs r1) with
                | Some (vs, r2) => Some (v :: vs, r2)
                | None => None
                end
              else if Ascii.eqb c "]" then Some ([v], r1)
              else None
          end
      end
  end
with parseMembers (fuel : nat) (s : string)
  : option (list (string * json) * string) :=
  match fuel with
  | O => None
  | S f =>
      match s with
      | "" => None
      | String q r =>
          if Ascii.eqb q Js.dquote then
            match parseStringBody r with
            | None => None
            | Some (k, r1) =>
                match skipWs r1 with
                | "" => None
                | String c r2 =>
                    if Ascii.eqb c ":" then
                      match parseValue f (skipWs r2) with
                      | None => None
                      | Some (v, r3) =>
                          match skipWs r3 with
                          | "" => None
                          | String c' r4 =>
                              if Ascii.eqb c' "," then
                                match parseMembers f (skipWs r4) with
                                | Some (ms, r5) => Some ((k, v) :: ms, r5)
                                | None => None
                                end
                              else if Ascii.eqb c' "}" then Some ([(k, v)], r4)
                              else None
                          end
                      end
                    else None
                end
            end
          else None
      end
  end.

(** [JSON.parse(s)]; [None] when it throws. *)
Definition parse (s : string) : option json :=
  match parseValue (S (String.length s)) (skipWs s) with
  | Some (v, r) =>
      match skipWs r with
      | "" => Some v
      | _ => None
      end
  | None => None
  end.

(** The values [JSON.stringify] can be given: the keys of an object are
    distinct, and a number is an integer that a JavaScript number holds
    exactly. *)
Definition maxSafeInteger : Z := 9007199254740991.

Fixpoint distinct (l : list string) : bool :=
  match l with
  | [] => true
  | x :: rest => negb (existsb (String.eqb x) rest) && distinct rest
  end.

Fixpoint valid (v : json) : bool :=
  match v with
  | JNull | JBool _ | JString _ => true
  | JNumber n => (Z.abs n <=? maxSafeInteger)%Z
  | JArray l => forallb valid l
  | JObject ms =>
      distinct (map fst ms) && forallb (fun kv => valid (snd kv)) ms
  end.

(** The characters a JSON text can begin with, white space apart. *)
Definition valueStart (c : ascii) : bool :=
  Ascii.eqb c "{" || Ascii.eqb c "[" || Ascii.eqb c Js.dquote
  || Ascii.eqb c "t" || Ascii.eqb c "f" || Ascii.eqb c "n"
  || Ascii.eqb c "-"
  || match digit c with Some _ => true | None => false end.

(** What may follow a number: anything but a digit, a fraction or an
    exponent. *)
Definition delimited (s : string) : bool :=
  match s with
  | "" => true
  | String c _ =>
      match digit c with
      | Some _ => false
      | None => negb (startsFraction s)
      end
  end.

Definition numberStart (c : ascii) : bool :=
  Ascii.eqb c "-" || match digit c with Some _ => true | None => false end.

(** Only a number is sensitive to what follows it. *)
Definition endsOk (v : json) (r : string) : bool :=
  match v with
  | JNumber _ => delimited r
  | _ => true
  end.

(** Fuel that [parseValue] needs to read back a printed value. *)
Fixpoint need (v : json) : nat :=
  match v with
  | JArray l => S (list_sum (map (fun x => S (need x)) l))
  | JObject ms => S (list_sum (map (fun kv => S (need (snd kv))) ms))
  | _ => 1
  end.

(** [v] is read back from its printed form, whatever follows it. *)
Definition reads (v : json) : Prop :=
  forall fuel r, need v <= fuel -> endsOk v r = true ->
    parseValue fuel (stringify v ++ r) = Some (v, r).


End Json.

(** ** Errors and outcomes *)

Record JsError : Type := mkError {
  err_name : string;
  err_message : string
}.

(** [new Error(msg)] *)
Definition Error (msg : string) : JsError := mkError "Error" msg.

(** [String(e)] and [`${e}`] for an error object. *)
Definition errorToString (e : JsError) : string :=
  err_name e ++ ": " ++ err_message e.

Inductive Result (A : Type) : Type :=
| Ok (a : A)
| Throw (e : JsError).

Arguments Ok {A} a.
Arguments Throw {A} e.

(** ** The JSON extractor *)

Definition fence : string := "```".

(** [text.match(/```(?:json)?\s*([\s\S]*?)\s*```/)], its first group.
    The match starts at the first fence that has another fence after
    it; the tag and the white space that follow are consumed greedily,
    and the lazy group stops before the white space that precedes the
    next fence. *)
Definition codeBlockMatch (text : string) : option string :=
  match Js.find fence text with
  | None => None
  | Some i =>
      let r0 := Js.drop (i + 3) text in
      let r1 := if Js.startsWith "json" r0 then Js.drop 4 r0 else r0 in
      let r2 := Js.trimStart r1 in
      match Js.find fence r2 with
      | None => None
      | Some j => Some (Js.trimEnd (Js.take j r2))
      end
  end.

Definition orElse {A : Type} (o : option A) (k : unit -> Result A) : Result A :=
  match o with
  | Some v => Ok v
  | None => k tt
  end.

Definition sanitizeAndParseJson (text : string) : Result Json.json :=
  orElse (Json.parse text) (fun _ =>
  orElse (match codeBlockMatch text with
          | Some inner => Json.parse inner
          | None => None
          end) (fun _ =>
  let start := Js.indexOf text "{" in
  let end_ := Js.lastIndexOf text "}" in
  orElse (if negb (start =? -1)%Z && negb (end_ =? -1)%Z && (end_ >? start)%Z
          then Json.parse (Js.substring text start (end_ + 1))
          else None) (fun _ =>
  let startArr := Js.indexOf text "[" in
  let endArr := Js.lastIndexOf text "]" in
  orElse (if negb (startArr =? -1)%Z && negb (endArr =? -1)%Z
             && (endArr >? startArr)%Z
          then Json.parse (Js.substring text startArr (endArr + 1))
          else None) (fun _ =>
  Throw (Error "Could not parse valid JSON from the AI response. Response might be malformed or plain text."))))).


(** The serialized value inside a fenced code block, with or without
    the tag. *)
Definition fenced (tagged : bool) (body : string) : string :=
  fence ++ (if tagged then "json" else "") ++ Js.nl ++ body ++ Js.nl ++ fence.

(** Sample values. *)
Definition sampleObject : Json.json :=
  Json.JObject
    [ ("a", Json.JNumber 1);
      ("tags", Json.JArray [Json.JString "x"; Json.JNull; Json.JBool true]);
      ("n", Json.JNumber (-12)) ].


(** ** Settings, messages and the wire data *)

Inductive AIProvider : Type := gemini | openrouter | huggingface | hybrid.

Definition AIProvider_eqb (a b : AIProvider) : bool :=
  match a, b with
  | gemini, gemini | openrouter, openrouter
  | huggingface, huggingface | hybrid, hybrid => true
  | _, _ => false
  end.

Record AISettings : Type := {
  provider : AIProvider;
  openRouterApiKeys : list string;
  openRouterKeyIndex : Z;
  huggingFaceApiKeys : list string;
  huggingFaceKeyIndex : Z;
  isComplexTaskMode : bool
}.

Inductive Sender : Type := user | ai.

Definition senderName (s : Sender) : string :=
  match s with
  | user => "user"
  | ai => "ai"
  end.

Record Message : Type := {
  msg_id : Z;
  msg_text : string;
  msg_sender : Sender
}.

Record Memory : Type := {
  mem_id : string;
  mem_title : string;
  mem_content : string;
  mem_tags : list string;
  mem_timestamp : string;
  mem_importance : Z
}.

Record File : Type := {
  mimeType : string;
  data : string
}.

(** A message of the chat-completions body. *)
Record ChatMessage : Type := {
  role : string;
  content : string
}.

(** The primary provider's request. *)
Inductive Part : Type :=
| TextPart (text : string)
| InlineData (mime payload : string).

Record Content : Type := {
  c_role : string;
  c_parts : list Part
}.

Record GeminiConfig : Type := {
  systemInstruction : option string;
  thinkingBudget : option Z;
  responseMimeType : option string;
  googleSearch : bool
}.

(** The streaming callback: the caller's, whose calls are recorded, or
    the empty function. *)
Inductive Callback : Type := CallerCallback | EmptyCallback.

(** ** The environment *)

(** The listing of the marketplace: [{data: [{id, pricing: {prompt,
    completion}}]}]. *)
Record Pricing : Type := {
  pr_prompt : option string;
  pr_completion : option string
}.

Record ORModel : Type := {
  or_id : string;
  or_pricing : option Pricing
}.

Inductive ORListing : Type :=
| ORListingFails (e : JsError)
    (* [fetch] or [response.json()] rejects *)
| ORListingBody (data : option (list ORModel)).
    (* a JSON body; [None] when it has no [data] *)

Record HFModel : Type := { modelId : string }.

Inductive HFListing : Type :=
| HFListingFails (e : JsError)
| HFListingBody (data : option (list HFModel)).
    (* a JSON body; [None] when it is not an array *)

(** A chat-completions response: the status, and the body as each of
    the two readers sees it. [or_json] is what
    [(await response.json()).choices[0].message.content] evaluates to;
    [or_deltas] are the [choices[0].delta.content] of the events of the
    stream, and [or_readError] an error of [reader.read()] after them. *)
Record ORBody : Type := {
  or_json : Result string;
  or_deltas : list string;
  or_readError : option JsError
}.

Inductive ORChatResponse : Type :=
| ORChatFails (e : JsError)
| ORChatResponds (status : Z) (body : ORBody).

(** The body of an inference response. *)
Inductive HFData : Type :=
| HFArray (generated : list (option string))
    (* the [generated_text] of each element *)
| HFObject (error : option string) (generated_text : option string)
| HFString (s : string)
| HFNull
| HFScalar.

Inductive HFResponse : Type :=
| HFFails (e : JsError)
| HFResponds (status : Z) (body : Result HFData).

Record GroundingChunk : Type := {
  web : option (string * option string)   (* title, uri *)
}.

Inductive GeminiResponse : Type :=
| GeminiFails (e : JsError)
| GeminiResponds (text : option string)
                 (groundingChunks : option (list GroundingChunk)).

Inductive GeminiStream : Type :=
| GeminiStreamFails (e : JsError)
| GeminiStreams (chunks : list (option string)) (failure : option JsError).

Record World : Type := {
  (** [parseFloat(s) === 0] *)
  parseFloat_is_zero : string -> bool;
  (** [Date.now()] *)
  Date_now : nat -> Z;
  fetch_openrouter_models : nat -> ORListing;
  fetch_hf_models : nat -> HFListing;
  fetch_openrouter_chat :
    nat -> string -> string -> list ChatMessage -> bool -> ORChatResponse;
  fetch_hf_inference : nat -> string -> string -> string -> HFResponse;
  gemini_generateContent :
    nat -> string -> list Content -> GeminiConfig -> GeminiResponse;
  gemini_generateContentStream :
    nat -> string -> list Content -> GeminiConfig -> GeminiStream;
  (** [getMemories()] *)
  getMemories : list Memory
}.

Inductive Event : Type :=
| EvListOpenRouter
| EvListHuggingFace
| EvOpenRouter (apiKey model : string) (messages : list ChatMessage)
               (stream : bool)
| EvHuggingFace (apiKey model inputs : string)
| EvGemini (model : string) (contents : list Content) (config : GeminiConfig)
           (stream : bool)
| EvChunk (text : string).

Record State : Type := {
  cachedOpenRouterModels : list string;
  cachedHuggingFaceModels : list string;
  lastDiscoveryTime : Z;
  trace : list Event
}.

Definition initialState : State :=
  {| cachedOpenRouterModels := [];
     cachedHuggingFaceModels := [];
     lastDiscoveryTime := 0;
     trace := [] |}.

Definition log (e : Event) (st : State) : State :=
  {| cachedOpenRouterModels := cachedOpenRouterModels st;
     cachedHuggingFaceModels := cachedHuggingFaceModels st;
     lastDiscoveryTime := lastDiscoveryTime st;
     trace := (trace st ++ [e])%list |}.

(** The number of events recorded so far. *)
Definition tick (st : State) : nat := List.length (trace st).

(** An asynchronous function. *)
Definition T (A : Type) : Type := State -> Result A * State.

(** [onChunk(text)] *)
Definition callChunk (cb : Callback) (text : string) (st : State) : State :=
  match cb with
  | CallerCallback => log (EvChunk text) st
  | EmptyCallback => st
  end.

Definition isSome {A : Type} (o : option A) : bool :=
  match o with
  | Some _ => true
  | None => false
  end.

(** [x || d] for a string that may be missing. *)
Definition orDefault (x : option string) (d : string) : string :=
  match x with
  | Some s => if Js.isEmpty s then d else s
  | None => d
  end.

(** ** Safety lists *)

Definition CACHE_DURATION : Z := 1000 * 60 * 60.

Definition SAFETY_FALLBACK_OPENROUTER : list string :=
  [ "deepseek/deepseek-r1:free";
    "google/gemini-2.0-flash-lite-preview-02-05:free";
    "meta-llama/llama-3.3-70b-instruct:free";
    "mistralai/mistral-7b-instruct:free";
    "microsoft/phi-3-medium-128k-instruct:free" ].

Definition SAFETY_FALLBACK_HF : list string :=
  [ "HuggingFaceH4/zephyr-7b-beta";
    "mistralai/Mistral-7B-Instruct-v0.3" ].

Definition getOpenRouterKeys (settings : AISettings) : list string :=
  match openRouterApiKeys settings with
  | [] => []
  | keys => keys
  end.

Definition getHuggingFaceKeys (settings : AISettings) : list string :=
  match huggingFaceApiKeys settings with
  | [] => []
  | keys => keys
  end.

(** ** Discovery *)

Definition getScore (m : ORModel) : Z :=
  let id := Js.toLowerCase (or_id m) in
  ((if Js.includes id "deepseek-r1" then 15 else 0)
   + (if Js.includes id "llama-3" then 10 else 0)
   + (if Js.includes id "mistral" then 8 else 0)
   + (if Js.includes id "gemini" then 8 else 0)
   + (if Js.includes id "70b" then 5 else 0)
   + (if Js.includes id "free" then 1 else 0))%Z.

Definition promptPriceText (m : ORModel) : string :=
  orDefault (match or_pricing m with
             | Some p => pr_prompt p
             | None => None
             end) "1".

Definition completionPriceText (m : ORModel) : string :=
  orDefault (match or_pricing m with
             | Some p => pr_completion p
             | None => None
             end) "1".

Definition isFreeModel (w : World) (m : ORModel) : bool :=
  parseFloat_is_zero w (promptPriceText m)
  && parseFloat_is_zero w (completionPriceText m).

Definition byScore (a b : ORModel) : Z := (getScore b - getScore a)%Z.

(** A comparator that orders by a key, greatest first. *)
Definition byKey {A : Type} (key : A -> Z) (a b : A) : Z := (key b - key a)%Z.

(** The body of the [try] block. *)
Definition freeOpenRouterModels (w : World) (listing : ORListing)
  : Result (list string) :=
  match listing with
  | ORListingFails e => Throw e
  | ORListingBody None => Throw (Error "Invalid OpenRouter response")
  | ORListingBody (Some models) =>
      let freeModels := filter (isFreeModel w) models in
      let sortedModels := Js.sort byScore freeModels in
      let modelIds := map or_id sortedModels in
      Ok (if 0 <? List.length modelIds then modelIds
          else SAFETY_FALLBACK_OPENROUTER)
  end.

Definition discoverFreeOpenRouterModels (w : World) : T (list string) :=
  fun st =>
    let listing := fetch_openrouter_models w (tick st) in
    let st1 := log EvListOpenRouter st in
    match freeOpenRouterModels w listing with
    | Ok ids => (Ok ids, st1)
    | Throw _ => (Ok SAFETY_FALLBACK_OPENROUTER, st1)
    end.

Definition trendingHFModels (listing : HFListing) : Result (list string) :=
  match listing with
  | HFListingFails e => Throw e
  | HFListingBody None => Throw (Error "Invalid HF response")
  | HFListingBody (Some models) =>
      let filtered :=
        filter (fun m => negb (Js.includes (Js.toLowerCase (modelId m))
                                           "gemma-7b")) models in
      let modelIds := map modelId filtered in
      Ok (Js.dedup (SAFETY_FALLBACK_HF ++ modelIds)%list)
  end.

Definition discoverTrendingHFModels (w : World) : T (list string) :=
  fun st =>
    let listing := fetch_hf_models w (tick st) in
    let st1 := log EvListHuggingFace st in
    match trendingHFModels listing with
    | Ok ids => (Ok ids, st1)
    | Throw _ => (Ok SAFETY_FALLBACK_HF, st1)
    end.

(** The failures of discovery: the request fails, the body has not the
    expected shape, or no model is left after filtering. *)
Definition openRouterDiscoveryFails (w : World) (listing : ORListing) : bool :=
  match listing with
  | ORListingFails _ => true
  | ORListingBody None => true
  | ORListingBody (Some models) =>
      List.length (filter (isFreeModel w) models) =? 0
  end.

Definition hfDiscoveryFails (listing : HFListing) : bool :=
  match listing with
  | HFListingFails _ => true
  | HFListingBody None => true
  | HFListingBody (Some models) =>
      List.length
        (filter (fun m => negb (Js.includes (Js.toLowerCase (modelId m))
                                            "gemma-7b")) models) =? 0
  end.

(** Whether [refreshModelCache] refreshes. *)
Definition cacheIsStale (w : World) (st : State) : bool :=
  (Date_now w (tick st) - lastDiscoveryTime st >? CACHE_DURATION)%Z
  || (List.length (cachedOpenRouterModels st) =? 0).

Definition refreshModelCache (w : World) : T unit :=
  fun st =>
    let now := Date_now w (tick st) in
    if cacheIsStale w st then
      match discoverFreeOpenRouterModels w st with
      | (Throw e, st1) => (Throw e, st1)
      | (Ok orModels, st1) =>
          match discoverTrendingHFModels w st1 with
          | (Throw e, st2) => (Throw e, st2)
          | (Ok hfModels, st2) =>
              (Ok tt,
               {| cachedOpenRouterModels := orModels;
                  cachedHuggingFaceModels := hfModels;
                  lastDiscoveryTime := now;
                  trace := trace st2 |})
          end
      end
    else (Ok tt, st).

(** ** Swarm model selection *)

(** [set.add(x)] on a [Set] held in insertion order. *)
Definition setAdd (x : string) (s : list string) : list string :=
  if existsb (String.eqb x) s then s else (s ++ [x])%list.

Definition setAddAll (xs : list string) (s : list string) : list string :=
  fold_left (fun acc x => setAdd x acc) xs s.

(** The loop that fills the set from the front of the catalog. *)
Fixpoint fillSelected (available : list string) (selected : list string)
  : list string :=
  match available with
  | [] => selected
  | m :: rest =>
      if 5 <=? List.length selected then selected
      else fillSelected rest (setAdd m selected)
  end.

Definition selectSwarmModels (prompt : string) (availableModels : list string)
  : list string :=
  match availableModels with
  | [] => firstn 3 SAFETY_FALLBACK_OPENROUTER
  | _ =>
      let lowerPrompt := Js.toLowerCase prompt in
      let isCoding :=
        Js.includes lowerPrompt "code" || Js.includes lowerPrompt "function"
        || Js.includes lowerPrompt "script" || Js.includes lowerPrompt "html" in
      let isReasoning :=
        Js.includes lowerPrompt "why" || Js.includes lowerPrompt "explain"
        || Js.includes lowerPrompt "solve" || Js.includes lowerPrompt "think" in
      let codingModels :=
        filter (fun m => Js.includes m "coder" || Js.includes m "deepseek"
                         || Js.includes m "flash") availableModels in
      let reasoningModels :=
        filter (fun m => Js.includes m "r1" || Js.includes m "llama"
                         || Js.includes m "mistral") availableModels in
      let selected0 :=
        if isCoding then setAddAll (firstn 2 codingModels) []
        else if isReasoning then setAddAll (firstn 2 reasoningModels) []
        else [] in
      let selected1 :=
        setAddAll (firstn 1 (filter (fun m => Js.includes m "llama-3")
                                    availableModels)) selected0 in
      let selected2 :=
        setAddAll (firstn 1 (filter (fun m => Js.includes m "gemini")
                                    availableModels)) selected1 in
      let selected3 :=
        setAddAll (firstn 1 (filter (fun m => Js.includes m "mistral")
                                    availableModels)) selected2 in
      firstn 5 (fillSelected availableModels selected3)
  end.

(** ** The provider adapters *)

(** The outcome of a retry loop that has not thrown: a value to return,
    or the last error seen so far. *)
Inductive Loop : Type :=
| Return (text : string)
| Continue (lastError : option JsError).

(** [`${lastError}`] *)
Definition lastErrorText (lastError : option JsError) : string :=
  match lastError with
  | Some e => errorToString e
  | None => "undefined"
  end.

(** *** The primary provider *)

Fixpoint streamChunks (cb : Callback) (chunks : list (option string))
  (fullResponse : string) (st : State) : string * State :=
  match chunks with
  | [] => (fullResponse, st)
  | chunk :: rest =>
      match chunk with
      | Some text =>
          if Js.isEmpty text then streamChunks cb rest fullResponse st
          else streamChunks cb rest (fullResponse ++ text) (callChunk cb text st)
      | None => streamChunks cb rest fullResponse st
      end
  end.

Definition groundingSources (chunks : list GroundingChunk) : list string :=
  flat_map (fun c =>
    match web c with
    | Some (title, Some uri) =>
        if Js.isEmpty uri then [] else ["[" ++ title ++ "](" ++ uri ++ ")"]
    | _ => []
    end) chunks.

Definition groundingText (groundingChunks : option (list GroundingChunk))
  : string :=
  match groundingChunks with
  | Some chunks =>
      let sources := groundingSources chunks in
      if 0 <? List.length sources then
        Js.nl ++ Js.nl ++ "**Sources:**" ++ Js.nl
        ++ Js.join Js.nl (Js.dedup sources)
      else ""
  | None => ""
  end.

Definition callGemini (w : World) (model : string) (contents : list Content)
  (config : GeminiConfig) (onChunk : option Callback) : T string :=
  fun st =>
    match onChunk with
    | Some cb =>
        let stream := gemini_generateContentStream w (tick st) model contents config in
        let st1 := log (EvGemini model contents config true) st in
        match stream with
        | GeminiStreamFails e => (Throw e, st1)
        | GeminiStreams chunks failure =>
            let (fullResponse, st2) := streamChunks cb chunks "" st1 in
            match failure with
            | Some e => (Throw e, st2)
            | None => (Ok fullResponse, st2)
            end
        end
    | None =>
        let response := gemini_generateContent w (tick st) model contents config in
        let st1 := log (EvGemini model contents config false) st in
        match response with
        | GeminiFails e => (Throw e, st1)
        | GeminiResponds text groundingChunks =>
            (Ok (orDefault text "" ++ groundingText groundingChunks), st1)
        end
    end.

(** *** The marketplace *)

Definition statusOk (status : Z) : bool :=
  (200 <=? status)%Z && (status <=? 299)%Z.

Definition mentionsCode (m : string) : Z :=
  if Js.includes m "coder" || Js.includes m "deepseek" then 1%Z else 0%Z.

Definition byCoding (a b : string) : Z := (mentionsCode b - mentionsCode a)%Z.

Fixpoint streamDeltas (cb : Callback) (deltas : list string)
  (fullResponse : string) (st : State) : string * State :=
  match deltas with
  | [] => (fullResponse, st)
  | chunk :: rest =>
      if Js.isEmpty chunk then streamDeltas cb rest fullResponse st
      else streamDeltas cb rest (fullResponse ++ chunk) (callChunk cb chunk st)
  end.

(** The loop over the credentials, for one model. *)
Fixpoint openRouterKeys (w : World) (messages : list ChatMessage)
  (onChunk : option Callback) (modelName : string) (apiKeys : list string)
  (lastError : option JsError) (st : State) : Loop * State :=
  match apiKeys with
  | [] => (Continue lastError, st)
  | apiKey :: rest =>
      let response :=
        fetch_openrouter_chat w (tick st) apiKey modelName messages
                              (isSome onChunk) in
      let st1 := log (EvOpenRouter apiKey modelName messages (isSome onChunk)) st in
      match response with
      | ORChatFails e =>
          openRouterKeys w messages onChunk modelName rest (Some e) st1
      | ORChatResponds status body =>
          if negb (statusOk status) then
            if (status =? 401)%Z || (status =? 402)%Z || (status =? 429)%Z
            then openRouterKeys w messages onChunk modelName rest lastError st1
            else (Continue lastError, st1)
          else
            match onChunk with
            | Some cb =>
                let (fullResponse, st2) :=
                  streamDeltas cb (or_deltas body) "" st1 in
                match or_readError body with
                | Some e =>
                    openRouterKeys w messages onChunk modelName rest (Some e) st2
                | None => (Return fullResponse, st2)
                end
            | None =>
                match or_json body with
                | Ok text => (Return text, st1)
                | Throw e =>
                    openRouterKeys w messages onChunk modelName rest (Some e) st1
                end
            end
      end
  end.

(** The loop over the models. *)
Fixpoint openRouterModels (w : World) (messages : list ChatMessage)
  (onChunk : option Callback) (apiKeys : list string)
  (modelsToTry : list string) (lastError : option JsError) (st : State)
  : Loop * State :=
  match modelsToTry with
  | [] => (Continue lastError, st)
  | modelName :: rest =>
      match openRouterKeys w messages onChunk modelName apiKeys lastError st with
      | (Return text, st1) => (Return text, st1)
      | (Continue lastError1, st1) =>
          openRouterModels w messages onChunk apiKeys rest lastError1 st1
      end
  end.

(** A pinned model that is the empty string counts as absent. *)
Definition pinned (specificModel : option string) : option string :=
  match specificModel with
  | Some m => if Js.isEmpty m then None else Some m
  | None => None
  end.

Definition callOpenRouter (w : World) (messages : list ChatMessage)
  (apiKeys : list string) (onChunk : option Callback)
  (specificModel : option string) : T string :=
  fun st =>
    match (if List.length (cachedOpenRouterModels st) =? 0
           then refreshModelCache w st else (Ok tt, st)) with
    | (Throw e, st0) => (Throw e, st0)
    | (Ok _, st0) =>
        let modelsToTry :=
          match pinned specificModel with
          | Some m => [m]
          | None =>
              let isCoding :=
                existsb (fun m => Js.includes (content m) "code"
                                  || Js.includes (content m) "function")
                        messages in
              if isCoding then Js.sort byCoding (cachedOpenRouterModels st0)
              else cachedOpenRouterModels st0
          end in
        match openRouterModels w messages onChunk apiKeys modelsToTry None st0 with
        | (Return text, st1) => (Ok text, st1)
        | (Continue lastError, st1) =>
            (Throw (Error ("OpenRouter failed for model "
                           ++ match pinned specificModel with
                              | Some m => m
                              | None => "auto"
                              end
                           ++ ". Last error: " ++ lastErrorText lastError)),
             st1)
        end
    end.

(** *** The inference endpoint *)

Definition typeError : JsError :=
  mkError "TypeError" "Cannot read properties of undefined".

(** The statements after [await response.json()], for one response
    body. *)
Definition huggingFaceText (body : HFData) : Result string :=
  let loading :=
    match body with
    | HFObject (Some error) _ =>
        negb (Js.isEmpty error) && Js.includes error "loading"
    | _ => false
    end in
  if loading then Throw (Error "Model loading")
  else
    match body with
    | HFNull => Throw typeError
    | HFArray [] => Throw typeError
    | _ =>
        let generatedText :=
          match body with
          | HFArray (first :: _) => orDefault first ""
          | HFObject _ generated_text => orDefault generated_text ""
          | HFString s => s
          | _ => ""
          end in
        if Js.isEmpty generatedText then Throw (Error "Empty response")
        else Ok generatedText
    end.

Fixpoint huggingFaceKeys (w : World) (fullPrompt : string) (model : string)
  (apiKeys : list string) (lastError : option JsError) (st : State)
  : Loop * State :=
  match apiKeys with
  | [] => (Continue lastError, st)
  | apiKey :: rest =>
      let response := fetch_hf_inference w (tick st) apiKey model fullPrompt in
      let st1 := log (EvHuggingFace apiKey model fullPrompt) st in
      match response with
      | HFFails e => huggingFaceKeys w fullPrompt model rest (Some e) st1
      | HFResponds status body =>
          if negb (statusOk status) then
            if (status =? 401)%Z || (status =? 429)%Z
            then huggingFaceKeys w fullPrompt model rest lastError st1
            else (Continue lastError, st1)
          else
            match body with
            | Throw e => huggingFaceKeys w fullPrompt model rest (Some e) st1
            | Ok data =>
                match huggingFaceText data with
                | Ok generatedText => (Return generatedText, st1)
                | Throw e =>
                    huggingFaceKeys w fullPrompt model rest (Some e) st1
                end
            end
      end
  end.

Fixpoint huggingFaceModels (w : World) (fullPrompt : string)
  (apiKeys : list string) (models : list string)
  (lastError : option JsError) (st : State) : Loop * State :=
  match models with
  | [] => (Continue lastError, st)
  | model :: rest =>
      match huggingFaceKeys w fullPrompt model apiKeys lastError st with
      | (Return text, st1) => (Return text, st1)
      | (Continue lastError1, st1) =>
          huggingFaceModels w fullPrompt apiKeys rest lastError1 st1
      end
  end.

Definition huggingFacePrompt (prompt : string)
  (systemInstruction : option string) : string :=
  match systemInstruction with
  | Some sys =>
      if Js.isEmpty sys
      then "<|user|>" ++ Js.nl ++ prompt ++ "</s>" ++ Js.nl ++ "<|assistant|>"
      else "<|system|>" ++ Js.nl ++ sys ++ "</s>" ++ Js.nl
           ++ "<|user|>" ++ Js.nl ++ prompt ++ "</s>" ++ Js.nl ++ "<|assistant|>"
  | None =>
      "<|user|>" ++ Js.nl ++ prompt ++ "</s>" ++ Js.nl ++ "<|assistant|>"
  end.

Definition callHuggingFace (w : World) (prompt : string)
  (apiKeys : list string) (systemInstruction : option string) : T string :=
  fun st =>
    match (if List.length (cachedHuggingFaceModels st) =? 0
           then refreshModelCache w st else (Ok tt, st)) with
    | (Throw e, st0) => (Throw e, st0)
    | (Ok _, st0) =>
        let fullPrompt := huggingFacePrompt prompt systemInstruction in
        match huggingFaceModels w fullPrompt apiKeys
                (cachedHuggingFaceModels st0) None st0 with
        | (Return text, st1) => (Ok text, st1)
        | (Continue lastError, st1) =>
            (Throw (Error ("Hugging Face failed. Checked models with all keys. Last error: "
                           ++ lastErrorText lastError)),
             st1)
        end
    end.

(** ** The orchestrator and the two engines *)

(** A function that calls the orchestrator: [None] when the depth of
    calls exceeds the fuel. *)
Definition FM (A : Type) : Type := State -> option (Result A * State).

Definition lift {A : Type} (c : T A) : FM A := fun st => Some (c st).

Record Params : Type := {
  p_prompt : string;
  p_history : list Message;
  p_settings : AISettings;
  p_systemInstruction : option string;
  p_jsonMode : bool;
  p_files : list File;
  p_useTools : bool;
  p_onChunk : option Callback
}.

Definition withProvider (settings : AISettings) (p : AIProvider) : AISettings :=
  {| provider := p;
     openRouterApiKeys := openRouterApiKeys settings;
     openRouterKeyIndex := openRouterKeyIndex settings;
     huggingFaceApiKeys := huggingFaceApiKeys settings;
     huggingFaceKeyIndex := huggingFaceKeyIndex settings;
     isComplexTaskMode := isComplexTaskMode settings |}.

Definition withoutComplexTaskMode (settings : AISettings) : AISettings :=
  {| provider := provider settings;
     openRouterApiKeys := openRouterApiKeys settings;
     openRouterKeyIndex := openRouterKeyIndex settings;
     huggingFaceApiKeys := huggingFaceApiKeys settings;
     huggingFaceKeyIndex := huggingFaceKeyIndex settings;
     isComplexTaskMode := false |}.

Definition notify (onChunk : option Callback) (text : string) (st : State)
  : State :=
  match onChunk with
  | Some cb => callChunk cb text st
  | None => st
  end.

(** *** Swarm *)

Record SwarmResult : Type := {
  sr_model : string;
  sr_text : string;
  sr_success : bool
}.

Definition chatRole (s : Sender) : string :=
  match s with
  | user => "user"
  | ai => "assistant"
  end.

Definition chatHistory (history : list Message) : list ChatMessage :=
  map (fun msg => {| role := chatRole (msg_sender msg);
                     content := msg_text msg |}) history.

Definition swarmMessages (prompt : string) (history : list Message)
  : list ChatMessage :=
  ({| role := "system";
      content := "You are an expert AI. Answer the user's prompt accurately." |}
   :: chatHistory history
   ++ [ {| role := "user"; content := prompt |} ])%list.

(** The calls of [Promise.all], in the order of [swarmModels]. *)
Fixpoint swarmCalls (w : World) (messages : list ChatMessage)
  (apiKeys : list string) (swarmModels : list string) (st : State)
  : list SwarmResult * State :=
  match swarmModels with
  | [] => ([], st)
  | model :: rest =>
      let (r, st1) := callOpenRouter w messages apiKeys None (Some model) st in
      let result :=
        match r with
        | Ok text => {| sr_model := model; sr_text := text; sr_success := true |}
        | Throw err =>
            {| sr_model := model;
               sr_text := "Failed: " ++ err_message err;
               sr_success := false |}
        end in
      let (results, st2) := swarmCalls w messages apiKeys rest st1 in
      (result :: results, st2)
  end.

Definition isSuccessful (r : SwarmResult) : bool :=
  sr_success r && negb (Js.isEmpty (sr_text r)).

Fixpoint modelSections (i : nat) (rs : list SwarmResult) : list string :=
  match rs with
  | [] => []
  | r :: rest =>
      ("--- MODEL " ++ Js.nat_to_string (i + 1) ++ ": " ++ sr_model r ++ " ---"
       ++ Js.nl ++ sr_text r) :: modelSections (S i) rest
  end.

Definition swarmSynthesisPrompt (prompt : string)
  (successfulResponses : list SwarmResult) : string :=
  Js.nl
  ++ "    You are a Super-Intelligence Consensus Engine." ++ Js.nl
  ++ "    I have queried " ++ Js.nat_to_string (List.length successfulResponses)
  ++ " different AI models about the following prompt: "
  ++ Js.dq ++ prompt ++ Js.dq ++ "." ++ Js.nl
  ++ "    " ++ Js.nl
  ++ "    Here are their responses:" ++ Js.nl
  ++ "    " ++ Js.join (Js.nl ++ Js.nl) (modelSections 0 successfulResponses)
  ++ Js.nl
  ++ "    " ++ Js.nl
  ++ "    TASK:" ++ Js.nl
  ++ "    1. Analyze all responses." ++ Js.nl
  ++ "    2. Identify the most correct, detailed, and logical information."
  ++ Js.nl
  ++ "    3. Resolve any conflicts between models using your own superior reasoning."
  ++ Js.nl
  ++ "    4. Generate ONE perfect, comprehensive response that combines the strengths of all models."
  ++ Js.nl
  ++ "    5. Do not explicitly mention " ++ Js.dq ++ "Model 1 said this" ++ Js.dq
  ++ ", just give the final answer." ++ Js.nl
  ++ "    ".

(** The two notices are sent as UTF-8 bytes. *)
Definition brain : string :=
  String (ascii_of_nat 240) (String (ascii_of_nat 159)
    (String (ascii_of_nat 167) (String (ascii_of_nat 160) ""))).

Definition checkMark : string :=
  String (ascii_of_nat 226) (String (ascii_of_nat 156)
    (String (ascii_of_nat 133) "")).

Definition swarmActivated (n : nat) : string :=
  brain ++ " **Swarm Activated**" ++ Js.nl ++ "Querying " ++ Js.nat_to_string n
  ++ " distinct AI models in parallel for maximum accuracy..." ++ Js.nl ++ Js.nl.

Definition swarmReceived (n : nat) : string :=
  Js.nl ++ checkMark ++ " Received " ++ Js.nat_to_string n
  ++ " responses. Synthesizing final answer..." ++ Js.nl ++ Js.nl.

Definition swarmSynthesisParams (prompt : string) (settings : AISettings)
  (onChunk : option Callback) (successfulResponses : list SwarmResult)
  : Params :=
  {| p_prompt := swarmSynthesisPrompt prompt successfulResponses;
     p_history := [];
     p_settings := withProvider (withoutComplexTaskMode settings) gemini;
     p_systemInstruction := Some "You are the Chief Intelligence Synthesizer.";
     p_jsonMode := false;
     p_files := [];
     p_useTools := false;
     p_onChunk := onChunk |}.

(** *** The provider trial list *)

Definition providerList (settings : AISettings) : list AIProvider :=
  ([provider settings]
   ++ (if negb (AIProvider_eqb (provider settings) gemini)
       then [gemini] else [])
   ++ (if negb (AIProvider_eqb (provider settings) openrouter)
          && (0 <? List.length (getOpenRouterKeys settings))
       then [openrouter] else [])
   ++ (if negb (AIProvider_eqb (provider settings) huggingface)
          && (0 <? List.length (getHuggingFaceKeys settings))
       then [huggingface] else []))%list.

(** [lastError instanceof Error ? lastError.message : String(lastError)] *)
Definition lastErrorMessage (lastError : option JsError) : string :=
  match lastError with
  | Some e => err_message e
  | None => "null"
  end.

(** The loop over the providers; [run] is the body of its [try]. *)
Fixpoint tryProviders (run : AIProvider -> FM string)
  (providers : list AIProvider) (lastError : option JsError) : FM string :=
  fun st =>
    match providers with
    | [] =>
        Some (Throw (Error ("All AI providers failed. Last error: "
                            ++ lastErrorMessage lastError)), st)
    | currentProvider :: rest =>
        match run currentProvider st with
        | None => None
        | Some (Ok text, st1) => Some (Ok text, st1)
        | Some (Throw error, st1) => tryProviders run rest (Some error) st1
        end
    end.

Definition geminiModel (settings : AISettings) (files : list File) : string :=
  if isComplexTaskMode settings then "gemini-3-pro-preview"
  else if 0 <? List.length files then "gemini-2.5-flash"
  else "gemini-2.5-flash".

Definition geminiConfig (params : Params) : GeminiConfig :=
  {| systemInstruction := p_systemInstruction params;
     thinkingBudget :=
       if isComplexTaskMode (p_settings params) then Some 32768%Z else None;
     responseMimeType :=
       if p_jsonMode params then Some "application/json" else None;
     googleSearch := p_useTools params && negb (p_jsonMode params) |}.

Definition geminiRole (s : Sender) : string :=
  match s with
  | user => "user"
  | ai => "model"
  end.

Definition geminiContents (params : Params) : list Content :=
  (map (fun msg => {| c_role := geminiRole (msg_sender msg);
                      c_parts := [TextPart (msg_text msg)] |})
       (p_history params)
   ++ [ {| c_role := "user";
           c_parts := TextPart (p_prompt params)
                      :: map (fun f => InlineData (mimeType f) (data f))
                             (p_files params) |} ])%list.

Definition openRouterMessages (params : Params) : list ChatMessage :=
  ({| role := "system";
      content := orDefault (p_systemInstruction params)
                           "You are a helpful AI assistant." |}
   :: chatHistory (p_history params)
   ++ [ {| role := "user";
           content :=
             if p_jsonMode params
             then p_prompt params ++ Js.nl ++ Js.nl
                  ++ "IMPORTANT: Respond with valid JSON only. Do not add Markdown blocks."
             else p_prompt params |} ])%list.

Definition huggingFaceFinalPrompt (params : Params) : string :=
  let promptWithContext :=
    Js.join Js.nl (map (fun m => senderName (msg_sender m) ++ ": " ++ msg_text m)
                       (p_history params))
    ++ Js.nl ++ "User: " ++ p_prompt params in
  if p_jsonMode params
  then promptWithContext ++ Js.nl ++ Js.nl ++ "Respond with valid JSON only."
  else promptWithContext.

(** *** Hybrid *)

Record HybridResult : Type := {
  hr_text : string;
  hr_source : string
}.

Definition hybridBranch (source : string) (r : Result string)
  : option HybridResult :=
  match r with
  | Ok text => Some {| hr_text := text; hr_source := source |}
  | Throw _ => None
  end.

Definition noConfig : GeminiConfig :=
  {| systemInstruction := None;
     thinkingBudget := None;
     responseMimeType := None;
     googleSearch := false |}.

(** The branches of [Promise.all], in the order they are pushed. *)
Definition hybridCalls (w : World) (prompt : string) (settings : AISettings)
  (st : State) : list (option HybridResult) * State :=
  let (g, st1) :=
    callGemini w "gemini-2.5-pro"
      [ {| c_role := "user"; c_parts := [TextPart prompt] |} ] noConfig None st in
  let orKeys := getOpenRouterKeys settings in
  let (o, st2) :=
    if 0 <? List.length orKeys then
      let (r, st') :=
        callOpenRouter w [ {| role := "user"; content := prompt |} ] orKeys
                       None None st1 in
      ([hybridBranch "OpenRouter (Dynamic)" r], st')
    else ([], st1) in
  let hfKeys := getHuggingFaceKeys settings in
  let (h, st3) :=
    if 0 <? List.length hfKeys then
      let (r, st') := callHuggingFace w prompt hfKeys None st2 in
      ([hybridBranch "HuggingFace (Dynamic)" r], st')
    else ([], st2) in
  ((hybridBranch "Gemini" g :: o ++ h)%list, st3).

Definition validResults (results : list (option HybridResult))
  : list HybridResult :=
  flat_map (fun r => match r with Some x => [x] | None => [] end) results.

Definition hybridSynthesisPrompt (valid : list HybridResult) : string :=
  "Synthesize these AI responses into one perfect answer:" ++ Js.nl ++ Js.nl
  ++ Js.join (Js.nl ++ Js.nl)
       (map (fun r => "--- " ++ hr_source r ++ " ---" ++ Js.nl ++ hr_text r)
            valid).

Definition hybridSynthesisParams (settings : AISettings)
  (valid : list HybridResult) : Params :=
  {| p_prompt := hybridSynthesisPrompt valid;
     p_history := [];
     p_settings := settings;
     p_systemInstruction := Some "You are a Super-Intelligence Synthesis Engine.";
     p_jsonMode := false;
     p_files := [];
     p_useTools := false;
     p_onChunk := None |}.

(** *** Memories *)

(** [memoryService.offlineMemorySearch] *)
Definition keywordScore (mem : Memory) (word : string) : Z :=
  let textToSearch :=
    Js.toLowerCase (mem_title mem ++ " " ++ Js.join " " (mem_tags mem)
                    ++ " " ++ mem_content mem) in
  ((if Js.includes textToSearch word then 1 else 0)
   + (if Js.includes (Js.toLowerCase (mem_title mem)) word then 2 else 0)
   + (if existsb (fun t => Js.includes (Js.toLowerCase t) word) (mem_tags mem)
      then 2 else 0))%Z.

Definition memoryScore (keywords : list string) (mem : Memory) : Z :=
  fold_left (fun score word => (score + keywordScore mem word)%Z) keywords 0%Z.

Definition offlineMemorySearch (query : string) (memories : list Memory)
  : list string :=
  if Js.isEmpty (Js.trim query) then []
  else
    let keywords :=
      filter (fun w => 3 <? String.length w)
             (Js.splitSpaces (Js.toLowerCase query)) in
    if List.length keywords =? 0 then []
    else
      let scoredMemories :=
        map (fun mem => (mem, memoryScore keywords mem)) memories in
      map (fun item =>
             "[Memory (Offline Match): " ++ mem_title (fst item) ++ " ("
             ++ mem_timestamp (fst item) ++ ")]" ++ Js.nl
             ++ mem_content (fst item))
          (firstn 3
             (Js.sort (fun a b => (snd b - snd a)%Z)
                (filter (fun item => (0 <? snd item)%Z) scoredMemories))).

Definition memoryIndex (memories : list Memory) : Json.json :=
  Json.JArray
    (map (fun m =>
            Json.JObject
              [ ("id", Json.JString (mem_id m));
                ("title", Json.JString (mem_title m));
                ("tags", Json.JString (Js.join ", " (mem_tags m))) ])
         memories).

Definition memoryQueryParams (query : string) (settings : AISettings)
  (memories : list Memory) : Params :=
  {| p_prompt :=
       "Query: " ++ Js.dq ++ query ++ Js.dq ++ Js.nl ++ "Memories: "
       ++ Json.stringify (memoryIndex memories) ++ Js.nl ++ "Return JSON array.";
     p_history := [];
     p_settings := settings;
     p_systemInstruction :=
       Some ("Semantic Memory Retriever. Return JSON array of relevant IDs: ["
             ++ Js.dq ++ "id1" ++ Js.dq ++ "].");
     p_jsonMode := true;
     p_files := [];
     p_useTools := false;
     p_onChunk := None |}.

(** [memories.filter(m => relevantIds.includes(m.id))]: [includes] of an
    array or of a string; any other value has none. *)
Definition relevantMemories (relevantIds : Json.json) (memories : list Memory)
  : Result (list Memory) :=
  match relevantIds with
  | Json.JArray ids =>
      Ok (filter (fun m =>
                    existsb (fun x => match x with
                                      | Json.JString s => String.eqb s (mem_id m)
                                      | _ => false
                                      end) ids) memories)
  | Json.JString s => Ok (filter (fun m => Js.includes s (mem_id m)) memories)
  | _ => Throw (mkError "TypeError" "relevantIds.includes is not a function")
  end.

Definition memoryLine (m : Memory) : string :=
  "[Memory: " ++ mem_title m ++ "]" ++ Js.nl ++ mem_content m.

Definition memoryContext (relevant : list string) : string :=
  if 0 <? List.length relevant
  then Js.nl ++ Js.nl ++ "[LONG-TERM MEMORY CONTEXT]:" ++ Js.nl
       ++ Js.join Js.nl relevant ++ Js.nl
  else "".

Definition chatParams (prompt : string) (history : list Message)
  (settings : AISettings) (files : list File) (onChunk : option Callback)
  (context : string) : Params :=
  {| p_prompt := if Js.isEmpty context then prompt
                 else context ++ Js.nl ++ prompt;
     p_history := history;
     p_settings := settings;
     p_systemInstruction :=
       Some "You are Ahmad AI, an expert software engineer and helpful personal assistant. Respond in Markdown.";
     p_jsonMode := false;
     p_files := files;
     p_useTools := false;
     p_onChunk := onChunk |}.

(** The body of the [try] in the loop over the providers; [hybridEngine]
    is [getMultiModelResponse]. *)
Definition runProvider
  (hybridEngine : string -> list Message -> AISettings -> Callback -> FM string)
  (w : World) (params : Params) (currentProvider : AIProvider) : FM string :=
  let settings := p_settings params in
  match currentProvider with
  | hybrid =>
      hybridEngine (p_prompt params) (p_history params) settings
        (match p_onChunk params with
         | Some cb => cb
         | None => EmptyCallback
         end)
  | gemini =>
      lift (callGemini w (geminiModel settings (p_files params))
              (geminiContents params) (geminiConfig params) (p_onChunk params))
  | openrouter =>
      let apiKeys := getOpenRouterKeys settings in
      if List.length apiKeys =? 0
      then fun st => Some (Throw (Error "No OpenRouter Keys"), st)
      else lift (callOpenRouter w (openRouterMessages params) apiKeys
                   (p_onChunk params) None)
  | huggingface =>
      let apiKeys := getHuggingFaceKeys settings in
      if List.length apiKeys =? 0
      then fun st => Some (Throw (Error "No Hugging Face Keys"), st)
      else lift (callHuggingFace w (huggingFaceFinalPrompt params) apiKeys
                   (p_systemInstruction params))
  end.

(** Whether the orchestrator tries the swarm first. *)
Definition swarmEligible (params : Params) : bool :=
  isComplexTaskMode (p_settings params)
  && (0 <? List.length (getOpenRouterKeys (p_settings params)))
  && (List.length (p_files params) =? 0) && negb (p_jsonMode params).

(** *** The five functions that call one another *)

Fixpoint executeWithFallback (fuel : nat) (w : World) (params : Params)
  : FM string :=
  match fuel with
  | O => fun _ => None
  | S f => fun st =>
      let settings := p_settings params in
      (* refreshModelCache().catch(console.error) *)
      let st0 := snd (refreshModelCache w st) in
      let standard :=
        tryProviders (runProvider (getMultiModelResponse f w) w params)
                     (providerList settings) None in
      if swarmEligible params
      then
        match executeOpenRouterSwarm f w (p_prompt params) (p_history params)
                settings (p_onChunk params) st0 with
        | None => None
        | Some (Ok text, st1) => Some (Ok text, st1)
        | Some (Throw _, st1) => standard st1
        end
      else standard st0
  end

with executeOpenRouterSwarm (fuel : nat) (w : World) (prompt : string)
  (history : list Message) (settings : AISettings)
  (onChunk : option Callback) : FM string :=
  match fuel with
  | O => fun _ => None
  | S f => fun st =>
      let apiKeys := getOpenRouterKeys settings in
      if List.length apiKeys =? 0
      then Some (Throw (Error "Swarm mode requires OpenRouter Keys"), st)
      else
        match refreshModelCache w st with
        | (Throw e, st1) => Some (Throw e, st1)
        | (Ok _, st1) =>
            let swarmModels :=
              selectSwarmModels prompt (cachedOpenRouterModels st1) in
            let st2 :=
              notify onChunk (swarmActivated (List.length swarmModels)) st1 in
            let (results, st3) :=
              swarmCalls w (swarmMessages prompt history) apiKeys swarmModels st2 in
            let successfulResponses := filter isSuccessful results in
            if List.length successfulResponses =? 0
            then Some (Throw (Error "Swarm failed: All models returned errors."),
                       st3)
            else
              let st4 :=
                notify onChunk
                  (swarmReceived (List.length successfulResponses)) st3 in
              executeWithFallback f w
                (swarmSynthesisParams prompt settings onChunk
                   successfulResponses) st4
        end
  end

with getMultiModelResponse (fuel : nat) (w : World) (prompt : string)
  (history : list Message) (settings : AISettings) (onChunk : Callback)
  : FM string :=
  match fuel with
  | O => fun _ => None
  | S f => fun st =>
      match refreshModelCache w st with
      | (Throw e, st1) => Some (Throw e, st1)
      | (Ok _, st1) =>
          if (List.length (openRouterApiKeys settings) =? 0)
             && (List.length (huggingFaceApiKeys settings) =? 0)
          then getChatResponse f w prompt history (withProvider settings gemini)
                 [] (Some onChunk) st1
          else
            let (results, st2) := hybridCalls w prompt settings st1 in
            let valid := validResults results in
            if List.length valid =? 0
            then Some (Throw (Error "Hybrid synthesis failed: All models failed."),
                       st2)
            else executeWithFallback f w (hybridSynthesisParams settings valid) st2
      end
  end

with getChatResponse (fuel : nat) (w : World) (prompt : string)
  (history : list Message) (settings : AISettings) (files : list File)
  (onChunk : option Callback) : FM string :=
  match fuel with
  | O => fun _ => None
  | S f => fun st =>
      let retrieved :=
        if List.length files =? 0
        then retrieveRelevantMemories f w prompt settings st
        else Some (Ok [], st) in
      match retrieved with
      | None => None
      | Some (r, st1) =>
          let context :=
            match r with
            | Ok relevant => memoryContext relevant
            | Throw _ => ""
            end in
          executeWithFallback f w
            (chatParams prompt history settings files onChunk context) st1
      end
  end

with retrieveRelevantMemories (fuel : nat) (w : World) (query : string)
  (settings : AISettings) : FM (list string) :=
  match fuel with
  | O => fun _ => None
  | S f => fun st =>
      let memories := getMemories w in
      if List.length memories =? 0 then Some (Ok [], st)
      else
        match executeWithFallback f w
                (memoryQueryParams query settings memories) st with
        | None => None
        | Some (Throw _, st1) => Some (Ok (offlineMemorySearch query memories), st1)
        | Some (Ok text, st1) =>
            match sanitizeAndParseJson text with
            | Throw _ => Some (Ok (offlineMemorySearch query memories), st1)
            | Ok relevantIds =>
                match relevantMemories relevantIds memories with
                | Throw _ =>
                    Some (Ok (offlineMemorySearch query memories), st1)
                | Ok found => Some (Ok (map memoryLine found), st1)
                end
            end
        end
  end.

(** ** Vocabulary of the statements *)

Definition logAll (events : list Event) (st : State) : State :=
  fold_left (fun s e => log e s) events st.

(** An inference response that says the model is still loading. *)
Definition reportsLoading (r : HFResponse) : bool :=
  match r with
  | HFResponds status (Ok (HFObject (Some error) _)) =>
      statusOk status && negb (Js.isEmpty error) && Js.includes error "loading"
  | _ => false
  end.

(** An inference response that carries the generated text [t]. *)
Definition generates (r : HFResponse) (t : string) : Prop :=
  exists status body,
    r = HFResponds status (Ok body) /\ statusOk status = true
    /\ huggingFaceText body = Ok t.

(** The requests of the inference adapter for [models], each with every
    credential. *)
Definition hfAttempts (fullPrompt : string) (apiKeys models : list string)
  : list Event :=
  flat_map (fun m => map (fun k => EvHuggingFace k m fullPrompt) apiKeys) models.

(** Events that are not requests to the marketplace or to the
    inference endpoint. *)
Definition primaryOnly (e : Event) : bool :=
  match e with
  | EvOpenRouter _ _ _ _ | EvHuggingFace _ _ _ => false
  | _ => true
  end.




(** [st'] is [st] after events none of which is a request to the
    marketplace or to the inference endpoint; the catalogs may differ. *)
Definition primaryOnlySince (st st' : State) : Prop :=
  exists events,
    trace st' = (trace st ++ events)%list /\ forallb primaryOnly events = true.


(** ** Sample environments *)

Definition networkDown : JsError := mkError "TypeError" "Failed to fetch".

Definition noBody : ORBody :=
  {| or_json := Throw networkDown; or_deltas := []; or_readError := None |}.

(** Nothing answers, and no memory is stored. *)
Definition offline : World :=
  {| parseFloat_is_zero := fun s => String.eqb s "0";
     Date_now := fun _ => 0%Z;
     fetch_openrouter_models := fun _ => ORListingFails networkDown;
     fetch_hf_models := fun _ => HFListingFails networkDown;
     fetch_openrouter_chat := fun _ _ _ _ _ => ORChatFails networkDown;
     fetch_hf_inference := fun _ _ _ _ => HFFails networkDown;
     gemini_generateContent := fun _ _ _ _ => GeminiFails networkDown;
     gemini_generateContentStream := fun _ _ _ _ => GeminiStreamFails networkDown;
     getMemories := [] |}.

Definition priced (id prompt completion : string) : ORModel :=
  {| or_id := id;
     or_pricing := Some {| pr_prompt := Some prompt;
                           pr_completion := Some completion |} |}.

Definition sampleListing : list ORModel :=
  [ priced "mistralai/mistral-7b-instruct:free" "0" "0";
    priced "openai/gpt-4o" "0.0000025" "0.00001";
    priced "deepseek/deepseek-r1:free" "0" "0";
    priced "qwen/qwen-2.5-72b-instruct:free" "0" "0";
    priced "google/gemini-2.0-flash-exp:free" "0" "0" ].

(** The marketplace lists [sampleListing]; nothing else answers. *)
Definition listingOnly : World :=
  {| parseFloat_is_zero := parseFloat_is_zero offline;
     Date_now := Date_now offline;
     fetch_openrouter_models := fun _ => ORListingBody (Some sampleListing);
     fetch_hf_models := fetch_hf_models offline;
     fetch_openrouter_chat := fetch_openrouter_chat offline;
     fetch_hf_inference := fetch_hf_inference offline;
     gemini_generateContent := gemini_generateContent offline;
     gemini_generateContentStream := gemini_generateContentStream offline;
     getMemories := [] |}.

Definition okBody (text : string) : ORBody :=
  {| or_json := Ok text; or_deltas := [text]; or_readError := None |}.

(** The first credential is rate limited at the marketplace and has
    run out of credit at the inference endpoint; the second one works. *)
Definition firstKeySpent : World :=
  {| parseFloat_is_zero := parseFloat_is_zero offline;
     Date_now := Date_now offline;
     fetch_openrouter_models := fetch_openrouter_models offline;
     fetch_hf_models := fetch_hf_models offline;
     fetch_openrouter_chat := fun _ apiKey _ _ _ =>
       if String.eqb apiKey "k1" then ORChatResponds 429 noBody
       else ORChatResponds 200 (okBody "hello");
     fetch_hf_inference := fun _ apiKey _ _ =>
       if String.eqb apiKey "k1" then HFResponds 402 (Throw networkDown)
       else HFResponds 200 (Ok (HFArray [Some "hello"]));
     gemini_generateContent := gemini_generateContent offline;
     gemini_generateContentStream := gemini_generateContentStream offline;
     getMemories := [] |}.

Definition hello : list ChatMessage := [ {| role := "user"; content := "hi" |} ].

Definition warmState : State :=
  {| cachedOpenRouterModels := SAFETY_FALLBACK_OPENROUTER;
     cachedHuggingFaceModels := ["a/loading-1"; "b/loading-2"; "c/ready"; "d/spare"];
     lastDiscoveryTime := 0;
     trace := [] |}.

(** Two models are loading, the third one answers. *)
Definition twoLoading : World :=
  {| parseFloat_is_zero := parseFloat_is_zero offline;
     Date_now := Date_now offline;
     fetch_openrouter_models := fetch_openrouter_models offline;
     fetch_hf_models := fetch_hf_models offline;
     fetch_openrouter_chat := fetch_openrouter_chat offline;
     fetch_hf_inference := fun _ _ model _ =>
       if String.eqb model "c/ready"
       then HFResponds 200 (Ok (HFArray [Some "ready text"]))
       else HFResponds 200
              (Ok (HFObject (Some "Model is currently loading") None));
     gemini_generateContent := gemini_generateContent offline;
     gemini_generateContentStream := gemini_generateContentStream offline;
     getMemories := [] |}.

(** Every provider answers, with an empty text. *)
Definition emptyAnswers : World :=
  {| parseFloat_is_zero := parseFloat_is_zero offline;
     Date_now := Date_now offline;
     fetch_openrouter_models := fetch_openrouter_models offline;
     fetch_hf_models := fetch_hf_models offline;
     fetch_openrouter_chat := fun _ _ _ _ _ =>
       ORChatResponds 200
         {| or_json := Ok ""; or_deltas := []; or_readError := None |};
     fetch_hf_inference := fun _ _ _ _ =>
       HFResponds 200 (Ok (HFArray [Some ""]));
     gemini_generateContent := fun _ _ _ _ => GeminiResponds (Some "") None;
     gemini_generateContentStream := fun _ _ _ _ => GeminiStreams [] None;
     getMemories := [] |}.

(** The text of the last turn of a request to the primary provider. *)
Definition lastText (contents : list Content) : string :=
  match last contents {| c_role := ""; c_parts := [] |} with
  | {| c_parts := TextPart t :: _ |} => t
  | _ => ""
  end.

Definition fiveFree : list ORModel :=
  [ priced "a/one:free" "0" "0";
    priced "b/two:free" "0" "0";
    priced "c/three:free" "0" "0";
    priced "d/four:free" "0" "0";
    priced "e/five:free" "0" "0" ].

(** Five free models are listed; the second and the fourth answer with
    a server error, the others with a text; the primary provider answers
    with the prompt it is given. *)
Definition threeOfFive : World :=
  {| parseFloat_is_zero := parseFloat_is_zero offline;
     Date_now := Date_now offline;
     fetch_openrouter_models := fun _ => ORListingBody (Some fiveFree);
     fetch_hf_models := fetch_hf_models offline;
     fetch_openrouter_chat := fun _ _ model _ _ =>
       if String.eqb model "b/two:free" || String.eqb model "d/four:free"
       then ORChatResponds 500 noBody
       else ORChatResponds 200 (okBody ("answer of " ++ model));
     fetch_hf_inference := fetch_hf_inference offline;
     gemini_generateContent := fun _ _ contents _ =>
       GeminiResponds (Some (lastText contents)) None;
     gemini_generateContentStream := fun _ _ contents _ =>
       GeminiStreams [Some (lastText contents)] None;
     getMemories := [] |}.



Definition settingsOf (p : AIProvider) (orKeys hfKeys : list string)
  (complex : bool) : AISettings :=
  {| provider := p;
     openRouterApiKeys := orKeys;
     openRouterKeyIndex := 0;
     huggingFaceApiKeys := hfKeys;
     huggingFaceKeyIndex := 0;
     isComplexTaskMode := complex |}.

Definition ask (prompt : string) (settings : AISettings) : Params :=
  {| p_prompt := prompt;
     p_history := [];
     p_settings := settings;
     p_systemInstruction := None;
     p_jsonMode := false;
     p_files := [];
     p_useTools := false;
     p_onChunk := None |}.

(** Only the primary provider answers, always with the same text. *)
Definition primaryAlways : World :=
  {| parseFloat_is_zero := parseFloat_is_zero offline;
     Date_now := Date_now offline;
     fetch_openrouter_models := fetch_openrouter_models offline;
     fetch_hf_models := fetch_hf_models offline;
     fetch_openrouter_chat := fetch_openrouter_chat offline;
     fetch_hf_inference := fetch_hf_inference offline;
     gemini_generateContent := fun _ _ _ _ => GeminiResponds (Some "ok") None;
     gemini_generateContentStream := fun _ _ _ _ =>
       GeminiStreams [Some "ok"] None;
     getMemories := [] |}.

(** * The stores, the settings screen and the callers of the orchestrator

    [services/memoryService.ts], [services/sessionService.ts],
    [hooks/useLocalStorage.ts], the handlers of the settings screen,
    the rotation of the credentials and the exported functions of
    [services/geminiService.ts] that call the orchestrator.

    The browser's store is a function from keys to texts.  A value read
    back from it is a JSON value, and the code reads its properties
    without checking its shape: such a read is [getProperty], which
    throws on [null].  The clock is an argument of the functions that
    read it. *)

(** ** Values read from JSON *)

(** [s.slice(start, end)]: a negative argument counts from the end. *)
Definition slice (s : string) (start end_ : Z) : string :=
  let len := Z.of_nat (String.length s) in
  let pos := fun k => if (k <? 0)%Z then Z.max (len + k) 0 else Z.min k len in
  let from := pos start in
  let to := pos end_ in
  Js.take (Z.to_nat (Z.max (to - from) 0)) (Js.drop (Z.to_nat from) s).

Definition member (name : string) (members : list (string * Json.json))
  : option Json.json :=
  match List.find (fun kv => String.eqb (fst kv) name) members with
  | Some kv => Some (snd kv)
  | None => None
  end.

Definition nullError (name : string) : JsError :=
  mkError "TypeError"
    ("Cannot read properties of null (reading '" ++ name ++ "')").

(** [v.name], for a name that is not a built-in property of strings or
    arrays: [None] is [undefined]. *)
Definition getProperty (v : Json.json) (name : string)
  : Result (option Json.json) :=
  match v with
  | Json.JNull => Throw (nullError name)
  | Json.JObject members => Ok (member name members)
  | _ => Ok None
  end.

(** Whether a value counts as true in a condition. *)
Definition truthy (v : option Json.json) : bool :=
  match v with
  | None => false
  | Some Json.JNull => false
  | Some (Json.JBool b) => b
  | Some (Json.JNumber n) => negb (n =? 0)%Z
  | Some (Json.JString s) => negb (Js.isEmpty s)
  | Some (Json.JArray _) => true
  | Some (Json.JObject _) => true
  end.

(** [v === s] for a string [s]. *)
Definition isString (s : string) (v : option Json.json) : bool :=
  match v with
  | Some (Json.JString t) => String.eqb t s
  | _ => false
  end.



(** [l.findIndex(test)] for a callback that may throw: [None] is -1. *)
Fixpoint findIndexM (A : Type) (test : A -> Result bool) (l : list A)
  : Result (option nat) :=
  match l with
  | [] => Ok None
  | x :: rest =>
      match test x with
      | Throw e => Throw e
      | Ok true => Ok (Some 0)
      | Ok false =>
          match findIndexM test rest with
          | Throw e => Throw e
          | Ok (Some i) => Ok (Some (S i))
          | Ok None => Ok None
          end
      end
  end.

(** [l[i] = x] for an index within the list. *)
Fixpoint replaceAt (A : Type) (i : nat) (x : A) (l : list A) : list A :=
  match l, i with
  | [], _ => []
  | _ :: rest, O => x :: rest
  | y :: rest, S i' => y :: replaceAt i' x rest
  end.

(** [Array.prototype.sort(cmp)] for a comparator that may throw. *)
Section SortM.
Variable A : Type.
Variable cmp : A -> A -> Result Z.

Fixpoint insertM (x : A) (l : list A) : Result (list A) :=
  match l with
  | [] => Ok [x]
  | y :: rest =>
      match cmp x y with
      | Throw e => Throw e
      | Ok c =>
          if (c <=? 0)%Z then Ok (x :: l)
          else match insertM x rest with
               | Throw e => Throw e
               | Ok inserted => Ok (y :: inserted)
               end
      end
  end.

Fixpoint sortM (l : list A) : Result (list A) :=
  match l with
  | [] => Ok []
  | x :: rest =>
      match sortM rest with
      | Throw e => Throw e
      | Ok sorted => insertM x sorted
      end
  end.
End SortM.

(** ** The browser's store *)

Definition Storage : Type := string -> option string.

(** [localStorage.getItem(key)]: [None] is [null]. *)
Definition getItem (store : Storage) (key : string) : option string :=
  store key.

(** [localStorage.setItem(key, value)] *)
Definition setItem (key value : string) (store : Storage) : Storage :=
  fun k => if String.eqb k key then Some value else store k.

Definition emptyStorage : Storage := fun _ => None.

(** [stored ? JSON.parse(stored) : otherwise], inside a [try] whose
    handler gives [otherwise] too. *)
Definition parseStored (stored : option string) (otherwise : Json.json)
  : Json.json :=
  match stored with
  | Some text =>
      if Js.isEmpty text then otherwise
      else match Json.parse text with
           | Some v => v
           | None => otherwise
           end
  | None => otherwise
  end.

(** ** [useLocalStorage] *)

Module UseLocalStorage.

(** [initialValue] is the value itself or what the function that
    stands for it returns. *)
Definition getValue (key : string) (initialValue : Json.json)
  (store : Storage) : Json.json :=
  parseStored (getItem store key) initialValue.

(** The effect that the hook runs when its value changes. *)
Definition effect (key : string) (value : Json.json) (store : Storage)
  : Storage :=
  setItem key (Json.stringify value) store.

End UseLocalStorage.

(** ** The memory service *)

Module MemoryService.

Definition MEMORY_STORAGE_KEY : string := "ahmad_ai_long_term_memory".

Definition getMemories (store : Storage) : Json.json :=
  parseStored (getItem store MEMORY_STORAGE_KEY) (Json.JArray []).





(** [m.id !== id] *)
Definition otherId (id : string) (m : Json.json) : Result bool :=
  match getProperty m "id" with
  | Throw e => Throw e
  | Ok v => Ok (negb (isString id v))
  end.


End MemoryService.

(** ** The session service *)

Module SessionService.

Definition SESSION_STORAGE_KEY : string := "ahmad_ai_chat_sessions".

Definition isUser (m : Message) : bool :=
  match msg_sender m with
  | user => true
  | ai => false
  end.

Definition generateTitle (messages : list Message) : string :=
  if List.length messages =? 0 then "New Conversation"
  else
    match List.find isUser messages with
    | Some firstUserMsg =>
        slice (msg_text firstUserMsg) 0 30
        ++ (if 30 <? String.length (msg_text firstUserMsg) then "..." else "")
    | None => "New Conversation"
    end.

Definition getSessions (store : Storage) : Json.json :=
  parseStored (getItem store SESSION_STORAGE_KEY) (Json.JArray []).

(** A message as [JSON.stringify] sees it. *)
Definition messageJson (m : Message) : Json.json :=
  Json.JObject
    [ ("id", Json.JNumber (msg_id m));
      ("text", Json.JString (msg_text m));
      ("sender", Json.JString (senderName (msg_sender m))) ].

(** [s.id === id] *)
Definition sameId (id : string) (s : Json.json) : Result bool :=
  match getProperty s "id" with
  | Throw e => Throw e
  | Ok v => Ok (isString id v)
  end.

(** [s.id !== id] *)
Definition otherId (id : string) (s : Json.json) : Result bool :=
  match getProperty s "id" with
  | Throw e => Throw e
  | Ok v => Ok (negb (isString id v))
  end.

(** [title || (existing ? existing.title : generateTitle(messages))];
    [None] is [undefined]. *)
Definition sessionTitle (title : option string) (existing : option Json.json)
  (messages : list Message) : Result (option Json.json) :=
  let otherwise :=
    match existing with
    | Some s => getProperty s "title"
    | None => Ok (Some (Json.JString (generateTitle messages)))
    end in
  match title with
  | Some t => if Js.isEmpty t then otherwise else Ok (Some (Json.JString t))
  | None => otherwise
  end.

(** [existing ? existing.createdAt : now] *)
Definition createdAt (existing : option Json.json) (now : string)
  : Result (option Json.json) :=
  match existing with
  | Some s => getProperty s "createdAt"
  | None => Ok (Some (Json.JString now))
  end.

(** A property that [JSON.stringify] leaves out when it is
    [undefined]. *)
Definition optional (name : string) (v : option Json.json)
  : list (string * Json.json) :=
  match v with
  | Some x => [ (name, x) ]
  | None => []
  end.

Definition newSession (id : string) (title : option Json.json)
  (messages : list Message) (created : option Json.json) (now : string)
  : Json.json :=
  Json.JObject
    ([ ("id", Json.JString id) ] ++ optional "title" title
     ++ [ ("messages", Json.JArray (map messageJson messages)) ]
     ++ optional "createdAt" created
     ++ [ ("lastModified", Json.JString now) ])%list.

(** The comparator of the sort; [getTime v] is
    [new Date(v).getTime()], [None] when that is [NaN], and a
    comparator that gives [NaN] counts as giving 0. *)
Definition timeDifference (getTime : option Json.json -> option Z)
  (tb ta : option Json.json) : Z :=
  match getTime tb, getTime ta with
  | Some x, Some y => (x - y)%Z
  | _, _ => 0%Z
  end.

Definition byLastModified (getTime : option Json.json -> option Z)
  (a b : Json.json) : Result Z :=
  match getProperty b "lastModified" with
  | Throw e => Throw e
  | Ok tb =>
      match getProperty a "lastModified" with
      | Throw e => Throw e
      | Ok ta => Ok (timeDifference getTime tb ta)
      end
  end.

(** [now] is [new Date().toISOString()]. *)
Definition saveSession (getTime : option Json.json -> option Z)
  (now : string) (id : string) (messages : list Message)
  (title : option string) (store : Storage) : Result Storage :=
  match getSessions store with
  | Json.JArray sessions =>
      match findIndexM (sameId id) sessions with
      | Throw e => Throw e
      | Ok existingIndex =>
          let existing :=
            match existingIndex with
            | Some i => nth_error sessions i
            | None => None
            end in
          match sessionTitle title existing messages with
          | Throw e => Throw e
          | Ok theTitle =>
              match createdAt existing now with
              | Throw e => Throw e
              | Ok created =>
                  let session :=
                    newSession id theTitle messages created now in
                  let updated :=
                    match existingIndex with
                    | Some i => replaceAt i session sessions
                    | None => (sessions ++ [session])%list
                    end in
                  match sortM (byLastModified getTime) updated with
                  | Throw e => Throw e
                  | Ok sorted =>
                      Ok (setItem SESSION_STORAGE_KEY
                            (Json.stringify (Json.JArray sorted)) store)
                  end
              end
          end
      end
  | Json.JNull => Throw (nullError "findIndex")
  | _ => Throw (mkError "TypeError" "sessions.findIndex is not a function")
  end.



End SessionService.

(** ** The settings screen *)

Definition setOpenRouter (settings : AISettings) (keys : list string)
  (index : Z) : AISettings :=
  {| provider := provider settings;
     openRouterApiKeys := keys;
     openRouterKeyIndex := index;
     huggingFaceApiKeys := huggingFaceApiKeys settings;
     huggingFaceKeyIndex := huggingFaceKeyIndex settings;
     isComplexTaskMode := isComplexTaskMode settings |}.

Definition setHuggingFace (settings : AISettings) (keys : list string)
  (index : Z) : AISettings :=
  {| provider := provider settings;
     openRouterApiKeys := openRouterApiKeys settings;
     openRouterKeyIndex := openRouterKeyIndex settings;
     huggingFaceApiKeys := keys;
     huggingFaceKeyIndex := index;
     isComplexTaskMode := isComplexTaskMode settings |}.

Module SettingsScreen.

(** The state of the component: the settings being edited and the two
    input boxes.  A state update runs on the state the handler saw. *)
Record Form : Type := {
  localSettings : AISettings;
  newOpenRouterKey : string;
  newHuggingFaceKey : string
}.

(** [l.includes(key)] *)
Definition holds (l : list string) (key : string) : bool :=
  existsb (String.eqb key) l.

(** The index that [handleSave] keeps. *)
Definition safeIndex (keys : list string) (index : Z) : Z :=
  if (0 <? List.length keys) && (0 <=? index)%Z
     && (index <? Z.of_nat (List.length keys))%Z
  then index else 0%Z.

(** The settings that [handleSave] passes to [setAiSettings]. *)
Definition handleSave (form : Form) : AISettings :=
  let s := localSettings form in
  {| provider := provider s;
     openRouterApiKeys := openRouterApiKeys s;
     openRouterKeyIndex :=
       safeIndex (openRouterApiKeys s) (openRouterKeyIndex s);
     huggingFaceApiKeys := huggingFaceApiKeys s;
     huggingFaceKeyIndex :=
       safeIndex (huggingFaceApiKeys s) (huggingFaceKeyIndex s);
     isComplexTaskMode := isComplexTaskMode s |}.

Definition handleAddOpenRouterKey (form : Form) : Form :=
  let s := localSettings form in
  let key := Js.trim (newOpenRouterKey form) in
  if negb (Js.isEmpty key) && negb (holds (openRouterApiKeys s) key)
  then {| localSettings :=
            setOpenRouter s (openRouterApiKeys s ++ [key])
                          (openRouterKeyIndex s);
          newOpenRouterKey := "";
          newHuggingFaceKey := newHuggingFaceKey form |}
  else form.

(** The index after a key is removed. *)
Definition clampIndex (newKeys : list string) (index : Z) : Z :=
  if (index >=? Z.of_nat (List.length newKeys))%Z
  then Z.max 0 (Z.of_nat (List.length newKeys) - 1)
  else index.

Definition without (keyToRemove : string) (keys : list string) : list string :=
  filter (fun key => negb (String.eqb key keyToRemove)) keys.

Definition handleRemoveOpenRouterKey (keyToRemove : string) (form : Form)
  : Form :=
  let prev := localSettings form in
  let newKeys := without keyToRemove (openRouterApiKeys prev) in
  {| localSettings :=
       setOpenRouter prev newKeys (clampIndex newKeys (openRouterKeyIndex prev));
     newOpenRouterKey := newOpenRouterKey form;
     newHuggingFaceKey := newHuggingFaceKey form |}.

Definition handleAddHuggingFaceKey (form : Form) : Form :=
  let s := localSettings form in
  let key := Js.trim (newHuggingFaceKey form) in
  if negb (Js.isEmpty key) && negb (holds (huggingFaceApiKeys s) key)
  then {| localSettings :=
            setHuggingFace s (huggingFaceApiKeys s ++ [key])
                           (huggingFaceKeyIndex s);
          newOpenRouterKey := newOpenRouterKey form;
          newHuggingFaceKey := "" |}
  else form.

Definition handleRemoveHuggingFaceKey (keyToRemove : string) (form : Form)
  : Form :=
  let prev := localSettings form in
  let newKeys := without keyToRemove (huggingFaceApiKeys prev) in
  {| localSettings :=
       setHuggingFace prev newKeys
                      (clampIndex newKeys (huggingFaceKeyIndex prev));
     newOpenRouterKey := newOpenRouterKey form;
     newHuggingFaceKey := newHuggingFaceKey form |}.

End SettingsScreen.

(** ** The rotation of the credentials *)

Module App.

(** [a % b] on integers, which has the sign of [a]; [None] is [NaN]. *)
Definition remainder (a b : Z) : option Z :=
  if (b =? 0)%Z then None else Some (Z.rem a b).

(** [aiSettings] is the state that the callback closed over, [prev] the
    state that the update runs on; [None] when the new index is [NaN]. *)
Definition rotateKey (aiSettings prev : AISettings) : option AISettings :=
  if AIProvider_eqb (provider aiSettings) openrouter
     && (0 <? List.length (openRouterApiKeys aiSettings))
  then
    match remainder (openRouterKeyIndex prev + 1)
                    (Z.of_nat (List.length (openRouterApiKeys prev))) with
    | Some i => Some (setOpenRouter prev (openRouterApiKeys prev) i)
    | None => None
    end
  else if AIProvider_eqb (provider aiSettings) huggingface
          && (0 <? List.length (huggingFaceApiKeys aiSettings))
  then
    match remainder (huggingFaceKeyIndex prev + 1)
                    (Z.of_nat (List.length (huggingFaceApiKeys prev))) with
    | Some i => Some (setHuggingFace prev (huggingFaceApiKeys prev) i)
    | None => None
    end
  else Some prev.

(** The callback run [n] times, each time on the state it left. *)
Fixpoint rotations (n : nat) (settings : AISettings) : option AISettings :=
  match n with
  | O => Some settings
  | S n' =>
      match rotateKey settings settings with
      | Some next => rotations n' next
      | None => None
      end
  end.

End App.

(** ** The exported functions that call the orchestrator *)

Record ChatSession : Type := {
  cs_id : string;
  cs_title : string;
  cs_messages : list Message;
  cs_createdAt : string;
  cs_lastModified : string;
  cs_summary : option string
}.

Record Skill : Type := {
  skill_name : string;
  skill_description : string;
  skill_code : string;
  skill_timestamp : string
}.

Record ExecutionPlan : Type := {
  plan_skillName : string;
  plan_code : string;
  plan_args : Json.json
}.

(** A call of the orchestrator with no history, no file and no
    callback. *)
Definition request (prompt : string) (settings : AISettings)
  (systemInstruction : option string) (jsonMode useTools : bool) : Params :=
  {| p_prompt := prompt;
     p_history := [];
     p_settings := settings;
     p_systemInstruction := systemInstruction;
     p_jsonMode := jsonMode;
     p_files := [];
     p_useTools := useTools;
     p_onChunk := None |}.

Definition analyzeUrlContent (fuel : nat) (w : World) (url : string)
  (settings : AISettings) : FM string :=
  let systemInstruction :=
    "You are a Web Content Analyst. " ++ Js.nl
    ++ "    1. If the input is a URL, use your internal knowledge and search tools to understand its content."
    ++ Js.nl
    ++ "    2. Provide a concise summary of what the page is about."
    ++ Js.nl ++ "    3. List key points or topics covered." ++ Js.nl
    ++ "    4. If it's a technical article, explain the concepts simply."
    ++ Js.nl
    ++ "    5. Do NOT generate code unless asked. Focus on analysis." in
  let prompt :=
    "Analyze this URL: " ++ url ++ Js.nl ++ Js.nl
    ++ "Please summarize the content, identifying the main topic, author (if known), and key takeaways." in
  executeWithFallback fuel w
    (request prompt (withProvider settings gemini) (Some systemInstruction)
             false true).

Definition performDeepResearch (fuel : nat) (w : World) (topic : string)
  (settings : AISettings) : FM string :=
  let systemInstruction :=
    "You are a Senior Market Research Analyst and Tech Reviewer."
    ++ Js.nl
    ++ "    1. Perform deep research on the provided topic/product."
    ++ Js.nl
    ++ "    2. Look for the latest articles, reviews, specifications, and user sentiment."
    ++ Js.nl
    ++ "    3. Synthesize multiple sources into a comprehensive report."
    ++ Js.nl
    ++ "    4. Structure the report with: Executive Summary, Key Features/Facts, Pros & Cons, Market Sentiment, and Conclusion."
    ++ Js.nl ++ "    5. Be objective and factual." ++ Js.nl ++ "    " in
  let prompt :=
    "Conduct a comprehensive analysis and report on: " ++ Js.dq ++ topic
    ++ Js.dq ++ "." ++ Js.nl
    ++ "    Find recent information, compare it with competitors if relevant, and analyze the general public/expert consensus." in
  executeWithFallback fuel w
    (request prompt (withProvider settings gemini) (Some systemInstruction)
             false true).

(** [s.messages[s.messages.length - 1]?.text?.slice(0, 50)] *)
Definition lastMessage (messages : list Message) : option string :=
  match List.last (map Some messages) None with
  | Some m => Some (slice (msg_text m) 0 50)
  | None => None
  end.

(** The summaries as [JSON.stringify] sees them: a summary without a
    last message has no [lastMessage]. *)
Definition sessionSummaries (sessions : list ChatSession) : Json.json :=
  Json.JArray
    (map (fun s =>
            Json.JObject
              ([ ("id", Json.JString (cs_id s));
                 ("title", Json.JString (cs_title s)) ]
               ++ match lastMessage (cs_messages s) with
                  | Some text => [ ("lastMessage", Json.JString text) ]
                  | None => []
                  end)%list)
         sessions).

(** The statements of [detectSessionSwitch] after the orchestrator has
    answered [text]; an exception is caught and gives [null]. *)
Definition switchTarget (text : string) : option Json.json :=
  match sanitizeAndParseJson text with
  | Throw _ => None
  | Ok result =>
      match getProperty result "switch" with
      | Throw _ => None
      | Ok switch =>
          if truthy switch then
            match getProperty result "sessionId" with
            | Throw _ => None
            | Ok sessionId => if truthy sessionId then sessionId else None
            end
          else None
      end
  end.

(** The call that [detectSessionSwitch] makes. *)
Definition sessionSwitchRequest (userPrompt : string)
  (sessions : list ChatSession) (settings : AISettings) : Params :=
  let systemInstruction :=
    Js.nl ++ "    Session Manager." ++ Js.nl ++ "    User Prompt: "
    ++ Js.dq ++ userPrompt ++ Js.dq ++ "." ++ Js.nl
    ++ "    Available Sessions: "
    ++ Json.stringify (sessionSummaries sessions) ++ "." ++ Js.nl
    ++ "    " ++ Js.nl
    ++ "    Does the user explicitly want to switch to or resume one of these specific sessions?"
    ++ Js.nl ++ "    If yes, return JSON { " ++ Js.dq ++ "switch"
    ++ Js.dq ++ ": true, " ++ Js.dq ++ "sessionId" ++ Js.dq ++ ": "
    ++ Js.dq ++ "..." ++ Js.dq ++ " }." ++ Js.nl
    ++ "    If they are just asking a question or starting a generic new topic, return { "
    ++ Js.dq ++ "switch" ++ Js.dq ++ ": false }." ++ Js.nl
    ++ "    Only switch if the intent is clear (e.g., " ++ Js.dq
    ++ "back to the project about..." ++ Js.dq ++ ", " ++ Js.dq
    ++ "continue the python code" ++ Js.dq ++ ")." ++ Js.nl ++ "    " in
  request "Analyze intent." settings (Some systemInstruction) true false.

Definition detectSessionSwitch (fuel : nat) (w : World) (userPrompt : string)
  (sessions : list ChatSession) (settings : AISettings)
  : FM (option Json.json) :=
  fun st =>
    if List.length sessions =? 0 then Some (Ok None, st)
    else
      match executeWithFallback fuel w
              (sessionSwitchRequest userPrompt sessions settings) st with
      | None => None
      | Some (Throw _, st1) => Some (Ok None, st1)
      | Some (Ok text, st1) => Some (Ok (switchTarget text), st1)
      end.

Definition skillNames (skills : list Skill) : Json.json :=
  Json.JArray (map (fun s => Json.JString (skill_name s)) skills).

(** [result.match]: a string has a method of that name. *)
Definition matchProperty (result : Json.json) : Result bool :=
  match result with
  | Json.JString _ => Ok true
  | _ =>
      match getProperty result "match" with
      | Throw e => Throw e
      | Ok v => Ok (truthy v)
      end
  end.

(** The statements of [findAndPrepareSkillExecution] after the
    orchestrator has answered [text]; an exception is caught and gives
    [null]. *)
Definition preparedPlan (skills : list Skill) (text : string)
  : option ExecutionPlan :=
  match sanitizeAndParseJson text with
  | Throw _ => None
  | Ok result =>
      match matchProperty result with
      | Throw _ => None
      | Ok false => None
      | Ok true =>
          match getProperty result "skillName" with
          | Throw _ => None
          | Ok skillName =>
              match List.find (fun s => isString (skill_name s) skillName)
                              skills with
              | None => None
              | Some skill =>
                  match getProperty result "args" with
                  | Throw _ => None
                  | Ok args =>
                      Some {| plan_skillName := skill_name skill;
                              plan_code := skill_code skill;
                              plan_args :=
                                match args with
                                | Some a =>
                                    if truthy args then a else Json.JArray []
                                | None => Json.JArray []
                                end |}
                  end
              end
          end
      end
  end.

(** The call that [findAndPrepareSkillExecution] makes. *)
Definition skillMatchRequest (prompt : string) (skills : list Skill)
  (settings : AISettings) : Params :=
  request
    ("Match skill: " ++ Js.dq ++ prompt ++ Js.dq ++ Js.nl
     ++ "Skills: " ++ Json.stringify (skillNames skills) ++ Js.nl
     ++ "Return JSON { " ++ Js.dq ++ "match" ++ Js.dq
     ++ ": true, " ++ Js.dq ++ "skillName" ++ Js.dq ++ ": "
     ++ Js.dq ++ Js.dq ++ ", " ++ Js.dq ++ "args" ++ Js.dq
     ++ ": [] }")
    settings None true false.

Definition findAndPrepareSkillExecution (fuel : nat) (w : World)
  (prompt : string) (skills : list Skill) (settings : AISettings)
  : FM (option ExecutionPlan) :=
  fun st =>
    if List.length skills =? 0 then Some (Ok None, st)
    else
      match executeWithFallback fuel w
              (skillMatchRequest prompt skills settings) st with
      | None => None
      | Some (Throw _, st1) => Some (Ok None, st1)
      | Some (Ok text, st1) => Some (Ok (preparedPlan skills text), st1)
      end.

(** *** The repair of a skill *)

Definition backtick : ascii := "`"%char.

(** A match of [/```(?:javascript|js)?\n([\s\S]*?)```/] that begins at
    the head of [s], after the tag [tag]: its group. *)
Definition blockAfterTag (tag : string) (s : string) : option string :=
  if Js.startsWith (fence ++ tag ++ Js.nl) s then
    let body := Js.drop (3 + String.length tag + 1) s in
    match Js.find fence body with
    | Some j => Some (Js.take j body)
    | None => None
    end
  else None.

(** The alternatives are tried in the order they are written, the
    empty one last. *)
Definition blockAt (s : string) : option string :=
  match blockAfterTag "javascript" s with
  | Some group => Some group
  | None =>
      match blockAfterTag "js" s with
      | Some group => Some group
      | None => blockAfterTag "" s
      end
  end.

(** [text.match(/```(?:javascript|js)?\n([\s\S]*?)```/)], its first
    group: the match that begins first. *)
Fixpoint skillCodeBlock (text : string) : option string :=
  match blockAt text with
  | Some group => Some group
  | None =>
      match text with
      | "" => None
      | String _ rest => skillCodeBlock rest
      end
  end.

(** [s.replace(/```/g, '')]: from left to right, three backticks are
    dropped wherever they are met. *)
Fixpoint removeFences (s : string) : string :=
  match s with
  | "" => ""
  | String a r1 =>
      match r1 with
      | String b (String c r3) =>
          if Ascii.eqb a backtick && Ascii.eqb b backtick
             && Ascii.eqb c backtick
          then removeFences r3
          else String a (removeFences r1)
      | _ => String a (removeFences r1)
      end
  end.

(** The statements of [fixSkillCode] after the orchestrator has
    answered. *)
Definition fixedCode (text : string) : string :=
  Js.trim (removeFences (match skillCodeBlock text with
                         | Some group => group
                         | None => text
                         end)).

(** The call that [fixSkillCode] makes. *)
Definition fixRequest (brokenCode errorMessage : string)
  (settings : AISettings) : Params :=
  let systemInstruction :=
    "You are an AI Code Doctor. Fix the JavaScript code based on the error. Return ONLY the fixed code string. Do NOT use Markdown formatting like ```. Do NOT explain. Just the code." in
  let prompt :=
    Js.nl ++ "    THE CODE FAILED." ++ Js.nl ++ "    ERROR: " ++ Js.dq
    ++ errorMessage ++ Js.dq ++ Js.nl ++ "    " ++ Js.nl
    ++ "    BROKEN CODE:" ++ Js.nl ++ "    " ++ brokenCode ++ Js.nl
    ++ "    " ++ Js.nl
    ++ "    Fix it so it runs in a Web Worker (no DOM access)." ++ Js.nl
    ++ "    " in
  request prompt settings (Some systemInstruction) false false.

Definition fixSkillCode (fuel : nat) (w : World)
  (brokenCode errorMessage : string) (settings : AISettings) : FM string :=
  fun st =>
    match executeWithFallback fuel w
            (fixRequest brokenCode errorMessage settings) st with
    | None => None
    | Some (Throw e, st1) => Some (Throw e, st1)
    | Some (Ok text, st1) => Some (Ok (fixedCode text), st1)
    end.

(** ** Vocabulary of the statements about the stores and the settings *)

(** What a text that [JSON.parse] refuses at its first character looks
    like: blank, or beginning with something no JSON value begins
    with. *)
Definition notJson (text : string) : Prop :=
  match Json.skipWs text with
  | "" => True
  | String c _ => Json.valueStart c = false
  end.







(** An index that designates a credential of the list, or 0 when the
    list is empty. *)
Definition indexInRange (keys : list string) (index : Z) : Prop :=
  (0 <= index)%Z
  /\ ((index < Z.of_nat (List.length keys))%Z \/ (keys = [] /\ index = 0%Z)).

Definition indicesInRange (settings : AISettings) : Prop :=
  indexInRange (openRouterApiKeys settings) (openRouterKeyIndex settings)
  /\ indexInRange (huggingFaceApiKeys settings) (huggingFaceKeyIndex settings).


(** The number of backticks that [s] begins with. *)
Fixpoint leadingBackticks (s : string) : nat :=
  match s with
  | "" => 0
  | String c r => if Ascii.eqb c backtick then S (leadingBackticks r) else 0
  end.

(** ** Vocabulary of the statements about the catalogs and the requests *)

(** The words of a query that the offline search looks for. *)
Definition queryKeywords (query : string) : list string :=
  filter (fun w => 3 <? String.length w)
         (Js.splitSpaces (Js.toLowerCase query)).

(** The line that the offline search returns for a memory. *)
Definition offlineLine (m : Memory) : string :=
  "[Memory (Offline Match): " ++ mem_title m ++ " ("
  ++ mem_timestamp m ++ ")]" ++ Js.nl ++ mem_content m.

(** A model that the inference adapter is never given. *)
Definition isGemma7b (id : string) : bool :=
  Js.includes (Js.toLowerCase id) "gemma-7b".

(** Whether the marketplace adapter counts a model as a coding model. *)
Definition isCodingModel (m : string) : bool :=
  Js.includes m "coder" || Js.includes m "deepseek".

(** [st'] is [st] after events that all satisfy [P]; the catalogs may
    differ. *)
Definition since (P : Event -> Prop) (st st' : State) : Prop :=
  exists events, trace st' = (trace st ++ events)%list /\ Forall P events.

(** The models that the marketplace adapter tries, in order, given the
    catalog: [modelsToTry] of [callOpenRouter]. *)
Definition modelsToTry (messages : list ChatMessage)
  (specificModel : option string) (cached : list string) : list string :=
  match pinned specificModel with
  | Some m => [m]
  | None =>
      let isCoding :=
        existsb (fun m => Js.includes (content m) "code"
                          || Js.includes (content m) "function")
                messages in
      if isCoding then Js.sort byCoding cached else cached
  end.

Definition isChatRequest (e : Event) : bool :=
  match e with
  | EvOpenRouter _ _ _ _ => true
  | _ => false
  end.

(** The chat requests for the models of [tried], each model with as
    many of the first credentials as the number beside it. *)
Definition attempts (messages : list ChatMessage) (stream : bool)
  (apiKeys : list string) (tried : list (string * nat)) : list Event :=
  flat_map (fun mn => map (fun k => EvOpenRouter k (fst mn) messages stream)
                          (firstn (snd mn) apiKeys)) tried.

(** The text that the chunks of a list of events add up to. *)
Definition streamedText (events : list Event) : string :=
  fold_right (fun e acc => match e with
                           | EvChunk text => text ++ acc
                           | _ => acc
                           end) "" events.

(** An event that, if it is a request to the marketplace or to the
    inference endpoint, carries one of the given credentials. *)
Definition sends (orKeys hfKeys : list string) (e : Event) : Prop :=
  match e with
  | EvOpenRouter k _ _ _ => In k orKeys
  | EvHuggingFace k _ _ => In k hfKeys
  | _ => True
  end.

(** The facts about one run of the loop over the credentials: the
    events it adds, the number of credentials it uses, and, when it
    returns a text to a caller that is streamed to, what was streamed
    before that text. *)
Definition keysRun (messages : list ChatMessage) (onChunk : option Callback)
  (modelName : string) (apiKeys : list string) (st : State)
  (out : Loop * State) : Prop :=
  exists n events,
    n <= List.length apiKeys
    /\ trace (snd out) = (trace st ++ events)%list
    /\ filter isChatRequest events
       = map (fun k => EvOpenRouter k modelName messages (isSome onChunk))
             (firstn n apiKeys)
    /\ Forall (sends apiKeys []) events
    /\ cachedOpenRouterModels (snd out) = cachedOpenRouterModels st
    /\ (forall text, fst out = Return text -> onChunk = Some CallerCallback ->
        exists earlier, streamedText events = earlier ++ text).

(** The facts about one run of the loop over the models. *)
Definition modelsRun (messages : list ChatMessage) (onChunk : option Callback)
  (apiKeys models : list string) (st : State) (out : Loop * State) : Prop :=
  exists tried events,
    trace (snd out) = (trace st ++ events)%list
    /\ filter isChatRequest events
       = attempts messages (isSome onChunk) apiKeys tried
    /\ (exists rest, (map fst tried ++ rest)%list = models)
    /\ ((forall text, fst out <> Return text) -> map fst tried = models)
    /\ Forall (fun mn => snd mn <= List.length apiKeys) tried
    /\ Forall (sends apiKeys []) events
    /\ cachedOpenRouterModels (snd out) = cachedOpenRouterModels st
    /\ (forall text, fst out = Return text -> onChunk = Some CallerCallback ->
        exists earlier, streamedText events = earlier ++ text).

(** An event that, if it is a request to the marketplace or to the
    inference endpoint, carries a credential of the settings for that
    provider. *)
Definition usesKeysOf (settings : AISettings) (e : Event) : Prop :=
  sends (openRouterApiKeys settings) (huggingFaceApiKeys settings) e.

(** An event of the fan-out of a swarm: if it is a chat request, it
    asks one of [models] with one of [apiKeys], is not streamed and
    carries [messages]. *)
Definition fanOutEvent (messages : list ChatMessage)
  (apiKeys models : list string) (e : Event) : Prop :=
  match e with
  | EvOpenRouter k m msgs stream =>
      In k apiKeys /\ In m models /\ msgs = messages /\ stream = false
  | _ => True
  end.

(** [params] with other settings. *)
Definition setSettings (params : Params) (settings : AISettings) : Params :=
  {| p_prompt := p_prompt params;
     p_history := p_history params;
     p_settings := settings;
     p_systemInstruction := p_systemInstruction params;
     p_jsonMode := p_jsonMode params;
     p_files := p_files params;
     p_useTools := p_useTools params;
     p_onChunk := p_onChunk params |}.

(** [settings] with other indices of the active credentials. *)
Definition setIndices (settings : AISettings) (i j : Z) : AISettings :=
  {| provider := provider settings;
     openRouterApiKeys := openRouterApiKeys settings;
     openRouterKeyIndex := i;
     huggingFaceApiKeys := huggingFaceApiKeys settings;
     huggingFaceKeyIndex := j;
     isComplexTaskMode := isComplexTaskMode settings |}.

(** Settings that differ at most in the two indices. *)
Definition sameButIndices (a b : AISettings) : Prop :=
  provider a = provider b
  /\ openRouterApiKeys a = openRouterApiKeys b
  /\ huggingFaceApiKeys a = huggingFaceApiKeys b
  /\ isComplexTaskMode a = isComplexTaskMode b.

(** ** Sample stores, forms and environments *)



(** A clock for the samples: the time of a string of digits is the
    number it spells, and nothing else is a time. *)
Definition digitsTime (v : option Json.json) : option Z :=
  match v with
  | Some (Json.JString s) =>
      match Json.parseNumber s with
      | Some (n, "") => Some n
      | _ => None
      end
  | _ => None
  end.

Definition firstQuestion : list Message :=
  [ {| msg_id := 1; msg_text := "How do I sort a list in Python without the built-in?";
       msg_sender := user |};
    {| msg_id := 2; msg_text := "Use a loop."; msg_sender := ai |} ].

(** The store after one session and then another have been saved. *)
Definition twoSessions : Storage :=
  match SessionService.saveSession digitsTime "100" "s1" firstQuestion None
          emptyStorage with
  | Ok store1 =>
      match SessionService.saveSession digitsTime "200" "s2" []
              (Some "Notes") store1 with
      | Ok store2 => store2
      | Throw _ => emptyStorage
      end
  | Throw _ => emptyStorage
  end.


(** Sample forms: a credential typed into an empty list, and three
    credentials of which the last is the active one. *)
Definition typedKey : SettingsScreen.Form :=
  {| SettingsScreen.localSettings := settingsOf gemini [] [] false;
     SettingsScreen.newOpenRouterKey := "  sk-or-v1-abc ";
     SettingsScreen.newHuggingFaceKey := "" |}.

Definition threeKeys : SettingsScreen.Form :=
  {| SettingsScreen.localSettings :=
       setOpenRouter (settingsOf openrouter [] [] false) ["k1"; "k2"; "k3"] 2;
     SettingsScreen.newOpenRouterKey := "";
     SettingsScreen.newHuggingFaceKey := "" |}.

(** The hub lists three models, one of them a second time and one that
    is refused; nothing else answers. *)
Definition hubListing : list HFModel :=
  [ {| modelId := "google/gemma-7b-it" |};
    {| modelId := "tiiuae/falcon-7b-instruct" |};
    {| modelId := "mistralai/Mistral-7B-Instruct-v0.3" |};
    {| modelId := "tiiuae/falcon-7b-instruct" |} ].

Definition hubOnly : World :=
  {| parseFloat_is_zero := parseFloat_is_zero offline;
     Date_now := Date_now offline;
     fetch_openrouter_models := fetch_openrouter_models offline;
     fetch_hf_models := fun _ => HFListingBody (Some hubListing);
     fetch_openrouter_chat := fetch_openrouter_chat offline;
     fetch_hf_inference := fetch_hf_inference offline;
     gemini_generateContent := gemini_generateContent offline;
     gemini_generateContentStream := gemini_generateContentStream offline;
     getMemories := [] |}.

(** The first credential streams a part of its answer and breaks off;
    the second one streams all of it. *)
Definition brokenStream : World :=
  {| parseFloat_is_zero := parseFloat_is_zero offline;
     Date_now := Date_now offline;
     fetch_openrouter_models := fetch_openrouter_models offline;
     fetch_hf_models := fetch_hf_models offline;
     fetch_openrouter_chat := fun _ apiKey _ _ _ =>
       if String.eqb apiKey "k1"
       then ORChatResponds 200
              {| or_json := Throw networkDown;
                 or_deltas := ["Hel"];
                 or_readError := Some networkDown |}
       else ORChatResponds 200
              {| or_json := Ok "Hello";
                 or_deltas := ["Hel"; ""; "lo"];
                 or_readError := None |};
     fetch_hf_inference := fetch_hf_inference offline;
     gemini_generateContent := gemini_generateContent offline;
     gemini_generateContentStream := fun _ _ _ _ =>
       GeminiStreams [Some "Hel"; None; Some ""; Some "lo"] None;
     getMemories := [] |}.

(** The outcome of a question put to the marketplace when its first
    credential is spent. *)
Definition spentKeyOutcome : Result string * State :=
  match executeWithFallback 2 firstKeySpent
          (ask "hi" (settingsOf openrouter ["k1"; "k2"] [] false))
          initialState with
  | Some out => out
  | None => (Throw (Error ""), initialState)
  end.

(** Sample skills, and a primary provider that answers with a match. *)
Definition twoSkills : list Skill :=
  [ {| skill_name := "add"; skill_description := "adds";
       skill_code := "return a + b"; skill_timestamp := "t1" |};
    {| skill_name := "greet"; skill_description := "greets";
       skill_code := "return 'hi'"; skill_timestamp := "t2" |} ].

Definition skillAnswer : string :=
  Json.stringify
    (Json.JObject [ ("match", Json.JBool true);
                    ("skillName", Json.JString "add");
                    ("args", Json.JArray [Json.JNumber 2; Json.JNumber 3]) ]).

Definition skillMatcher : World :=
  {| parseFloat_is_zero := parseFloat_is_zero offline;
     Date_now := Date_now offline;
     fetch_openrouter_models := fetch_openrouter_models offline;
     fetch_hf_models := fetch_hf_models offline;
     fetch_openrouter_chat := fetch_openrouter_chat offline;
     fetch_hf_inference := fetch_hf_inference offline;
     gemini_generateContent := fun _ _ _ _ =>
       GeminiResponds (Some ("Here it is: " ++ skillAnswer)) None;
     gemini_generateContentStream := gemini_generateContentStream offline;
     getMemories := [] |}.

Definition skillChosen : Result (option ExecutionPlan) * State :=
  match findAndPrepareSkillExecution 1 skillMatcher "add 2 and 3" twoSkills
          (settingsOf gemini [] [] false) initialState with
  | Some out => out
  | None => (Ok None, initialState)
  end.

(** A session, and a primary provider that asks to go back to it. *)
Definition oneSession : list ChatSession :=
  [ {| cs_id := "session-1"; cs_title := "Python project";
       cs_messages := [ {| msg_id := 1; msg_text := "print('hi')";
                           msg_sender := user |} ];
       cs_createdAt := "2024-01-01T00:00:00.000Z";
       cs_lastModified := "2024-01-02T00:00:00.000Z";
       cs_summary := None |} ].

Definition switchAnswer : string :=
  Json.stringify
    (Json.JObject [ ("switch", Json.JBool true);
                    ("sessionId", Json.JString "session-1") ]).

Definition switcher : World :=
  {| parseFloat_is_zero := parseFloat_is_zero offline;
     Date_now := Date_now offline;
     fetch_openrouter_models := fetch_openrouter_models offline;
     fetch_hf_models := fetch_hf_models offline;
     fetch_openrouter_chat := fetch_openrouter_chat offline;
     fetch_hf_inference := fetch_hf_inference offline;
     gemini_generateContent := fun _ _ _ _ =>
       GeminiResponds (Some (fenced true switchAnswer)) None;
     gemini_generateContentStream := gemini_generateContentStream offline;
     getMemories := [] |}.

Definition switchChosen : Result (option Json.json) * State :=
  match detectSessionSwitch 1 switcher "back to the python project"
          oneSession (settingsOf gemini [] [] false) initialState with
  | Some out => out
  | None => (Ok None, initialState)
  end.

(** A primary provider that answers with a fenced block, some prose
    around it. *)
Definition doctor : World :=
  {| parseFloat_is_zero := parseFloat_is_zero offline;
     Date_now := Date_now offline;
     fetch_openrouter_models := fetch_openrouter_models offline;
     fetch_hf_models := fetch_hf_models offline;
     fetch_openrouter_chat := fetch_openrouter_chat offline;
     fetch_hf_inference := fetch_hf_inference offline;
     gemini_generateContent := fun _ _ _ _ =>
       GeminiResponds
         (Some ("Fixed:" ++ Js.nl ++ fence ++ "js" ++ Js.nl
                ++ "  return a + b;" ++ Js.nl ++ fence ++ Js.nl ++ "Done."))
         None;
     gemini_generateContentStream := gemini_generateContentStream offline;
     getMemories := [] |}.

Definition repaired : Result string * State :=
  match fixSkillCode 1 doctor "return a +" "SyntaxError"
          (settingsOf gemini [] [] false) initialState with
  | Some out => out
  | None => (Throw (Error ""), initialState)
  end.

(** Two stored memories, and a primary provider that names the second
    one. *)
Definition twoStored : list Memory :=
  [ {| mem_id := "m1"; mem_title := "Birthday";
       mem_content := "The user's birthday is in May.";
       mem_tags := ["personal"]; mem_timestamp := "t1";
       mem_importance := 7 |};
    {| mem_id := "m2"; mem_title := "Editor";
       mem_content := "The user writes code in Emacs.";
       mem_tags := ["tools"; "coding"]; mem_timestamp := "t2";
       mem_importance := 5 |} ].

Definition recalls : World :=
  {| parseFloat_is_zero := parseFloat_is_zero offline;
     Date_now := Date_now offline;
     fetch_openrouter_models := fetch_openrouter_models offline;
     fetch_hf_models := fetch_hf_models offline;
     fetch_openrouter_chat := fetch_openrouter_chat offline;
     fetch_hf_inference := fetch_hf_inference offline;
     gemini_generateContent := fun _ _ _ _ =>
       GeminiResponds
         (Some (Json.stringify (Json.JArray [Json.JString "m2"]))) None;
     gemini_generateContentStream := gemini_generateContentStream offline;
     getMemories := twoStored |}.

Definition recalled : Result (list string) * State :=
  match retrieveRelevantMemories 2 recalls "which editor?"
          (settingsOf gemini [] [] false) initialState with
  | Some out => out
  | None => (Ok [], initialState)
  end.

(** * Properties *)

Unset Implicit Arguments.

(** * Facts about strings *)

Lemma append_assoc (a b c : string) : (a ++ b) ++ c = a ++ (b ++ c).
Proof. induction a; simpl; congruence. Qed.

Lemma append_nil_r (a : string) : a ++ "" = a.
Proof. induction a; simpl; congruence. Qed.

Lemma length_append (a b : string) :
  String.length (a ++ b) = String.length a + String.length b.
Proof. induction a; simpl; congruence. Qed.

Lemma drop_append (a b : string) : Js.drop (String.length a) (a ++ b) = b.
Proof. induction a; simpl; auto. Qed.

Lemma take_append (a b : string) : Js.take (String.length a) (a ++ b) = a.
Proof. induction a; simpl; congruence. Qed.

Lemma startsWith_append (a b : string) : Js.startsWith a (a ++ b) = true.
Proof. induction a; simpl; auto. rewrite Ascii.eqb_refl; auto. Qed.

(** * [JSON.parse] after [JSON.stringify] *)

Import Json.

Lemma json_induction (P : json -> Prop) :
  P JNull ->
  (forall b, P (JBool b)) ->
  (forall n, P (JNumber n)) ->
  (forall s, P (JString s)) ->
  (forall l, Forall P l -> P (JArray l)) ->
  (forall ms, Forall (fun kv => P (snd kv)) ms -> P (JObject ms)) ->
  forall v, P v.
Proof.
  intros Hnull Hbool Hnum Hstr Harr Hobj.
  fix IH 1.
  intros [ | b | n | s | l | ms ].
  - exact Hnull.
  - apply Hbool.
  - apply Hnum.
  - apply Hstr.
  - apply Harr. induction l as [ | x l IHl ]; constructor.
    + apply IH.
    + exact IHl.
  - apply Hobj. induction ms as [ | [k x] ms IHms ]; constructor.
    + apply IH.
    + exact IHms.
Qed.

(** ** String literals *)

Lemma parseStringBody_quoteChar (c : ascii) (r : string) :
  parseStringBody (quoteChar c ++ r) =
  match parseStringBody r with
  | Some (t, r') => Some (String c t, r')
  | None => None
  end.
Proof.
  destruct c as [[] [] [] [] [] [] [] []]; reflexivity.
Qed.

Lemma parseStringBody_quoteChars (s r : string) :
  parseStringBody (quoteChars s ++ Js.dq ++ r) = Some (s, r).
Proof.
  induction s as [ | c s IH ].
  - reflexivity.
  - cbn [quoteChars].
    rewrite append_assoc, parseStringBody_quoteChar, IH. reflexivity.
Qed.

Lemma quote_unfold (s r : string) :
  quote s ++ r = String Js.dquote (quoteChars s ++ Js.dq ++ r).
Proof.
  unfold quote. simpl. rewrite append_assoc. reflexivity.
Qed.

(** ** Numbers *)

Lemma scanDigits_uint (u : uint) (r : string) :
  delimited r = true ->
  scanDigits (Js.uint_to_string u ++ r) = (u, r).
Proof.
  intros Hr. induction u; simpl; try (rewrite IHu; reflexivity).
  destruct r as [ | c r ]; simpl; auto.
  simpl in Hr. destruct (digit c); [discriminate | reflexivity].
Qed.

Lemma to_uint_shape (n : N) :
  match N.to_uint n with
  | Nil => False
  | D0 Nil => True
  | D0 _ => False
  | _ => True
  end.
Proof.
  pose proof (DecimalN.Unsigned.to_of (N.to_uint n)) as H.
  rewrite DecimalN.Unsigned.of_to in H.
  destruct n as [ | p ]; [exact I | ].
  simpl in *.
  pose proof (DecimalPos.Unsigned.to_uint_nonnil p) as Hnil.
  destruct (Pos.to_uint p) as [ | u | | | | | | | | | ] eqn:E; auto; try congruence.
  destruct u; auto;
    rewrite unorm_D0 in H;
    match type of H with
    | D0 ?d = unorm ?d =>
        assert (Hle : nb_digits (unorm d) <= nb_digits d)
          by (apply nb_digits_unorm; discriminate);
        rewrite <- H in Hle; simpl in Hle; lia
    end.
Qed.

Lemma parseNumber_unsigned (n : N) (r : string) :
  delimited r = true ->
  parseNumber (Js.N_to_string n ++ r) = Some (Z.of_N n, r).
Proof.
  intros Hr. unfold parseNumber, Js.N_to_string.
  pose proof (to_uint_shape n) as Hs.
  assert (Hhead : match Js.uint_to_string (N.to_uint n) ++ r with
                  | String c r0 =>
                      if Ascii.eqb c "-" then (true, r0)
                      else (false, Js.uint_to_string (N.to_uint n) ++ r)
                  | "" => (false, Js.uint_to_string (N.to_uint n) ++ r)
                  end = (false, Js.uint_to_string (N.to_uint n) ++ r)).
  { destruct (N.to_uint n); simpl; try reflexivity. contradiction. }
  rewrite Hhead, (scanDigits_uint _ _ Hr).
  assert (Hfrac : startsFraction r = false).
  { destruct r as [ | c r ]; simpl in *; auto.
    destruct (digit c); [discriminate | ].
    apply negb_true_iff in Hr. exact Hr. }
  rewrite Hfrac, DecimalN.Unsigned.of_to.
  destruct (N.to_uint n) as [ | u | | | | | | | | | ]; simpl; auto; try contradiction.
  destruct u; auto; contradiction.
Qed.

Lemma parseNumber_number (n : Z) (r : string) :
  delimited r = true ->
  parseNumber (number_to_string n ++ r) = Some (n, r).
Proof.
  intros Hr. unfold number_to_string.
  destruct (n <? 0)%Z eqn:E.
  - apply Z.ltb_lt in E.
    pose proof (parseNumber_unsigned (Z.abs_N n) r Hr) as H.
    unfold parseNumber in *. simpl.
    destruct (scanDigits (Js.N_to_string (Z.abs_N n) ++ r)) as [u rest] eqn:Es.
    assert (Hs : scanDigits (Js.N_to_string (Z.abs_N n) ++ r) = (N.to_uint (Z.abs_N n), r))
      by (apply scanDigits_uint; exact Hr).
    rewrite Es in Hs. inversion Hs; subst u rest.
    pose proof (to_uint_shape (Z.abs_N n)) as Hsh.
    assert (Hfrac : startsFraction r = false).
    { destruct r as [ | c r ]; simpl in *; auto.
      destruct (digit c); [discriminate | ].
      apply negb_true_iff in Hr. exact Hr. }
    rewrite Hfrac, DecimalN.Unsigned.of_to.
    assert (Hn : (- Z.of_N (Z.abs_N n))%Z = n) by (rewrite N2Z.inj_abs_N; lia).
    destruct (N.to_uint (Z.abs_N n)) as [ | u | | | | | | | | | ];
      simpl; try contradiction; try (rewrite Hn; reflexivity).
    destruct u; try contradiction. rewrite Hn. reflexivity.
  - apply Z.ltb_ge in E.
    rewrite (parseNumber_unsigned _ _ Hr).
    rewrite N2Z.inj_abs_N, Z.abs_eq by lia. reflexivity.
Qed.

(** ** Values *)

Lemma parseValue_numberStart (f : nat) (c : ascii) (s : string) :
  numberStart c = true ->
  parseValue (S f) (String c s) =
  match parseNumber (String c s) with
  | Some (n, r1) => Some (JNumber n, r1)
  | None => None
  end.
Proof.
  destruct c as [[] [] [] [] [] [] [] []]; intros H;
    try discriminate H; reflexivity.
Qed.

Lemma number_head (n : Z) :
  exists c s, number_to_string n = String c s /\ numberStart c = true.
Proof.
  unfold number_to_string.
  destruct (n <? 0)%Z.
  - eexists; eexists; split; [reflexivity | reflexivity].
  - unfold Js.N_to_string.
    pose proof (to_uint_shape (Z.abs_N n)) as H.
    destruct (N.to_uint (Z.abs_N n)); try contradiction;
      eexists; eexists; (split; [reflexivity | reflexivity]).
Qed.

Lemma stringify_head (v : json) :
  exists c s, stringify v = String c s /\ valueStart c = true.
Proof.
  destruct v as [ | [] | n | s | [ | x l ] | [ | kv ms ] ];
    try (eexists; eexists; split; [reflexivity | reflexivity]).
  destruct (number_head n) as (c & s & E & H).
  exists c, s. split; [exact E | ].
  unfold numberStart in H. unfold valueStart.
  destruct (Ascii.eqb c "-"); simpl in *.
  - repeat rewrite orb_true_r. reflexivity.
  - rewrite H. repeat rewrite orb_true_r. reflexivity.
Qed.

Lemma valueStart_facts (c : ascii) :
  valueStart c = true ->
  isWs c = false /\ Ascii.eqb c "]" = false /\ Ascii.eqb c "}" = false.
Proof.
  destruct c as [[] [] [] [] [] [] [] []]; intros H;
    try discriminate H; repeat split; reflexivity.
Qed.

Lemma skipWs_stringify (v : json) (r : string) :
  skipWs (stringify v ++ r) = stringify v ++ r.
Proof.
  destruct (stringify_head v) as (c & s & E & H).
  rewrite E. simpl.
  destruct (valueStart_facts _ H) as (Hw & _). rewrite Hw. reflexivity.
Qed.

Lemma delimited_comma (r : string) : delimited ("," ++ r) = true.
Proof. reflexivity. Qed.

Lemma buildObject_acc (ms acc : list (string * json)) :
  distinct (map fst (acc ++ ms)) = true ->
  fold_left (fun a kv => setMember (fst kv) (snd kv) a) ms acc = (acc ++ ms)%list.
Proof.
  revert acc. induction ms as [ | [k v] ms IH ]; intros acc H; simpl.
  - rewrite List.app_nil_r. reflexivity.
  - assert (Hset : setMember k v acc = (acc ++ [(k, v)])%list).
    { clear IH. induction acc as [ | [k' v'] acc IHacc ]; simpl; auto.
      simpl in H. apply andb_true_iff in H. destruct H as [H1 H2].
      apply negb_true_iff in H1.
      destruct (String.eqb k k') eqn:E.
      - apply String.eqb_eq in E. subst k'.
        exfalso.
        assert (existsb (String.eqb k) (map fst (acc ++ (k, v) :: ms)) = true).
        { apply existsb_exists. exists k. split.
          - rewrite map_app. apply in_or_app. right. left. reflexivity.
          - apply String.eqb_refl. }
        congruence.
      - rewrite IHacc; auto. }
    rewrite Hset. rewrite IH.
    + rewrite <- List.app_assoc. reflexivity.
    + rewrite <- List.app_assoc. exact H.
Qed.

Lemma buildObject_distinct (ms : list (string * json)) :
  distinct (map fst ms) = true -> buildObject ms = ms.
Proof.
  intros H. unfold buildObject. rewrite buildObject_acc; auto.
Qed.

Lemma parseElements_comma (f : nat) (s r1 : string) (v : json) :
  parseValue f s = Some (v, "," ++ r1) ->
  parseElements (S f) s =
  match parseElements f (skipWs r1) with
  | Some (vs, r2) => Some (v :: vs, r2)
  | None => None
  end.
Proof. intros H. cbn [parseElements]. rewrite H. reflexivity. Qed.

Lemma parseElements_close (f : nat) (s r1 : string) (v : json) :
  parseValue f s = Some (v, "]" ++ r1) ->
  parseElements (S f) s = Some ([v], r1).
Proof. intros H. cbn [parseElements]. rewrite H. reflexivity. Qed.

Lemma endsOk_comma (v : json) (r : string) : endsOk v ("," ++ r) = true.
Proof. destruct v; reflexivity. Qed.

Lemma endsOk_bracket (v : json) (r : string) : endsOk v ("]" ++ r) = true.
Proof. destruct v; reflexivity. Qed.

Lemma endsOk_brace (v : json) (r : string) : endsOk v ("}" ++ r) = true.
Proof. destruct v; reflexivity. Qed.

Lemma parseElements_tail (l : list json) :
  Forall reads l ->
  forall fuel x r,
    reads x ->
    list_sum (map (fun y => S (need y)) (x :: l)) <= fuel ->
    parseElements fuel (stringify x ++ elementsTail stringify l ++ r)
    = Some (x :: l, r).
Proof.
  intros Hl. induction Hl as [ | y l Hy Hl IH ]; intros fuel x r Hx Hf.
  - simpl in Hf. destruct fuel as [ | f ]; [lia | ].
    apply parseElements_close. apply Hx; [lia | auto using endsOk_comma, endsOk_bracket, endsOk_brace].
  - simpl in Hf. destruct fuel as [ | f ]; [lia | ].
    cbn [elementsTail].
    rewrite (@parseElements_comma f _ (stringify y ++ elementsTail stringify l ++ r) x).
    + rewrite skipWs_stringify, IH; [reflexivity | exact Hy | simpl; lia].
    + rewrite !append_assoc. apply Hx; [lia | auto using endsOk_comma, endsOk_bracket, endsOk_brace].
Qed.

Lemma parseMembers_comma (f : nat) (k r r1 r3 : string) (v : json) :
  parseStringBody r = Some (k, ":" ++ r1) ->
  parseValue f (skipWs r1) = Some (v, "," ++ r3) ->
  parseMembers (S f) (String Js.dquote r) =
  match parseMembers f (skipWs r3) with
  | Some (ms, r5) => Some ((k, v) :: ms, r5)
  | None => None
  end.
Proof.
  intros H1 H2. cbn [parseMembers].
  change (Ascii.eqb Js.dquote Js.dquote) with true. cbv iota.
  rewrite H1.
  change (skipWs (":" ++ r1)) with (String ":" r1). cbv iota.
  change (Ascii.eqb ":" ":") with true. cbv iota.
  rewrite H2. reflexivity.
Qed.

Lemma parseMembers_close (f : nat) (k r r1 r3 : string) (v : json) :
  parseStringBody r = Some (k, ":" ++ r1) ->
  parseValue f (skipWs r1) = Some (v, "}" ++ r3) ->
  parseMembers (S f) (String Js.dquote r) = Some ([(k, v)], r3).
Proof.
  intros H1 H2. cbn [parseMembers].
  change (Ascii.eqb Js.dquote Js.dquote) with true. cbv iota.
  rewrite H1.
  change (skipWs (":" ++ r1)) with (String ":" r1). cbv iota.
  change (Ascii.eqb ":" ":") with true. cbv iota.
  rewrite H2. reflexivity.
Qed.

Lemma parseMembers_tail (ms : list (string * json)) :
  Forall (fun kv => reads (snd kv)) ms ->
  forall fuel k x r,
    reads x ->
    list_sum (map (fun kv => S (need (snd kv))) ((k, x) :: ms)) <= fuel ->
    parseMembers fuel
      (quote k ++ ":" ++ stringify x ++ membersTail stringify ms ++ r)
    = Some ((k, x) :: ms, r).
Proof.
  intros Hl. induction Hl as [ | [k' y] ms Hy Hl IH ]; intros fuel k x r Hx Hf.
  - simpl in Hf. destruct fuel as [ | f ]; [lia | ].
    rewrite quote_unfold.
    apply (@parseMembers_close f k _ (stringify x ++ "}" ++ r) r x).
    + apply parseStringBody_quoteChars.
    + rewrite skipWs_stringify. apply Hx; [lia | auto using endsOk_comma, endsOk_bracket, endsOk_brace].
  - simpl in Hf. destruct fuel as [ | f ]; [lia | ].
    cbn [membersTail fst snd]. rewrite !append_assoc.
    rewrite quote_unfold.
    set (R3 := quote k' ++ ":" ++ stringify y ++ membersTail stringify ms ++ r).
    rewrite (@parseMembers_comma f k _ (stringify x ++ "," ++ R3) R3 x);
      [ | apply parseStringBody_quoteChars
        | rewrite skipWs_stringify; apply Hx; [lia | auto using endsOk_comma, endsOk_bracket, endsOk_brace] ].
    unfold R3.
    rewrite (skipWs_stringify (JString k')).
    change (stringify (JString k')) with (quote k').
    rewrite IH; [reflexivity | exact Hy | simpl in *; lia].
Qed.

Lemma distinct_valid_members (ms : list (string * json)) :
  valid (JObject ms) = true ->
  distinct (map fst ms) = true /\ Forall (fun kv => valid (snd kv) = true) ms.
Proof.
  cbn [valid]. intros H. apply andb_true_iff in H. destruct H as [H1 H2].
  split; [exact H1 | ].
  apply Forall_forall. intros kv Hin.
  rewrite forallb_forall in H2. apply H2. exact Hin.
Qed.

Lemma parseValue_stringify (v : json) :
  valid v = true -> reads v.
Proof.
  induction v as [ | b | n | s | l IH | ms IH ] using json_induction;
    intros Hv fuel r Hf Hr; (destruct fuel as [ | f ]; [simpl in Hf; lia | ]).
  - reflexivity.
  - destruct b; reflexivity.
  - destruct (number_head n) as (c & s & E & Hc).
    cbn [stringify]. cbn [endsOk] in Hr.
    pose proof (parseNumber_number n r Hr) as Hn.
    rewrite E in *. cbn [append] in *.
    rewrite (parseValue_numberStart _ _ _ Hc), Hn. reflexivity.
  - cbn [stringify]. rewrite quote_unfold. cbn [parseValue].
    change (Ascii.eqb Js.dquote "{") with false.
    change (Ascii.eqb Js.dquote "[") with false.
    change (Ascii.eqb Js.dquote Js.dquote) with true. cbv iota.
    rewrite parseStringBody_quoteChars. reflexivity.
  - destruct l as [ | x l ]; [reflexivity | ].
    cbn [valid forallb] in Hv. apply andb_true_iff in Hv. destruct Hv as [Hx Hl].
    inversion IH as [ | ? ? IHx IHl ]; subst.
    cbn [stringify].
    assert (He : parseElements f (stringify x ++ elementsTail stringify l ++ r)
                 = Some (x :: l, r)).
    { apply parseElements_tail.
      - rewrite forallb_forall in Hl. rewrite Forall_forall in *.
        intros y Hy. apply IHl; auto.
      - apply IHx. exact Hx.
      - cbn [need] in Hf. lia. }
    destruct (stringify_head x) as (c & s & E & Hc).
    destruct (valueStart_facts _ Hc) as (Hw & Hb & _).
    rewrite !append_assoc. cbn [append parseValue].
    change (Ascii.eqb "[" "{") with false.
    change (Ascii.eqb "[" "[") with true. cbv iota.
    rewrite E in *. cbn [append skipWs] in *. rewrite Hw, Hb, He. reflexivity.
  - destruct ms as [ | [k x] ms ]; [reflexivity | ].
    destruct (distinct_valid_members _ Hv) as [Hd Hall].
    inversion IH as [ | ? ? IHx IHl ]; subst.
    inversion Hall as [ | ? ? Hx Hl ]; subst.
    cbn [stringify fst snd] in *.
    assert (He : parseMembers f
                   (quote k ++ ":" ++ stringify x ++ membersTail stringify ms ++ r)
                 = Some ((k, x) :: ms, r)).
    { apply parseMembers_tail.
      - rewrite Forall_forall in *. intros kv Hkv. apply IHl; auto.
      - apply IHx. exact Hx.
      - cbn [need] in Hf. lia. }
    rewrite quote_unfold in He.
    rewrite !append_assoc. cbn [append parseValue].
    change (Ascii.eqb "{" "{") with true. cbv iota.
    rewrite quote_unfold. cbn [skipWs].
    change (isWs Js.dquote) with false. cbv iota.
    change (Ascii.eqb Js.dquote "}") with false. cbv iota.
    rewrite ?append_assoc in He. cbn [append] in He.
    rewrite He, (buildObject_distinct _ Hd). reflexivity.
Qed.

(** ** The whole text *)

Lemma uint_to_string_length (u : uint) :
  u <> Nil -> 1 <= String.length (Js.uint_to_string u).
Proof. destruct u; simpl; intros H; try lia. congruence. Qed.

Lemma number_to_string_length (n : Z) :
  1 <= String.length (number_to_string n).
Proof.
  destruct (number_head n) as (c & s & E & _). rewrite E. simpl. lia.
Qed.

Lemma need_le_length (v : json) :
  need v <= String.length (stringify v).
Proof.
  induction v as [ | b | n | s | l IH | ms IH ] using json_induction.
  - simpl. lia.
  - destruct b; simpl; lia.
  - cbn [need stringify]. apply number_to_string_length.
  - cbn [need stringify]. unfold quote. rewrite !length_append. simpl. lia.
  - destruct l as [ | x l ]; [simpl; lia | ].
    inversion IH as [ | ? ? IHx IHl ]; subst.
    cbn [need stringify map list_sum fold_right].
    rewrite !length_append. cbn [String.length].
    assert (Ht : list_sum (map (fun y => S (need y)) l)
                 < String.length (elementsTail stringify l)).
    { clear IH IHx. induction IHl as [ | y l Hy Hl IHl' ]; simpl; [lia | ].
      rewrite !length_append. lia. }
    unfold list_sum in *. lia.
  - destruct ms as [ | [k x] ms ]; [simpl; lia | ].
    inversion IH as [ | ? ? IHx IHl ]; subst.
    cbn [need stringify map list_sum fold_right fst snd] in *.
    rewrite !length_append. cbn [String.length].
    assert (Ht : list_sum (map (fun kv => S (need (snd kv))) ms)
                 < String.length (membersTail stringify ms)).
    { clear IH IHx. induction IHl as [ | [k' y] l Hy Hl IHl' ]; simpl; [lia | ].
      rewrite !length_append. simpl in *. rewrite !length_append. lia. }
    unfold list_sum in *. lia.
Qed.

(** [JSON.parse(JSON.stringify(v))] is [v]. *)
Lemma parse_stringify (v : json) :
  valid v = true -> parse (stringify v) = Some v.
Proof.
  intros Hv. unfold parse.
  pose proof (skipWs_stringify v "") as Hs. rewrite append_nil_r in Hs.
  rewrite Hs.
  pose proof (@parseValue_stringify v Hv (S (String.length (stringify v))) "") as H.
  rewrite append_nil_r in H. rewrite H; [reflexivity | | ].
  - pose proof (need_le_length v). lia.
  - destruct v; reflexivity.
Qed.

(** A text that begins with a character no value begins with is
    refused. *)
Lemma parseValue_not_valueStart (fuel : nat) (c : ascii) (s : string) :
  valueStart c = false -> parseValue fuel (String c s) = None.
Proof.
  destruct fuel as [ | f ]; [reflexivity | ].
  destruct c as [[] [] [] [] [] [] [] []]; intros H;
    try discriminate H; reflexivity.
Qed.

Lemma parse_not_valueStart (s : string) :
  match skipWs s with
  | "" => True
  | String c _ => valueStart c = false
  end ->
  parse s = None.
Proof.
  unfold parse. destruct (skipWs s) as [ | c r ]; intros H.
  - reflexivity.
  - rewrite parseValue_not_valueStart; auto.
Qed.


(** * The JSON extractor *)

(** ** Searching in strings *)

Lemma find_none_cons (pat : string) (c : ascii) (s : string) :
  Js.find pat (String c s) = None ->
  Js.startsWith pat (String c s) = false /\ Js.find pat s = None.
Proof.
  cbn [Js.find]. destruct (Js.startsWith pat (String c s)); [discriminate | ].
  destruct (Js.find pat s); [discriminate | auto].
Qed.





Lemma includes_false (s pat : string) :
  Js.includes s pat = false -> Js.find pat s = None.
Proof. unfold Js.includes. destruct (Js.find pat s); [discriminate | auto]. Qed.




(** ** Trimming *)







Lemma stringify_nonempty (v : json) : stringify v <> "".
Proof.
  destruct (stringify_head v) as (c & s & E & _). rewrite E. discriminate.
Qed.



(** ** The fenced block *)



(** ** The three shapes of input *)


















Example extract_fenced_sample :
  sanitizeAndParseJson
    ("```json" ++ Js.nl ++ "{" ++ Js.dq ++ "a" ++ Js.dq ++ ":1}" ++ Js.nl ++ "```")
  = Ok (JObject [("a", JNumber 1)]).
Proof. reflexivity. Qed.


(** * Model discovery *)

(** ** The stable sort, for a comparator that orders by a key,
    greatest first *)

Section SortByKey.
Variable A : Type.
Variable key : A -> Z.

Lemma insert_perm (x : A) (l : list A) :
  Permutation (Js.insert (byKey key) x l) (x :: l).
Proof.
  induction l as [ | y l IH ]; simpl; auto.
  destruct (byKey key x y <=? 0)%Z; auto.
  rewrite IH. apply perm_swap.
Qed.

Lemma sort_perm (l : list A) : Permutation (Js.sort (byKey key) l) l.
Proof.
  induction l as [ | x l IH ]; simpl; auto.
  rewrite insert_perm. auto.
Qed.

Lemma insert_descending (x : A) (l : list A) :
  StronglySorted (fun a b => (key a >= key b)%Z) l ->
  StronglySorted (fun a b => (key a >= key b)%Z) (Js.insert (byKey key) x l).
Proof.
  induction 1 as [ | y l Hs IH Hall ]; simpl.
  - constructor; constructor.
  - unfold byKey at 1. destruct (key y - key x <=? 0)%Z eqn:E.
    + apply Z.leb_le in E. constructor.
      * constructor; assumption.
      * constructor; [lia | ].
        eapply Forall_impl; [ | exact Hall ]. simpl. intros; lia.
    + apply Z.leb_gt in E. constructor; [exact IH | ].
      eapply Permutation_Forall; [symmetry; apply insert_perm | ].
      constructor; [lia | exact Hall].
Qed.

Lemma sort_descending (l : list A) :
  StronglySorted (fun a b => (key a >= key b)%Z) (Js.sort (byKey key) l).
Proof.
  induction l as [ | x l IH ]; simpl.
  - constructor.
  - apply insert_descending. exact IH.
Qed.

Lemma insert_stable (s : Z) (x : A) (l : list A) :
  filter (fun a => (key a =? s)%Z) (Js.insert (byKey key) x l)
  = filter (fun a => (key a =? s)%Z) (x :: l).
Proof.
  induction l as [ | y l IH ]; [reflexivity | ].
  cbn [Js.insert]. unfold byKey at 1.
  destruct (key y - key x <=? 0)%Z eqn:E; [reflexivity | ].
  apply Z.leb_gt in E.
  cbn [filter] in *. rewrite IH.
  destruct (key y =? s)%Z eqn:Ey, (key x =? s)%Z eqn:Ex; try reflexivity.
  apply Z.eqb_eq in Ey, Ex. lia.
Qed.

Lemma sort_stable (s : Z) (l : list A) :
  filter (fun a => (key a =? s)%Z) (Js.sort (byKey key) l)
  = filter (fun a => (key a =? s)%Z) l.
Proof.
  induction l as [ | x l IH ]; [reflexivity | ].
  cbn [Js.sort]. rewrite insert_stable. cbn [filter]. rewrite IH. reflexivity.
Qed.

End SortByKey.

(** ** The marketplace catalog *)

Example getScore_weights :
  map (fun id => getScore (priced id "0" "0"))
      [ "deepseek-r1"; "llama-3"; "mistral"; "gemini"; "70b"; "free";
        "DeepSeek/DeepSeek-R1:free"; "meta-llama/llama-3.3-70b-instruct:free";
        "other/model" ]
  = [15; 10; 8; 8; 5; 1; 16; 16; 0]%Z.
Proof. reflexivity. Qed.

Lemma length_zero_nil (A : Type) (l : list A) :
  (List.length l =? 0) = true <-> l = [].
Proof.
  destruct l; simpl; split; intros H; congruence.
Qed.


Lemma tick_log (e : Event) (st : State) : tick (log e st) = S (tick st).
Proof. unfold tick, log. simpl. rewrite length_app. simpl. lia. Qed.



Example discovery_sample :
  fst (discoverFreeOpenRouterModels listingOnly initialState)
  = Ok [ "deepseek/deepseek-r1:free";
         "mistralai/mistral-7b-instruct:free";
         "google/gemini-2.0-flash-exp:free";
         "qwen/qwen-2.5-72b-instruct:free" ].
Proof. reflexivity. Qed.

(** ** The refresh *)

Lemma discoverFreeOpenRouterModels_total (w : World) (st : State) :
  exists ids,
    discoverFreeOpenRouterModels w st = (Ok ids, log EvListOpenRouter st)
    /\ ids <> []
    /\ (openRouterDiscoveryFails w (fetch_openrouter_models w (tick st)) = true
        -> ids = SAFETY_FALLBACK_OPENROUTER).
Proof.
  unfold discoverFreeOpenRouterModels, openRouterDiscoveryFails.
  destruct (fetch_openrouter_models w (tick st)) as [ e | [ models | ] ];
    cbn [freeOpenRouterModels].
  - eexists. split; [reflexivity | split; [discriminate | auto] ].
  - rewrite length_map.
    pose proof (sort_perm _ getScore (filter (isFreeModel w) models)) as Hp.
    change (byKey getScore) with byScore in Hp.
    apply Permutation_length in Hp.
    destruct (Js.sort byScore (filter (isFreeModel w) models)) as [ | x l ] eqn:E.
    + eexists. split; [reflexivity | split; [discriminate | auto] ].
    + eexists. split; [reflexivity | split; [discriminate | ] ].
      simpl in Hp. rewrite <- Hp. simpl. discriminate.
  - eexists. split; [reflexivity | split; [discriminate | auto] ].
Qed.

Lemma discoverTrendingHFModels_total (w : World) (st : State) :
  exists ids,
    discoverTrendingHFModels w st = (Ok ids, log EvListHuggingFace st)
    /\ ids <> []
    /\ (hfDiscoveryFails (fetch_hf_models w (tick st)) = true
        -> ids = SAFETY_FALLBACK_HF).
Proof.
  unfold discoverTrendingHFModels, hfDiscoveryFails.
  destruct (fetch_hf_models w (tick st)) as [ e | [ models | ] ];
    cbn [trendingHFModels].
  - eexists. split; [reflexivity | split; [discriminate | auto] ].
  - eexists. split; [reflexivity | split].
    + discriminate.
    + intros H. apply length_zero_nil in H. rewrite H. reflexivity.
  - eexists. split; [reflexivity | split; [discriminate | auto] ].
Qed.

Lemma refreshModelCache_total (w : World) (st : State) :
  exists st',
    refreshModelCache w st = (Ok tt, st')
    /\ (cacheIsStale w st = true ->
        cachedOpenRouterModels st' <> []
        /\ cachedHuggingFaceModels st' <> []
        /\ (openRouterDiscoveryFails w (fetch_openrouter_models w (tick st))
            = true ->
            cachedOpenRouterModels st' = SAFETY_FALLBACK_OPENROUTER)
        /\ (hfDiscoveryFails (fetch_hf_models w (S (tick st))) = true ->
            cachedHuggingFaceModels st' = SAFETY_FALLBACK_HF)).
Proof.
  unfold refreshModelCache.
  destruct (cacheIsStale w st).
  - destruct (discoverFreeOpenRouterModels_total w st) as (ids & E & Hne & Hf).
    destruct (discoverTrendingHFModels_total w (log EvListOpenRouter st))
      as (hids & E' & Hne' & Hf').
    rewrite E, E'. rewrite tick_log in Hf'.
    eexists. split; [reflexivity | ]. intros _. simpl. auto.
  - eexists. split; [reflexivity | discriminate].
Qed.

(** C6. [refreshModelCache] never throws; when it refreshes, it leaves
    both catalogs non-empty, and a discovery that failed leaves exactly
    the safety list of its provider. *)
Theorem refresh_leaves_catalogs (w : World) (st : State) :
  exists st',
    refreshModelCache w st = (Ok tt, st')
    /\ (cacheIsStale w st = true ->
        cachedOpenRouterModels st' <> []
        /\ cachedHuggingFaceModels st' <> []
        /\ (openRouterDiscoveryFails w (fetch_openrouter_models w (tick st))
            = true ->
            cachedOpenRouterModels st' = SAFETY_FALLBACK_OPENROUTER)
        /\ (hfDiscoveryFails (fetch_hf_models w (S (tick st))) = true ->
            cachedHuggingFaceModels st' = SAFETY_FALLBACK_HF)).
Proof. exact (refreshModelCache_total w st). Qed.

Lemma refresh_leaves_catalogs_witness :
  exists st',
    refreshModelCache offline initialState = (Ok tt, st')
    /\ cachedOpenRouterModels st' = SAFETY_FALLBACK_OPENROUTER
    /\ cachedHuggingFaceModels st' = SAFETY_FALLBACK_HF.
Proof.
  destruct (refresh_leaves_catalogs offline initialState) as (st' & E & H).
  exists st'. split; [exact E | ].
  destruct (H eq_refl) as (_ & _ & Hor & Hhf).
  split; [apply Hor | apply Hhf]; reflexivity.
Defined.

(** * The provider adapters *)

Lemma trace_logAll (events : list Event) (st : State) :
  trace (logAll events st) = (trace st ++ events)%list.
Proof.
  revert st. induction events as [ | e events IH ]; intros st; simpl.
  - rewrite List.app_nil_r. reflexivity.
  - unfold logAll in *. simpl. rewrite IH. simpl.
    rewrite <- List.app_assoc. reflexivity.
Qed.

Lemma logAll_app (a b : list Event) (st : State) :
  logAll (a ++ b)%list st = logAll b (logAll a st).
Proof. unfold logAll. apply fold_left_app. Qed.

(** ** Credentials and statuses *)

Ltac status_cases H :=
  match type of H with
  | _ \/ _ => destruct H as [H | H]; [ | status_cases H ]; subst
  | _ => subst
  end.

(** C2, as the code has it.  At the marketplace a 401, 402 or 429 moves
    to the next credential for the same model; any other status that is
    not a success leaves the model with its remaining credentials
    untried and moves to the next model.  At the inference endpoint the
    credential statuses are 401 and 429 only: a 402 leaves the model like
    any other failure. *)
Theorem credential_rotation (w : World) :
  (forall messages onChunk model key keys lastError st status body,
     fetch_openrouter_chat w (tick st) key model messages (isSome onChunk)
     = ORChatResponds status body ->
     statusOk status = false ->
     let st1 := log (EvOpenRouter key model messages (isSome onChunk)) st in
     ((status = 401 \/ status = 402 \/ status = 429)%Z ->
      openRouterKeys w messages onChunk model (key :: keys) lastError st
      = openRouterKeys w messages onChunk model keys lastError st1)
     /\ (status <> 401 -> status <> 402 -> status <> 429 ->
         forall models,
           openRouterModels w messages onChunk (key :: keys) (model :: models)
             lastError st
           = openRouterModels w messages onChunk (key :: keys) models
               lastError st1)%Z)
  /\
  (forall fullPrompt model key keys lastError st status body,
     fetch_hf_inference w (tick st) key model fullPrompt
     = HFResponds status body ->
     statusOk status = false ->
     let st1 := log (EvHuggingFace key model fullPrompt) st in
     ((status = 401 \/ status = 429)%Z ->
      huggingFaceKeys w fullPrompt model (key :: keys) lastError st
      = huggingFaceKeys w fullPrompt model keys lastError st1)
     /\ (status <> 401 -> status <> 429 ->
         forall models,
           huggingFaceModels w fullPrompt (key :: keys) (model :: models)
             lastError st
           = huggingFaceModels w fullPrompt (key :: keys) models
               lastError st1)%Z).
Proof.
  split.
  - intros messages onChunk model key keys lastError st status body Hf Hok st1.
    split.
    + intros Hs. cbn [openRouterKeys]. rewrite Hf, Hok. cbn [negb].
      status_cases Hs; reflexivity.
    + intros H1 H2 H3 models. cbn [openRouterModels openRouterKeys].
      rewrite Hf, Hok. cbn [negb].
      apply Z.eqb_neq in H1, H2, H3. rewrite H1, H2, H3. reflexivity.
  - intros fullPrompt model key keys lastError st status body Hf Hok st1.
    split.
    + intros Hs. cbn [huggingFaceKeys]. rewrite Hf, Hok. cbn [negb].
      status_cases Hs; reflexivity.
    + intros H1 H2 models. cbn [huggingFaceModels huggingFaceKeys].
      rewrite Hf, Hok. cbn [negb].
      apply Z.eqb_neq in H1, H2. rewrite H1, H2. reflexivity.
Qed.

Lemma credential_rotation_witness :
  openRouterKeys firstKeySpent hello None "m" ["k1"; "k2"] None initialState
  = openRouterKeys firstKeySpent hello None "m" ["k2"] None
      (log (EvOpenRouter "k1" "m" hello false) initialState)
  /\ huggingFaceModels firstKeySpent "hi" ["k1"; "k2"] ["m"; "n"] None
       initialState
     = huggingFaceModels firstKeySpent "hi" ["k1"; "k2"] ["n"] None
         (log (EvHuggingFace "k1" "m" "hi") initialState).
Proof.
  destruct (credential_rotation firstKeySpent) as [Hor Hhf].
  split.
  - apply (Hor hello None "m" "k1" ["k2"] None initialState 429%Z noBody);
      [reflexivity | reflexivity | right; right; reflexivity].
  - apply (Hhf "hi" "m" "k1" ["k2"] None initialState 402%Z (Throw networkDown));
      [reflexivity | reflexivity | discriminate | discriminate].
Defined.

(** The claim as the specification words it fails at the inference
    endpoint: after a 402 the second credential, which works, is not
    tried. *)
Lemma credential_rotation_402_counterexample :
  ~ (forall w fullPrompt model key keys lastError st status body,
       fetch_hf_inference w (tick st) key model fullPrompt
       = HFResponds status body ->
       statusOk status = false ->
       (status = 401 \/ status = 402 \/ status = 429)%Z ->
       huggingFaceKeys w fullPrompt model (key :: keys) lastError st
       = huggingFaceKeys w fullPrompt model keys lastError
           (log (EvHuggingFace key model fullPrompt) st)).
Proof.
  intros H.
  specialize (H firstKeySpent "hi" "m" "k1" ["k2"] None initialState 402%Z
                (Throw networkDown) eq_refl eq_refl
                (or_intror (or_introl eq_refl))).
  vm_compute in H. discriminate H.
Qed.

(** ** A model that is loading *)

Lemma reportsLoading_step (w : World) (fullPrompt model key : string)
  (keys : list string) (lastError : option JsError) (st : State) :
  reportsLoading (fetch_hf_inference w (tick st) key model fullPrompt) = true ->
  huggingFaceKeys w fullPrompt model (key :: keys) lastError st
  = huggingFaceKeys w fullPrompt model keys (Some (Error "Model loading"))
      (log (EvHuggingFace key model fullPrompt) st).
Proof.
  intros H. cbn [huggingFaceKeys].
  destruct (fetch_hf_inference w (tick st) key model fullPrompt)
    as [ e | status [ [ g | [ error | ] gt | s | | ] | e ] ];
    try discriminate H.
  cbn [reportsLoading] in H.
  apply andb_true_iff in H. destruct H as [H Hl].
  apply andb_true_iff in H. destruct H as [Hs He].
  rewrite Hs. unfold huggingFaceText. rewrite He, Hl. reflexivity.
Qed.

Lemma loading_keys (w : World) (fullPrompt model : string)
  (keys : list string) :
  (forall n key, In key keys ->
     reportsLoading (fetch_hf_inference w n key model fullPrompt) = true) ->
  forall lastError st,
    huggingFaceKeys w fullPrompt model keys lastError st
    = (Continue (match keys with
                 | [] => lastError
                 | _ => Some (Error "Model loading")
                 end),
       logAll (map (fun k => EvHuggingFace k model fullPrompt) keys) st).
Proof.
  induction keys as [ | key keys IH ]; intros H lastError st.
  - reflexivity.
  - rewrite reportsLoading_step by (apply H; left; reflexivity).
    rewrite IH by (intros; apply H; right; assumption).
    destruct keys; reflexivity.
Qed.

Lemma loading_models (w : World) (fullPrompt : string) (key : string)
  (keys loading rest : list string) :
  (forall n m k, In m loading -> In k (key :: keys) ->
     reportsLoading (fetch_hf_inference w n k m fullPrompt) = true) ->
  forall lastError st,
    huggingFaceModels w fullPrompt (key :: keys) (loading ++ rest) lastError st
    = huggingFaceModels w fullPrompt (key :: keys) rest
        (match loading with
         | [] => lastError
         | _ => Some (Error "Model loading")
         end)
        (logAll (hfAttempts fullPrompt (key :: keys) loading) st).
Proof.
  induction loading as [ | m loading IH ]; intros H lastError st.
  - reflexivity.
  - cbn [List.app huggingFaceModels].
    rewrite (loading_keys w fullPrompt m (key :: keys))
      by (intros; apply H; [left; reflexivity | assumption]).
    rewrite IH by (intros; apply H; [right; assumption | assumption]).
    unfold hfAttempts. cbn [flat_map]. rewrite logAll_app.
    destruct loading; reflexivity.
Qed.

(** C3. A loading response is an error of that attempt: the loop goes
    on with the next credential, then with the next model.  When the
    first models of the catalog all report that they are loading and the
    next one answers, the adapter returns that answer, after a request
    to every loading model with every credential. *)
Theorem loading_is_recoverable (w : World) (prompt : string)
  (systemInstruction : option string) (key : string) (keys : list string) :
  let fullPrompt := huggingFacePrompt prompt systemInstruction in
  (forall model lastError st,
     reportsLoading (fetch_hf_inference w (tick st) key model fullPrompt) = true ->
     huggingFaceKeys w fullPrompt model (key :: keys) lastError st
     = huggingFaceKeys w fullPrompt model keys (Some (Error "Model loading"))
         (log (EvHuggingFace key model fullPrompt) st))
  /\
  (forall loading good rest t st,
     cachedHuggingFaceModels st = (loading ++ good :: rest)%list ->
     (forall n m k, In m loading -> In k (key :: keys) ->
        reportsLoading (fetch_hf_inference w n k m fullPrompt) = true) ->
     (forall n, generates (fetch_hf_inference w n key good fullPrompt) t) ->
     exists st',
       callHuggingFace w prompt (key :: keys) systemInstruction st = (Ok t, st')
       /\ trace st'
          = (trace st ++ hfAttempts fullPrompt (key :: keys) loading
             ++ [EvHuggingFace key good fullPrompt])%list).
Proof.
  intros fullPrompt. split.
  - intros model lastError st H. apply reportsLoading_step. exact H.
  - intros loading good rest t st Hc Hl Hg.
    unfold callHuggingFace. rewrite Hc.
    replace (List.length (loading ++ good :: rest) =? 0) with false
      by (symmetry; apply Nat.eqb_neq; rewrite length_app; simpl; lia).
    rewrite Hc. fold fullPrompt.
    rewrite (loading_models w fullPrompt key keys loading (good :: rest) Hl).
    cbn [huggingFaceModels huggingFaceKeys].
    destruct (Hg (tick (logAll (hfAttempts fullPrompt (key :: keys) loading) st)))
      as (status & body & E & Hs & Ht).
    rewrite E, Hs. cbn [negb]. rewrite Ht.
    eexists. split; [reflexivity | ].
    unfold log. cbn [trace]. rewrite trace_logAll.
    rewrite <- List.app_assoc. reflexivity.
Qed.

Lemma loading_is_recoverable_witness :
  exists st',
    callHuggingFace twoLoading "hi" ["k1"; "k2"] None warmState
    = (Ok "ready text", st')
    /\ trace st'
       = [ EvHuggingFace "k1" "a/loading-1" (huggingFacePrompt "hi" None);
           EvHuggingFace "k2" "a/loading-1" (huggingFacePrompt "hi" None);
           EvHuggingFace "k1" "b/loading-2" (huggingFacePrompt "hi" None);
           EvHuggingFace "k2" "b/loading-2" (huggingFacePrompt "hi" None);
           EvHuggingFace "k1" "c/ready" (huggingFacePrompt "hi" None) ].
Proof.
  destruct (loading_is_recoverable twoLoading "hi" None "k1" ["k2"]) as [_ H].
  apply (H ["a/loading-1"; "b/loading-2"] "c/ready" ["d/spare"] "ready text"
           warmState).
  - reflexivity.
  - intros n m k [Hm | [Hm | []]] _; subst m; reflexivity.
  - intros n. exists 200%Z, (HFArray [Some "ready text"]).
    repeat split; reflexivity.
Defined.

(** ** Empty texts *)

Lemma huggingFaceText_nonempty (body : HFData) (t : string) :
  huggingFaceText body = Ok t -> t <> "".
Proof.
  unfold huggingFaceText.
  destruct (match body with
            | HFObject (Some error) _ =>
                negb (Js.isEmpty error) && Js.includes error "loading"
            | _ => false
            end); [discriminate | ].
  destruct body as [ [ | first g ] | error gt | s | | ]; try discriminate;
    match goal with
    | |- (if Js.isEmpty ?x then _ else _) = _ -> _ =>
        destruct x eqn:E; cbn [Js.isEmpty]; [discriminate | ];
        intros H; injection H as <-; discriminate
    end.
Qed.

Lemma huggingFaceKeys_nonempty (w : World) (fullPrompt model : string)
  (keys : list string) :
  forall lastError st t st',
    huggingFaceKeys w fullPrompt model keys lastError st = (Return t, st') ->
    t <> "".
Proof.
  induction keys as [ | key keys IH ]; intros lastError st t st' H.
  - discriminate H.
  - cbn [huggingFaceKeys] in H.
    destruct (fetch_hf_inference w (tick st) key model fullPrompt)
      as [ e | status [ body | e ] ].
    + eapply IH; exact H.
    + destruct (negb (statusOk status)).
      * destruct ((status =? 401)%Z || (status =? 429)%Z);
          [eapply IH; exact H | discriminate H].
      * destruct (huggingFaceText body) as [ g | e ] eqn:E.
        -- injection H as <- _. eapply huggingFaceText_nonempty; exact E.
        -- eapply IH; exact H.
    + destruct (negb (statusOk status)).
      * destruct ((status =? 401)%Z || (status =? 429)%Z);
          [eapply IH; exact H | discriminate H].
      * eapply IH; exact H.
Qed.

Lemma huggingFaceModels_nonempty (w : World) (fullPrompt : string)
  (keys models : list string) :
  forall lastError st t st',
    huggingFaceModels w fullPrompt keys models lastError st = (Return t, st') ->
    t <> "".
Proof.
  induction models as [ | model models IH ]; intros lastError st t st' H.
  - discriminate H.
  - cbn [huggingFaceModels] in H.
    destruct (huggingFaceKeys w fullPrompt model keys lastError st)
      as [ [ t1 | le ] st1 ] eqn:E.
    + injection H as <- _. eapply huggingFaceKeys_nonempty; exact E.
    + eapply IH; exact H.
Qed.

(** C9, as the code has it.  The inference adapter never returns an
    empty text: an empty generated text is the error "Empty response"
    of that attempt.  The primary adapter and the marketplace adapter
    return an empty text as a success, streaming or not. *)
Theorem empty_text_outcomes (w : World) :
  (forall prompt keys systemInstruction st t st',
     callHuggingFace w prompt keys systemInstruction st = (Ok t, st') ->
     t <> "")
  /\ (forall fullPrompt model key keys lastError st status,
        fetch_hf_inference w (tick st) key model fullPrompt
        = HFResponds status (Ok (HFArray [Some ""])) ->
        statusOk status = true ->
        huggingFaceKeys w fullPrompt model (key :: keys) lastError st
        = huggingFaceKeys w fullPrompt model keys
            (Some (Error "Empty response"))
            (log (EvHuggingFace key model fullPrompt) st))
  /\ (forall model contents config st,
        gemini_generateContent w (tick st) model contents config
        = GeminiResponds (Some "") None ->
        callGemini w model contents config None st
        = (Ok "", log (EvGemini model contents config false) st))
  /\ (forall model contents config cb st,
        gemini_generateContentStream w (tick st) model contents config
        = GeminiStreams [] None ->
        callGemini w model contents config (Some cb) st
        = (Ok "", log (EvGemini model contents config true) st))
  /\ (forall messages model key keys lastError st status body,
        fetch_openrouter_chat w (tick st) key model messages false
        = ORChatResponds status body ->
        statusOk status = true ->
        or_json body = Ok "" ->
        openRouterKeys w messages None model (key :: keys) lastError st
        = (Return "", log (EvOpenRouter key model messages false) st))
  /\ (forall messages cb model key keys lastError st status body,
        fetch_openrouter_chat w (tick st) key model messages true
        = ORChatResponds status body ->
        statusOk status = true ->
        or_deltas body = [] ->
        or_readError body = None ->
        openRouterKeys w messages (Some cb) model (key :: keys) lastError st
        = (Return "", log (EvOpenRouter key model messages true) st)).
Proof.
  repeat split.
  - intros prompt keys systemInstruction st t st' H.
    unfold callHuggingFace in H.
    destruct (if List.length (cachedHuggingFaceModels st) =? 0
              then refreshModelCache w st else (Ok tt, st)) as [ [ [] | e ] st0 ];
      [ | discriminate H ].
    destruct (huggingFaceModels w (huggingFacePrompt prompt systemInstruction)
                keys (cachedHuggingFaceModels st0) None st0)
      as [ [ t1 | le ] st1 ] eqn:E; [ | discriminate H ].
    injection H as <- _. eapply huggingFaceModels_nonempty; exact E.
  - intros fullPrompt model key keys lastError st status Hf Hs.
    cbn [huggingFaceKeys]. rewrite Hf, Hs. reflexivity.
  - intros model contents config st Hf.
    unfold callGemini. rewrite Hf. reflexivity.
  - intros model contents config cb st Hf.
    unfold callGemini. rewrite Hf. reflexivity.
  - intros messages model key keys lastError st status body Hf Hs Hj.
    cbn [openRouterKeys isSome]. rewrite Hf, Hs, Hj. reflexivity.
  - intros messages cb model key keys lastError st status body Hf Hs Hd He.
    cbn [openRouterKeys isSome]. rewrite Hf, Hs, Hd, He. reflexivity.
Qed.

Lemma empty_text_outcomes_witness :
  callGemini emptyAnswers "gemini-2.5-flash" [] noConfig None initialState
  = (Ok "", log (EvGemini "gemini-2.5-flash" [] noConfig false) initialState)
  /\ openRouterKeys emptyAnswers hello None "m" ["k1"] None initialState
     = (Return "", log (EvOpenRouter "k1" "m" hello false) initialState)
  /\ huggingFaceKeys emptyAnswers "hi" "m" ["k1"] None initialState
     = huggingFaceKeys emptyAnswers "hi" "m" []
         (Some (Error "Empty response"))
         (log (EvHuggingFace "k1" "m" "hi") initialState).
Proof.
  destruct (empty_text_outcomes emptyAnswers)
    as (_ & Hhf & Hg & _ & Hor & _).
  split; [ | split ].
  - apply Hg. reflexivity.
  - apply (Hor hello "m" "k1" [] None initialState 200%Z
             {| or_json := Ok ""; or_deltas := []; or_readError := None |});
      reflexivity.
  - apply (Hhf "hi" "m" "k1" [] None initialState 200%Z); reflexivity.
Defined.

(** The claim as the specification words it fails: the primary adapter
    and the marketplace adapter return the empty text as a success. *)
Lemma empty_text_counterexample :
  fst (callGemini emptyAnswers "gemini-2.5-flash" [] noConfig None initialState)
  = Ok ""
  /\ fst (callGemini emptyAnswers "gemini-2.5-flash" [] noConfig
            (Some CallerCallback) initialState) = Ok ""
  /\ fst (callOpenRouter emptyAnswers hello ["k1"] None (Some "m") warmState)
     = Ok ""
  /\ fst (callOpenRouter emptyAnswers hello ["k1"] (Some CallerCallback)
            (Some "m") warmState) = Ok "".
Proof. repeat split; reflexivity. Qed.

(** * The fallback orchestrator *)






Example fallback_all_fail :
  exists st',
    executeWithFallback 1 offline
      (ask "explain recursion" (settingsOf openrouter ["k1"] ["h1"] false))
      initialState
    = Some (Throw (Error "All AI providers failed. Last error: Hugging Face failed. Checked models with all keys. Last error: TypeError: Failed to fetch"), st').
Proof. eexists. vm_compute. reflexivity. Qed.

Example fallback_primary_only :
  exists st',
    executeWithFallback 1 primaryAlways
      (ask "explain recursion" (settingsOf gemini [] [] false)) initialState
    = Some (Ok "ok", st')
    /\ trace st'
       = [ EvListOpenRouter; EvListHuggingFace;
           EvGemini "gemini-2.5-flash"
             (geminiContents (ask "explain recursion"
                                 (settingsOf gemini [] [] false)))
             (geminiConfig (ask "explain recursion"
                              (settingsOf gemini [] [] false)))
             false ].
Proof. eexists. vm_compute. split; reflexivity. Qed.

(** * The swarm engine *)

Lemma swarmCalls_models (w : World) (messages : list ChatMessage)
  (apiKeys : list string) (swarmModels : list string) (st : State) :
  map sr_model (fst (swarmCalls w messages apiKeys swarmModels st))
  = swarmModels.
Proof.
  revert st. induction swarmModels as [ | model rest IH ]; intros st.
  - reflexivity.
  - cbn [swarmCalls].
    destruct (callOpenRouter w messages apiKeys None (Some model) st)
      as [r st1].
    specialize (IH st1).
    destruct (swarmCalls w messages apiKeys rest st1) as [results st2].
    cbn [fst map] in *. rewrite IH. destruct r; reflexivity.
Qed.







(** A call that returns the empty text is not among the successful
    ones. *)
Example swarm_empty_texts :
  exists st',
    executeOpenRouterSwarm 2 emptyAnswers "q" [] (settingsOf gemini ["k"] [] true)
      None initialState
    = Some (Throw (Error "Swarm failed: All models returned errors."), st').
Proof. eexists. vm_compute. reflexivity. Qed.

Example swarm_all_fail :
  exists st',
    executeOpenRouterSwarm 2 offline "q" [] (settingsOf gemini ["k"] [] true)
      None initialState
    = Some (Throw (Error "Swarm failed: All models returned errors."), st').
Proof. eexists. vm_compute. reflexivity. Qed.

(** * The hybrid engine without credentials *)

Lemma primaryOnlySince_refl (st : State) : primaryOnlySince st st.
Proof. exists []. rewrite List.app_nil_r. split; reflexivity. Qed.

Lemma primaryOnlySince_trans (a b c : State) :
  primaryOnlySince a b -> primaryOnlySince b c -> primaryOnlySince a c.
Proof.
  intros (e1 & H1 & F1) (e2 & H2 & F2). exists (e1 ++ e2)%list. split.
  - rewrite H2, H1, List.app_assoc. reflexivity.
  - rewrite forallb_app, F1, F2. reflexivity.
Qed.

Lemma primaryOnlySince_log (e : Event) (st : State) :
  primaryOnly e = true -> primaryOnlySince st (log e st).
Proof.
  intros H. exists [e]. split; [reflexivity | ]. simpl. rewrite H. reflexivity.
Qed.

Lemma primaryOnlySince_callChunk (cb : Callback) (text : string) (st : State) :
  primaryOnlySince st (callChunk cb text st).
Proof.
  destruct cb; simpl.
  - apply primaryOnlySince_log. reflexivity.
  - apply primaryOnlySince_refl.
Qed.

Lemma primaryOnlySince_refresh (w : World) (st : State) :
  primaryOnlySince st (snd (refreshModelCache w st)).
Proof.
  unfold refreshModelCache.
  destruct (cacheIsStale w st); [ | apply primaryOnlySince_refl ].
  destruct (discoverFreeOpenRouterModels_total w st) as (ids & E & _).
  destruct (discoverTrendingHFModels_total w (log EvListOpenRouter st))
    as (hids & E' & _).
  rewrite E, E'. cbn [snd].
  exists [EvListOpenRouter; EvListHuggingFace]. split; [ | reflexivity ].
  cbn [trace log]. rewrite <- List.app_assoc. reflexivity.
Qed.

Lemma primaryOnlySince_streamChunks (cb : Callback)
  (chunks : list (option string)) :
  forall full st, primaryOnlySince st (snd (streamChunks cb chunks full st)).
Proof.
  induction chunks as [ | [ text | ] chunks IH ]; intros full st;
    cbn [streamChunks].
  - apply primaryOnlySince_refl.
  - destruct (Js.isEmpty text); [apply IH | ].
    eapply primaryOnlySince_trans; [ | apply IH ].
    apply primaryOnlySince_callChunk.
  - apply IH.
Qed.

Lemma primaryOnlySince_callGemini (w : World) (model : string)
  (contents : list Content) (config : GeminiConfig)
  (onChunk : option Callback) (st : State) :
  primaryOnlySince st (snd (callGemini w model contents config onChunk st)).
Proof.
  unfold callGemini. destruct onChunk as [ cb | ].
  - destruct (gemini_generateContentStream w (tick st) model contents config)
      as [ e | chunks failure ].
    + apply primaryOnlySince_log. reflexivity.
    + pose proof (primaryOnlySince_streamChunks cb chunks ""
                    (log (EvGemini model contents config true) st)) as H.
      destruct (streamChunks cb chunks ""
                  (log (EvGemini model contents config true) st)) as [full st2].
      cbn [snd] in H.
      assert (primaryOnlySince st st2)
        by (eapply primaryOnlySince_trans; [ | exact H ];
            apply primaryOnlySince_log; reflexivity).
      destruct failure; assumption.
  - destruct (gemini_generateContent w (tick st) model contents config);
      apply primaryOnlySince_log; reflexivity.
Qed.

(** With no credentials and the primary provider chosen, the
    orchestrator is one call of the primary adapter. *)
Lemma executeWithFallback_primary (f : nat) (w : World) (params : Params)
  (st : State) :
  provider (p_settings params) = gemini ->
  openRouterApiKeys (p_settings params) = [] ->
  huggingFaceApiKeys (p_settings params) = [] ->
  executeWithFallback (S f) w params st
  = match callGemini w (geminiModel (p_settings params) (p_files params))
            (geminiContents params) (geminiConfig params) (p_onChunk params)
            (snd (refreshModelCache w st)) with
    | (Ok text, st') => Some (Ok text, st')
    | (Throw e, st') =>
        Some (Throw (Error ("All AI providers failed. Last error: "
                            ++ err_message e)), st')
    end.
Proof.
  intros Hp Ho Hh. cbn [executeWithFallback].
  unfold swarmEligible, providerList, getOpenRouterKeys, getHuggingFaceKeys.
  rewrite Hp, Ho, Hh. cbn [AIProvider_eqb negb List.length Nat.ltb Nat.leb andb].
  rewrite andb_false_r. cbn [andb List.app tryProviders runProvider lift].
  destruct (callGemini w (geminiModel (p_settings params) (p_files params))
              (geminiContents params) (geminiConfig params) (p_onChunk params)
              (snd (refreshModelCache w st))) as [ [ text | e ] st' ];
    reflexivity.
Qed.

Lemma executeWithFallback_primary_trace (f : nat) (w : World)
  (params : Params) (st : State) :
  provider (p_settings params) = gemini ->
  openRouterApiKeys (p_settings params) = [] ->
  huggingFaceApiKeys (p_settings params) = [] ->
  exists r st',
    executeWithFallback (S f) w params st = Some (r, st')
    /\ primaryOnlySince st st'.
Proof.
  intros Hp Ho Hh. rewrite executeWithFallback_primary by assumption.
  pose proof (primaryOnlySince_callGemini w
                (geminiModel (p_settings params) (p_files params))
                (geminiContents params) (geminiConfig params) (p_onChunk params)
                (snd (refreshModelCache w st))) as H.
  destruct (callGemini w (geminiModel (p_settings params) (p_files params))
              (geminiContents params) (geminiConfig params) (p_onChunk params)
              (snd (refreshModelCache w st))) as [ [ text | e ] st' ];
    cbn [snd] in H; eexists; eexists; (split; [reflexivity | ]);
    (eapply primaryOnlySince_trans; [apply primaryOnlySince_refresh | exact H]).
Qed.

Lemma retrieveRelevantMemories_primary (f : nat) (w : World) (query : string)
  (settings : AISettings) (st : State) :
  provider settings = gemini ->
  openRouterApiKeys settings = [] ->
  huggingFaceApiKeys settings = [] ->
  exists relevant st',
    retrieveRelevantMemories (S (S f)) w query settings st
    = Some (Ok relevant, st')
    /\ primaryOnlySince st st'.
Proof.
  intros Hp Ho Hh. cbn [retrieveRelevantMemories].
  destruct (List.length (getMemories w) =? 0).
  - eexists; eexists; split; [reflexivity | apply primaryOnlySince_refl].
  - destruct (executeWithFallback_primary_trace f w
                (memoryQueryParams query settings (getMemories w)) st Hp Ho Hh)
      as (r & st' & E & H).
    rewrite E. destruct r as [ text | e ].
    + destruct (sanitizeAndParseJson text) as [ ids | e ].
      * destruct (relevantMemories ids (getMemories w));
          eexists; eexists; split; try reflexivity; exact H.
      * eexists; eexists; split; [reflexivity | exact H].
    + eexists; eexists; split; [reflexivity | exact H].
Qed.

(** C8. With neither marketplace nor inference-endpoint credentials the
    hybrid engine is [getChatResponse] with the primary provider forced:
    its outcome is that of one call of the primary adapter on the chat
    request, and from the start to the end no request goes to the
    marketplace or to the inference endpoint. *)
Theorem hybrid_degrades (fuel : nat) (w : World) (prompt : string)
  (history : list Message) (settings : AISettings) (onChunk : Callback)
  (st : State) :
  openRouterApiKeys settings = [] ->
  huggingFaceApiKeys settings = [] ->
  exists context st1,
    let params :=
      chatParams prompt history (withProvider settings gemini) []
        (Some onChunk) context in
    let answer :=
      callGemini w (geminiModel (withProvider settings gemini) [])
        (geminiContents params) (geminiConfig params) (Some onChunk) st1 in
    getMultiModelResponse (4 + fuel) w prompt history settings onChunk st
    = getChatResponse (3 + fuel) w prompt history
        (withProvider settings gemini) [] (Some onChunk)
        (snd (refreshModelCache w st))
    /\ getMultiModelResponse (4 + fuel) w prompt history settings onChunk st
       = match answer with
         | (Ok text, st') => Some (Ok text, st')
         | (Throw e, st') =>
             Some (Throw (Error ("All AI providers failed. Last error: "
                                 ++ err_message e)), st')
         end
    /\ primaryOnlySince st st1
    /\ primaryOnlySince st (snd answer).
Proof.
  intros Ho Hh.
  assert (Hstep : getMultiModelResponse (4 + fuel) w prompt history settings
                    onChunk st
                  = getChatResponse (3 + fuel) w prompt history
                      (withProvider settings gemini) [] (Some onChunk)
                      (snd (refreshModelCache w st))).
  { change (4 + fuel) with (S (3 + fuel)). cbn [getMultiModelResponse].
    destruct (refreshModelCache_total w st) as (st0 & Er & _).
    rewrite Er, Ho, Hh. reflexivity. }
  destruct (retrieveRelevantMemories_primary fuel w prompt
              (withProvider settings gemini) (snd (refreshModelCache w st))
              eq_refl Ho Hh) as (relevant & st1 & Em & Hm).
  exists (memoryContext relevant), (snd (refreshModelCache w st1)).
  cbv zeta.
  set (params := chatParams prompt history (withProvider settings gemini) []
                   (Some onChunk) (memoryContext relevant)).
  assert (Hchat : getChatResponse (3 + fuel) w prompt history
                    (withProvider settings gemini) [] (Some onChunk)
                    (snd (refreshModelCache w st))
                  = executeWithFallback (2 + fuel) w params st1).
  { change (3 + fuel) with (S (S (S fuel))). cbn [getChatResponse].
    cbn [List.length Nat.eqb]. rewrite Em. reflexivity. }
  assert (Hsince : primaryOnlySince st (snd (refreshModelCache w st1))).
  { eapply primaryOnlySince_trans; [apply primaryOnlySince_refresh | ].
    eapply primaryOnlySince_trans; [exact Hm | apply primaryOnlySince_refresh]. }
  split; [exact Hstep | ].
  split; [ | split; [exact Hsince | ] ].
  - rewrite Hstep, Hchat. change (2 + fuel) with (S (S fuel)).
    rewrite executeWithFallback_primary by (try reflexivity; assumption).
    reflexivity.
  - eapply primaryOnlySince_trans; [exact Hsince | ].
    apply primaryOnlySince_callGemini.
Qed.

Lemma hybrid_degrades_witness :
  exists st',
    getMultiModelResponse 4 primaryAlways "explain recursion" []
      (settingsOf hybrid [] [] false) CallerCallback initialState
    = Some (Ok "ok", st')
    /\ trace st'
       = [ EvListOpenRouter; EvListHuggingFace;
           EvGemini "gemini-2.5-flash"
             (geminiContents (chatParams "explain recursion" []
                                (settingsOf gemini [] [] false) []
                                (Some CallerCallback) ""))
             (geminiConfig (chatParams "explain recursion" []
                              (settingsOf gemini [] [] false) []
                              (Some CallerCallback) ""))
             true;
           EvChunk "ok" ].
Proof.
  destruct (hybrid_degrades 0 primaryAlways "explain recursion" []
              (settingsOf hybrid [] [] false) CallerCallback initialState
              eq_refl eq_refl) as (context & st1 & H & _).
  change (4 + 0) with 4 in H. change (3 + 0) with 3 in H.
  rewrite H. eexists. vm_compute. split; reflexivity.
Defined.

(** * The hybrid engine and its synthesis call *)










(** ** The stores *)

Lemma isEmpty_stringify (v : Json.json) : Js.isEmpty (Json.stringify v) = false.
Proof.
  pose proof (stringify_nonempty v) as H.
  destruct (Json.stringify v); [ congruence | reflexivity ].
Qed.

Lemma parseStored_stringify (v otherwise : Json.json) :
  Json.valid v = true ->
  parseStored (Some (Json.stringify v)) otherwise = v.
Proof.
  intros Hv. unfold parseStored.
  rewrite isEmpty_stringify, (parse_stringify v Hv). reflexivity.
Qed.

Lemma getItem_setItem_same (key value : string) (store : Storage) :
  getItem (setItem key value store) key = Some value.
Proof.
  unfold getItem, setItem. rewrite String.eqb_refl. reflexivity.
Qed.

Lemma getItem_setItem_other (key value k : string) (store : Storage) :
  k <> key -> getItem (setItem key value store) k = getItem store k.
Proof.
  intros H. unfold getItem, setItem.
  destruct (String.eqb_spec k key); [ contradiction | reflexivity ].
Qed.

Lemma parseStored_unreadable (stored : option string) (otherwise : Json.json) :
  match stored with
  | None => True
  | Some text => notJson text
  end ->
  parseStored stored otherwise = otherwise.
Proof.
  destruct stored as [ text | ]; [ | reflexivity ].
  intros H. unfold parseStored.
  destruct (Js.isEmpty text); [ reflexivity | ].
  rewrite (parse_not_valueStart text H). reflexivity.
Qed.

(** X1.  What the hook's effect stores is what [getValue] reads back:
    after the effect has run for a value, [getValue] returns that value
    for the same key, whatever the initial value, and returns for every
    other key what it returned before. *)
Theorem stored_value_is_read_back
  (key : string) (value initialValue : Json.json) (store : Storage) :
  Json.valid value = true ->
  UseLocalStorage.getValue key initialValue
    (UseLocalStorage.effect key value store) = value
  /\ forall k other, k <> key ->
       UseLocalStorage.getValue k other
         (UseLocalStorage.effect key value store)
       = UseLocalStorage.getValue k other store.
Proof.
  intros Hv. unfold UseLocalStorage.getValue, UseLocalStorage.effect. split.
  - rewrite getItem_setItem_same. apply parseStored_stringify, Hv.
  - intros k other Hk. rewrite getItem_setItem_other by exact Hk. reflexivity.
Qed.

Lemma stored_value_is_read_back_witness :
  UseLocalStorage.getValue "aiSettings" Json.JNull
    (UseLocalStorage.effect "aiSettings" sampleObject emptyStorage)
  = sampleObject.
Proof.
  apply (stored_value_is_read_back "aiSettings" sampleObject Json.JNull
           emptyStorage).
  reflexivity.
Defined.

(** X2.  A store that cannot be read gives the default instead of an
    error: when the key is absent, or its text is blank or begins with
    a character that no JSON value begins with, [getValue] returns the
    initial value and [getMemories] the empty list. *)
Theorem unreadable_store_gives_default
  (key : string) (initialValue : Json.json) (store : Storage) :
  (match getItem store key with
   | None => True
   | Some text => notJson text
   end ->
   UseLocalStorage.getValue key initialValue store = initialValue)
  /\ (match getItem store MemoryService.MEMORY_STORAGE_KEY with
      | None => True
      | Some text => notJson text
      end ->
      MemoryService.getMemories store = Json.JArray []).
Proof.
  split; intros H.
  - apply parseStored_unreadable, H.
  - apply parseStored_unreadable, H.
Qed.

Lemma unreadable_store_gives_default_witness :
  UseLocalStorage.getValue "theme" (Json.JString "light")
    (setItem "theme" "<html>" emptyStorage) = Json.JString "light"
  /\ MemoryService.getMemories
       (setItem MemoryService.MEMORY_STORAGE_KEY "oops" emptyStorage)
     = Json.JArray [].
Proof.
  destruct (unreadable_store_gives_default "theme" (Json.JString "light")
              (setItem "theme" "<html>"
                 (setItem MemoryService.MEMORY_STORAGE_KEY "oops" emptyStorage)))
    as [ H1 H2 ].
  split.
  - apply H1. reflexivity.
  - apply H2. reflexivity.
Defined.

(** ** The memory service *)













(** ** The settings screen *)

Lemma trimEnd_idempotent (s : string) : Js.trimEnd (Js.trimEnd s) = Js.trimEnd s.
Proof.
  induction s as [ | c s IH ]; [ reflexivity | ].
  cbn [Js.trimEnd]. destruct (Js.trimEnd s) as [ | d t ] eqn:E.
  - destruct (Js.isSpace c) eqn:Ec; [ reflexivity | ].
    cbn [Js.trimEnd]. rewrite Ec. reflexivity.
  - change (Js.trimEnd (String c (String d t)))
      with (match Js.trimEnd (String d t) with
            | "" => if Js.isSpace c then "" else String c ""
            | String a b => String c (String a b)
            end).
    rewrite IH. reflexivity.
Qed.

Lemma trimStart_head (s : string) :
  match Js.trimStart s with
  | "" => True
  | String c _ => Js.isSpace c = false
  end.
Proof.
  induction s as [ | c s IH ]; [ exact I | ].
  cbn [Js.trimStart]. destruct (Js.isSpace c) eqn:E; [ exact IH | exact E ].
Qed.

Lemma trimEnd_head (c : ascii) (s : string) :
  Js.isSpace c = false ->
  exists t, Js.trimEnd (String c s) = String c t.
Proof.
  intros Hc. cbn [Js.trimEnd]. destruct (Js.trimEnd s) as [ | d t ].
  - rewrite Hc. exists "". reflexivity.
  - exists (String d t). reflexivity.
Qed.

Lemma trim_idempotent (s : string) : Js.trim (Js.trim s) = Js.trim s.
Proof.
  unfold Js.trim. pose proof (trimStart_head s) as H.
  destruct (Js.trimStart s) as [ | c u ] eqn:E; [ reflexivity | ].
  destruct (trimEnd_head c u H) as [ t Et ].
  assert (Hs : Js.trimStart (Js.trimEnd (String c u)) = Js.trimEnd (String c u)).
  { rewrite Et. cbn [Js.trimStart]. rewrite H. reflexivity. }
  rewrite Hs. apply trimEnd_idempotent.
Qed.









Lemma indexInRange_safeIndex (keys : list string) (index : Z) :
  indexInRange keys (SettingsScreen.safeIndex keys index).
Proof.
  unfold SettingsScreen.safeIndex, indexInRange.
  destruct (0 <? List.length keys) eqn:E1; cbn [andb].
  - destruct (0 <=? index)%Z eqn:E2; cbn [andb].
    + destruct (index <? Z.of_nat (List.length keys))%Z eqn:E3.
      * split; [ lia | left; lia ].
      * apply Nat.ltb_lt in E1. split; [ lia | left; lia ].
    + apply Nat.ltb_lt in E1. split; [ lia | left; lia ].
  - apply Nat.ltb_ge in E1. destruct keys; [ | cbn in E1; lia ].
    split; [ lia | right; split; reflexivity ].
Qed.

Lemma safeIndex_in_range (keys : list string) (index : Z) :
  indexInRange keys index -> SettingsScreen.safeIndex keys index = index.
Proof.
  unfold SettingsScreen.safeIndex, indexInRange.
  intros [ H0 [ H1 | [ -> -> ] ] ]; [ | reflexivity ].
  assert (E1 : (0 <? List.length keys) = true) by (apply Nat.ltb_lt; lia).
  assert (E2 : (0 <=? index)%Z = true) by lia.
  assert (E3 : (index <? Z.of_nat (List.length keys))%Z = true) by lia.
  rewrite E1, E2, E3. reflexivity.
Qed.

(** X7.  Saving repairs the indices: whatever the edited settings hold,
    the settings that [handleSave] hands over have both indices in
    range (0 for an empty list); the lists, and an index that was in
    range, are handed over unchanged. *)
Theorem save_repairs_indices (form : SettingsScreen.Form) :
  let s := SettingsScreen.localSettings form in
  let saved := SettingsScreen.handleSave form in
  indicesInRange saved
  /\ openRouterApiKeys saved = openRouterApiKeys s
  /\ huggingFaceApiKeys saved = huggingFaceApiKeys s
  /\ provider saved = provider s
  /\ isComplexTaskMode saved = isComplexTaskMode s
  /\ (indexInRange (openRouterApiKeys s) (openRouterKeyIndex s) ->
      openRouterKeyIndex saved = openRouterKeyIndex s)
  /\ (indexInRange (huggingFaceApiKeys s) (huggingFaceKeyIndex s) ->
      huggingFaceKeyIndex saved = huggingFaceKeyIndex s).
Proof.
  cbv zeta. unfold SettingsScreen.handleSave, indicesInRange.
  cbn [openRouterApiKeys openRouterKeyIndex huggingFaceApiKeys
       huggingFaceKeyIndex provider isComplexTaskMode].
  split; [ split; apply indexInRange_safeIndex | ].
  repeat (split; [ reflexivity | ]).
  split; apply safeIndex_in_range.
Qed.

Lemma save_repairs_indices_witness :
  openRouterKeyIndex (SettingsScreen.handleSave typedKey)
  = openRouterKeyIndex (SettingsScreen.localSettings typedKey).
Proof.
  destruct (save_repairs_indices typedKey) as (_ & _ & _ & _ & _ & H & _).
  apply H. split; [ reflexivity | right; split; reflexivity ].
Defined.

Lemma indexInRange_app (keys : list string) (key : string) (index : Z) :
  indexInRange keys index -> indexInRange (keys ++ [key]) index.
Proof.
  unfold indexInRange. rewrite length_app. cbn [List.length].
  intros [ H0 [ H1 | [ -> -> ] ] ]; split; try lia; left; cbn; lia.
Qed.

Lemma indexInRange_clampIndex (keys : list string) (index : Z) :
  (0 <= index)%Z -> indexInRange keys (SettingsScreen.clampIndex keys index).
Proof.
  intros H0. unfold SettingsScreen.clampIndex, indexInRange.
  destruct (index >=? Z.of_nat (List.length keys))%Z eqn:E.
  - destruct keys as [ | k rest ].
    + cbn. split; [ lia | right; split; reflexivity ].
    + cbn [List.length]. split; [ lia | left; lia ].
  - split; [ exact H0 | left; lia ].
Qed.

Lemma remainder_in_range (index : Z) (n : nat) :
  (0 <= index)%Z -> 0 < n ->
  exists i, App.remainder (index + 1) (Z.of_nat n) = Some i
            /\ i = ((index + 1) mod Z.of_nat n)%Z
            /\ (0 <= i < Z.of_nat n)%Z.
Proof.
  intros H0 Hn. unfold App.remainder.
  assert (E : (Z.of_nat n =? 0)%Z = false) by lia.
  rewrite E. eexists. split; [ reflexivity | ].
  rewrite Z.rem_mod_nonneg by lia. split; [ reflexivity | ].
  apply Z.mod_pos_bound. lia.
Qed.

(** X8.  No handler takes an index out of range: if both indices of the
    settings designate a credential (or are 0 for an empty list), they
    still do after a credential is added or removed on the settings
    screen and after the application rotates the credentials. *)
Theorem indices_stay_in_range (form : SettingsScreen.Form) (key : string) :
  let s := SettingsScreen.localSettings form in
  indicesInRange s ->
  indicesInRange (SettingsScreen.localSettings
                    (SettingsScreen.handleAddOpenRouterKey form))
  /\ indicesInRange (SettingsScreen.localSettings
                       (SettingsScreen.handleAddHuggingFaceKey form))
  /\ indicesInRange (SettingsScreen.localSettings
                       (SettingsScreen.handleRemoveOpenRouterKey key form))
  /\ indicesInRange (SettingsScreen.localSettings
                       (SettingsScreen.handleRemoveHuggingFaceKey key form))
  /\ exists next, App.rotateKey s s = Some next /\ indicesInRange next.
Proof.
  cbv zeta. intros [ Ho Hh ]. split; [ | split; [ | split; [ | split ] ] ].
  - unfold SettingsScreen.handleAddOpenRouterKey.
    destruct (negb _ && negb _); [ | split; assumption ].
    cbn. split; [ apply indexInRange_app, Ho | exact Hh ].
  - unfold SettingsScreen.handleAddHuggingFaceKey.
    destruct (negb _ && negb _); [ | split; assumption ].
    cbn. split; [ exact Ho | apply indexInRange_app, Hh ].
  - cbn. split; [ apply indexInRange_clampIndex, Ho | exact Hh ].
  - cbn. split; [ exact Ho | apply indexInRange_clampIndex, Hh ].
  - unfold App.rotateKey.
    destruct (AIProvider_eqb _ openrouter && _) eqn:E1.
    + apply andb_prop in E1. destruct E1 as [ _ E1 ]. apply Nat.ltb_lt in E1.
      destruct (remainder_in_range
                  (openRouterKeyIndex (SettingsScreen.localSettings form))
                  (List.length (openRouterApiKeys
                                  (SettingsScreen.localSettings form))))
        as (i & Ei & _ & Hi); [ apply Ho | exact E1 | ].
      rewrite Ei. eexists. split; [ reflexivity | ].
      split; [ | exact Hh ]. cbn. split; [ lia | left; lia ].
    + destruct (AIProvider_eqb _ huggingface && _) eqn:E2.
      * apply andb_prop in E2. destruct E2 as [ _ E2 ]. apply Nat.ltb_lt in E2.
        destruct (remainder_in_range
                    (huggingFaceKeyIndex (SettingsScreen.localSettings form))
                    (List.length (huggingFaceApiKeys
                                    (SettingsScreen.localSettings form))))
          as (i & Ei & _ & Hi); [ apply Hh | exact E2 | ].
        rewrite Ei. eexists. split; [ reflexivity | ].
        split; [ exact Ho | ]. cbn. split; [ lia | left; lia ].
      * eexists. split; [ reflexivity | split; assumption ].
Qed.

Lemma indices_stay_in_range_witness :
  indicesInRange
    (SettingsScreen.localSettings
       (SettingsScreen.handleRemoveOpenRouterKey "k3" threeKeys)).
Proof.
  destruct (indices_stay_in_range threeKeys "k3") as (_ & _ & H & _).
  - split.
    + split; [ vm_compute; discriminate | left; vm_compute; reflexivity ].
    + split; [ vm_compute; discriminate | right; split; reflexivity ].
  - exact H.
Defined.

(** ** The rotation of the credentials *)

Lemma setOpenRouter_same (s : AISettings) :
  setOpenRouter s (openRouterApiKeys s) (openRouterKeyIndex s) = s.
Proof.
  destruct s. reflexivity.
Qed.

Lemma setHuggingFace_same (s : AISettings) :
  setHuggingFace s (huggingFaceApiKeys s) (huggingFaceKeyIndex s) = s.
Proof.
  destruct s. reflexivity.
Qed.

Lemma mod_succ (i k n : Z) :
  (0 < n)%Z -> (((i + k) mod n + 1) mod n = (i + (k + 1)) mod n)%Z.
Proof.
  intros Hn. rewrite Z.add_mod_idemp_l by lia. f_equal. lia.
Qed.

Lemma rotations_openrouter (k : nat) (s : AISettings) (i : Z) :
  provider s = openrouter ->
  openRouterApiKeys s <> [] ->
  (0 <= i < Z.of_nat (List.length (openRouterApiKeys s)))%Z ->
  App.rotations k (setOpenRouter s (openRouterApiKeys s) i)
  = Some (setOpenRouter s (openRouterApiKeys s)
            ((i + Z.of_nat k)
             mod Z.of_nat (List.length (openRouterApiKeys s)))%Z).
Proof.
  intros Hp Hne. revert i. induction k as [ | k IH ]; intros i Hi.
  - cbn [App.rotations]. rewrite Z.add_0_r, Z.mod_small by exact Hi.
    reflexivity.
  - cbn [App.rotations]. unfold App.rotateKey.
    cbn [provider setOpenRouter openRouterApiKeys openRouterKeyIndex].
    rewrite Hp. cbn [AIProvider_eqb andb].
    assert (Hn : 0 < List.length (openRouterApiKeys s)).
    { destruct (openRouterApiKeys s); [ congruence | cbn; lia ]. }
    assert (E : (0 <? List.length (openRouterApiKeys s)) = true)
      by (apply Nat.ltb_lt; exact Hn).
    rewrite E.
    destruct (remainder_in_range i (List.length (openRouterApiKeys s)))
      as (j & Ej & Hj & Hr); [ lia | exact Hn | ].
    rewrite Ej.
    change (setOpenRouter (setOpenRouter s (openRouterApiKeys s) i)
              (openRouterApiKeys s) j)
      with (setOpenRouter s (openRouterApiKeys s) j).
    rewrite (IH j Hr). f_equal. f_equal. subst j.
    rewrite Z.add_mod_idemp_l by lia. f_equal. lia.
Qed.

Lemma rotations_huggingface (k : nat) (s : AISettings) (i : Z) :
  provider s = huggingface ->
  huggingFaceApiKeys s <> [] ->
  (0 <= i < Z.of_nat (List.length (huggingFaceApiKeys s)))%Z ->
  App.rotations k (setHuggingFace s (huggingFaceApiKeys s) i)
  = Some (setHuggingFace s (huggingFaceApiKeys s)
            ((i + Z.of_nat k)
             mod Z.of_nat (List.length (huggingFaceApiKeys s)))%Z).
Proof.
  intros Hp Hne. revert i. induction k as [ | k IH ]; intros i Hi.
  - cbn [App.rotations]. rewrite Z.add_0_r, Z.mod_small by exact Hi.
    reflexivity.
  - cbn [App.rotations]. unfold App.rotateKey.
    cbn [provider setHuggingFace huggingFaceApiKeys huggingFaceKeyIndex
         openRouterApiKeys].
    rewrite Hp. cbn [AIProvider_eqb andb].
    assert (Hn : 0 < List.length (huggingFaceApiKeys s)).
    { destruct (huggingFaceApiKeys s); [ congruence | cbn; lia ]. }
    assert (E : (0 <? List.length (huggingFaceApiKeys s)) = true)
      by (apply Nat.ltb_lt; exact Hn).
    rewrite E.
    destruct (remainder_in_range i (List.length (huggingFaceApiKeys s)))
      as (j & Ej & Hj & Hr); [ lia | exact Hn | ].
    rewrite Ej.
    change (setHuggingFace (setHuggingFace s (huggingFaceApiKeys s) i)
              (huggingFaceApiKeys s) j)
      with (setHuggingFace s (huggingFaceApiKeys s) j).
    rewrite (IH j Hr). f_equal. f_equal. subst j.
    rewrite Z.add_mod_idemp_l by lia. f_equal. lia.
Qed.

(** X9.  Rotation goes round the list of the chosen provider: with the
    marketplace (or the inference endpoint) chosen, a non-empty list of
    [n] credentials and an index [i] in range, [k] rotations leave the
    index at [(i + k) mod n] and change nothing else, so [n] rotations
    come back to the settings they started from. *)
Theorem rotation_goes_round (k : nat) (s : AISettings) :
  indicesInRange s ->
  (provider s = openrouter -> openRouterApiKeys s <> [] ->
   App.rotations k s
   = Some (setOpenRouter s (openRouterApiKeys s)
             ((openRouterKeyIndex s + Z.of_nat k)
              mod Z.of_nat (List.length (openRouterApiKeys s)))%Z)
   /\ App.rotations (List.length (openRouterApiKeys s)) s = Some s)
  /\ (provider s = huggingface -> huggingFaceApiKeys s <> [] ->
      App.rotations k s
      = Some (setHuggingFace s (huggingFaceApiKeys s)
                ((huggingFaceKeyIndex s + Z.of_nat k)
                 mod Z.of_nat (List.length (huggingFaceApiKeys s)))%Z)
      /\ App.rotations (List.length (huggingFaceApiKeys s)) s = Some s).
Proof.
  intros [ Ho Hh ]. split; intros Hp Hne.
  - assert (Hi : (0 <= openRouterKeyIndex s
                  < Z.of_nat (List.length (openRouterApiKeys s)))%Z).
    { destruct Ho as [ H0 [ H1 | [ H1 _ ] ] ]; [ lia | congruence ]. }
    pose proof (fun k => rotations_openrouter k s (openRouterKeyIndex s)
                           Hp Hne Hi) as H.
    rewrite setOpenRouter_same in H. split; [ apply H | ].
    rewrite H. rewrite <- (Z.mul_1_l (Z.of_nat (List.length _))) at 1.
    rewrite Z.mod_add by lia. rewrite Z.mod_small by exact Hi.
    rewrite setOpenRouter_same. reflexivity.
  - assert (Hi : (0 <= huggingFaceKeyIndex s
                  < Z.of_nat (List.length (huggingFaceApiKeys s)))%Z).
    { destruct Hh as [ H0 [ H1 | [ H1 _ ] ] ]; [ lia | congruence ]. }
    pose proof (fun k => rotations_huggingface k s (huggingFaceKeyIndex s)
                           Hp Hne Hi) as H.
    rewrite setHuggingFace_same in H. split; [ apply H | ].
    rewrite H. rewrite <- (Z.mul_1_l (Z.of_nat (List.length _))) at 1.
    rewrite Z.mod_add by lia. rewrite Z.mod_small by exact Hi.
    rewrite setHuggingFace_same. reflexivity.
Qed.

Lemma rotation_goes_round_witness :
  App.rotations 3 (SettingsScreen.localSettings threeKeys)
  = Some (SettingsScreen.localSettings threeKeys).
Proof.
  destruct (rotation_goes_round 3 (SettingsScreen.localSettings threeKeys))
    as [ H _ ].
  - split.
    + split; [ vm_compute; discriminate | left; vm_compute; reflexivity ].
    + split; [ vm_compute; discriminate | right; split; reflexivity ].
  - destruct H as [ _ H ]; [ reflexivity | discriminate | exact H ].
Defined.

(** ** Sets in insertion order *)

Lemma existsb_eqb_In (x : string) (l : list string) :
  existsb (String.eqb x) l = true <-> In x l.
Proof.
  rewrite existsb_exists. split.
  - intros (y & Hy & E). apply String.eqb_eq in E. subst y. exact Hy.
  - intros H. exists x. split; [ exact H | apply String.eqb_refl ].
Qed.

Lemma existsb_eqb_not_In (x : string) (l : list string) :
  existsb (String.eqb x) l = false <-> ~ In x l.
Proof.
  rewrite <- existsb_eqb_In. destruct (existsb (String.eqb x) l); split;
    intros H; congruence.
Qed.

Lemma setAdd_In (x y : string) (s : list string) :
  In y (setAdd x s) <-> In y s \/ y = x.
Proof.
  unfold setAdd. destruct (existsb (String.eqb x) s) eqn:E.
  - apply existsb_eqb_In in E. split; [ tauto | ].
    intros [ H | -> ]; assumption.
  - rewrite in_app_iff. cbn [In]. intuition congruence.
Qed.

Lemma setAdd_NoDup (x : string) (s : list string) :
  NoDup s -> NoDup (setAdd x s).
Proof.
  intros H. unfold setAdd. destruct (existsb (String.eqb x) s) eqn:E.
  - exact H.
  - apply existsb_eqb_not_In in E. apply NoDup_app.
    + exact H.
    + constructor; [ intros [] | constructor ].
    + intros y Hy [ Hx | [] ]. subst y. contradiction.
Qed.

Lemma setAdd_length (x : string) (s : list string) :
  List.length s <= List.length (setAdd x s) <= S (List.length s).
Proof.
  unfold setAdd. destruct (existsb (String.eqb x) s).
  - lia.
  - rewrite length_app. cbn [List.length]. lia.
Qed.

Lemma setAddAll_In (xs s : list string) (y : string) :
  In y (setAddAll xs s) <-> In y s \/ In y xs.
Proof.
  unfold setAddAll. revert s. induction xs as [ | x xs IH ]; intros s.
  - cbn. tauto.
  - cbn [fold_left In]. rewrite IH, setAdd_In. intuition congruence.
Qed.

Lemma setAddAll_NoDup (xs s : list string) :
  NoDup s -> NoDup (setAddAll xs s).
Proof.
  unfold setAddAll. revert s. induction xs as [ | x xs IH ]; intros s H.
  - exact H.
  - cbn [fold_left]. apply IH, setAdd_NoDup, H.
Qed.

Lemma setAddAll_length (xs s : list string) :
  List.length (setAddAll xs s) <= List.length s + List.length xs.
Proof.
  unfold setAddAll. revert s. induction xs as [ | x xs IH ]; intros s.
  - cbn. lia.
  - cbn [fold_left List.length]. pose proof (IH (setAdd x s)).
    pose proof (setAdd_length x s). lia.
Qed.

(** A selection made so far: distinct models of the catalog, at most
    [n] of them. *)
Lemma selection_step (available sel xs : list string) (n k : nat) :
  NoDup sel /\ incl sel available /\ List.length sel <= n ->
  incl xs available -> List.length xs <= k ->
  NoDup (setAddAll xs sel) /\ incl (setAddAll xs sel) available
  /\ List.length (setAddAll xs sel) <= n + k.
Proof.
  intros (Hd & Hi & Hl) Hx Hk. split; [ | split ].
  - apply setAddAll_NoDup, Hd.
  - intros y Hy. apply setAddAll_In in Hy. destruct Hy; auto.
  - pose proof (setAddAll_length xs sel). lia.
Qed.

Lemma incl_firstn_filter (A : Type) (n : nat) (f : A -> bool) (l : list A) :
  incl (firstn n (filter f l)) l.
Proof.
  intros x Hx.
  assert (H : In x (filter f l)).
  { rewrite <- (firstn_skipn n (filter f l)). apply in_or_app. left. exact Hx. }
  apply filter_In in H. apply H.
Qed.

Lemma length_firstn_le (A : Type) (n : nat) (l : list A) :
  List.length (firstn n l) <= n.
Proof.
  rewrite length_firstn. lia.
Qed.

Lemma fillSelected_NoDup (available selected : list string) :
  NoDup selected -> NoDup (fillSelected available selected).
Proof.
  revert selected. induction available as [ | m rest IH ]; intros sel H.
  - exact H.
  - cbn [fillSelected]. destruct (5 <=? List.length sel); [ exact H | ].
    apply IH, setAdd_NoDup, H.
Qed.

Lemma fillSelected_In (available selected : list string) (y : string) :
  In y (fillSelected available selected) -> In y selected \/ In y available.
Proof.
  revert selected. induction available as [ | m rest IH ]; intros sel H.
  - left. exact H.
  - cbn [fillSelected] in H. destruct (5 <=? List.length sel); [ auto | ].
    apply IH in H. rewrite setAdd_In in H. cbn [In]. intuition.
Qed.

Lemma fillSelected_keeps (available selected : list string) (y : string) :
  In y selected -> In y (fillSelected available selected).
Proof.
  revert selected. induction available as [ | m rest IH ]; intros sel H.
  - exact H.
  - cbn [fillSelected]. destruct (5 <=? List.length sel); [ exact H | ].
    apply IH, setAdd_In. left. exact H.
Qed.

Lemma fillSelected_length (available selected : list string) :
  List.length selected <= 5 ->
  List.length (fillSelected available selected) <= 5.
Proof.
  revert selected. induction available as [ | m rest IH ]; intros sel H.
  - exact H.
  - cbn [fillSelected]. destruct (5 <=? List.length sel) eqn:E; [ exact H | ].
    apply Nat.leb_gt in E. apply IH. pose proof (setAdd_length m sel). lia.
Qed.

Lemma fillSelected_all (available selected : list string) (y : string) :
  List.length (fillSelected available selected) < 5 ->
  In y available -> In y (fillSelected available selected).
Proof.
  revert selected. induction available as [ | m rest IH ]; intros sel Hl Hy.
  - destruct Hy.
  - cbn [fillSelected] in *.
    destruct (5 <=? List.length sel) eqn:E.
    + apply Nat.leb_le in E. lia.
    + destruct Hy as [ -> | Hy ].
      * apply fillSelected_keeps, setAdd_In. right. reflexivity.
      * apply IH; assumption.
Qed.

Lemma dedup_acc_spec (l seen : list string) :
  NoDup (Js.dedup_acc seen l)
  /\ forall x, In x (Js.dedup_acc seen l) <-> In x l /\ ~ In x seen.
Proof.
  revert seen. induction l as [ | a rest IH ]; intros seen.
  - cbn. split; [ constructor | tauto ].
  - cbn [Js.dedup_acc]. destruct (existsb (String.eqb a) seen) eqn:E.
    + apply existsb_eqb_In in E. destruct (IH seen) as [ Hd Hi ].
      split; [ exact Hd | ]. intros x. rewrite Hi. cbn [In].
      split; [ tauto | ]. intros [ [ -> | H ] Hn ]; [ contradiction | tauto ].
    + apply existsb_eqb_not_In in E. destruct (IH (a :: seen)) as [ Hd Hi ].
      split.
      * constructor; [ | exact Hd ]. rewrite Hi. cbn [In]. tauto.
      * intros x. cbn [In]. rewrite Hi. cbn [In].
        destruct (string_dec a x) as [ -> | Hne ]; tauto.
Qed.

Lemma dedup_NoDup (l : list string) : NoDup (Js.dedup l).
Proof.
  apply dedup_acc_spec.
Qed.

Lemma dedup_In (l : list string) (x : string) : In x (Js.dedup l) <-> In x l.
Proof.
  unfold Js.dedup. rewrite (proj2 (dedup_acc_spec l [])). cbn [In]. tauto.
Qed.

(** ** The models of a swarm *)

Lemma selectSwarmModels_shape (prompt : string) (available : list string) :
  available <> [] ->
  exists selected,
    selectSwarmModels prompt available
    = firstn 5 (fillSelected available selected)
    /\ NoDup selected /\ incl selected available
    /\ List.length selected <= 5.
Proof.
  intros Hne. destruct available as [ | a rest ]; [ congruence | ].
  set (available := a :: rest) in *.
  unfold selectSwarmModels. fold available. cbv zeta.
  eexists. split; [ reflexivity | ].
  assert (H0 : forall sel0 : list string,
             NoDup sel0 /\ incl sel0 available /\ List.length sel0 <= 2 ->
             NoDup (setAddAll (firstn 1 (filter (fun m => Js.includes m "mistral") available))
                     (setAddAll (firstn 1 (filter (fun m => Js.includes m "gemini") available))
                       (setAddAll (firstn 1 (filter (fun m => Js.includes m "llama-3") available))
                          sel0)))
             /\ incl (setAddAll (firstn 1 (filter (fun m => Js.includes m "mistral") available))
                     (setAddAll (firstn 1 (filter (fun m => Js.includes m "gemini") available))
                       (setAddAll (firstn 1 (filter (fun m => Js.includes m "llama-3") available))
                          sel0))) available
             /\ List.length
                  (setAddAll (firstn 1 (filter (fun m => Js.includes m "mistral") available))
                     (setAddAll (firstn 1 (filter (fun m => Js.includes m "gemini") available))
                       (setAddAll (firstn 1 (filter (fun m => Js.includes m "llama-3") available))
                          sel0))) <= 5).
  { intros sel0 H.
    change 5 with (2 + 1 + 1 + 1).
    repeat (apply selection_step;
            [ | apply incl_firstn_filter | apply length_firstn_le ]).
    exact H. }
  assert (Hnil : NoDup (@nil string) /\ incl (@nil string) available
                 /\ List.length (@nil string) <= 0).
  { split; [ constructor | split; [ intros x [] | cbn; lia ] ]. }
  assert (H2 : forall f : string -> bool,
             NoDup (setAddAll (firstn 2 (filter f available)) [])
             /\ incl (setAddAll (firstn 2 (filter f available)) []) available
             /\ List.length (setAddAll (firstn 2 (filter f available)) []) <= 2).
  { intros f.
    apply (@selection_step available [] (firstn 2 (filter f available)) 0 2);
      [ exact Hnil | apply incl_firstn_filter | apply length_firstn_le ]. }
  destruct (_ || _ || _ || _).
  - apply H0, H2.
  - destruct (_ || _ || _ || _).
    + apply H0, H2.
    + apply H0. destruct Hnil as (Ha & Hb & Hc).
      split; [ exact Ha | split; [ exact Hb | lia ] ].
Qed.

(** X10.  The swarm asks distinct models of the catalog, five of them
    when the catalog holds five distinct models and all of them when it
    holds fewer: for a catalog that is not empty, [selectSwarmModels]
    returns a list without repetition, of models of the catalog, whose
    length is the smaller of 5 and the number of distinct models of the
    catalog. *)
Theorem swarm_selection (prompt : string) (available : list string) :
  available <> [] ->
  NoDup (selectSwarmModels prompt available)
  /\ incl (selectSwarmModels prompt available) available
  /\ List.length (selectSwarmModels prompt available)
     = Nat.min 5 (List.length (Js.dedup available)).
Proof.
  intros Hne.
  destruct (selectSwarmModels_shape prompt available Hne)
    as (sel & E & Hd & Hi & Hl).
  rewrite E. clear E.
  pose proof (fillSelected_NoDup available sel Hd) as Hfd.
  pose proof (fillSelected_length available sel Hl) as Hfl.
  assert (Hfi : incl (fillSelected available sel) available).
  { intros y Hy. apply fillSelected_In in Hy. destruct Hy; auto. }
  rewrite firstn_all2 by exact Hfl.
  split; [ exact Hfd | split; [ exact Hfi | ] ].
  assert (Hle : List.length (fillSelected available sel)
                <= List.length (Js.dedup available)).
  { apply NoDup_incl_length; [ exact Hfd | ].
    intros y Hy. apply dedup_In, Hfi, Hy. }
  destruct (Nat.lt_ge_cases (List.length (fillSelected available sel)) 5)
    as [ Hlt | Hge ].
  - assert (Hge : List.length (Js.dedup available)
                  <= List.length (fillSelected available sel)).
    { apply NoDup_incl_length; [ apply dedup_NoDup | ].
      intros y Hy. apply fillSelected_all; [ exact Hlt | ].
      apply dedup_In, Hy. }
    lia.
  - lia.
Qed.

Lemma swarm_selection_witness :
  List.length
    (selectSwarmModels "explain this"
       ["a/llama-3"; "b/other"; "a/llama-3"; "c/gemini"])
  = Nat.min 5 (List.length
                 (Js.dedup ["a/llama-3"; "b/other"; "a/llama-3"; "c/gemini"])).
Proof.
  apply (swarm_selection "explain this"
           ["a/llama-3"; "b/other"; "a/llama-3"; "c/gemini"]).
  discriminate.
Defined.

(** ** The catalog of the inference endpoint *)

Lemma dedup_acc_prefix (a b seen : list string) :
  NoDup a -> (forall x, In x a -> ~ In x seen) ->
  Js.dedup_acc seen (a ++ b)%list
  = (a ++ Js.dedup_acc (List.rev a ++ seen) b)%list.
Proof.
  revert seen. induction a as [ | x a IH ]; intros seen Hd Hs.
  - reflexivity.
  - cbn [List.app Js.dedup_acc].
    assert (E : existsb (String.eqb x) seen = false).
    { apply existsb_eqb_not_In, Hs. left. reflexivity. }
    rewrite E. inversion Hd as [ | y l Hx Hd' ]; subst.
    rewrite IH.
    + cbn [List.rev]. rewrite <- List.app_assoc. reflexivity.
    + exact Hd'.
    + intros z Hz [ -> | Hin ]; [ contradiction | ].
      apply (Hs z); [ right; exact Hz | exact Hin ].
Qed.

Lemma trendingHFModels_shape (models : list HFModel) :
  exists more,
    trendingHFModels (HFListingBody (Some models))
    = Ok (SAFETY_FALLBACK_HF ++ more)%list
    /\ NoDup (SAFETY_FALLBACK_HF ++ more)%list
    /\ (forall id, In id more <->
          (exists m, In m models /\ modelId m = id /\ isGemma7b id = false)
          /\ ~ In id SAFETY_FALLBACK_HF).
Proof.
  cbn [trendingHFModels]. set (filtered := filter _ models).
  unfold Js.dedup.
  assert (Hs : NoDup SAFETY_FALLBACK_HF).
  { repeat constructor; cbn; intuition discriminate. }
  pose proof (dedup_acc_prefix SAFETY_FALLBACK_HF (map modelId filtered) []
                Hs (fun _ _ H => H)) as E.
  eexists. split; [ rewrite E; reflexivity | ].
  pose proof (dedup_acc_spec (SAFETY_FALLBACK_HF ++ map modelId filtered)%list [])
    as [ Hd _ ].
  rewrite E in Hd. split; [ exact Hd | ].
  intros id.
  rewrite (proj2 (dedup_acc_spec (map modelId filtered)
                    (List.rev SAFETY_FALLBACK_HF ++ [])%list)).
  rewrite List.app_nil_r, <- in_rev, in_map_iff.
  unfold filtered, isGemma7b. split.
  - intros [ (m & Em & Hm) Hn ]. apply filter_In in Hm.
    destruct Hm as [ Hin Hg ]. split; [ | exact Hn ].
    exists m. subst id. split; [ exact Hin | split; [ reflexivity | ] ].
    destruct (Js.includes _ _); [ discriminate | reflexivity ].
  - intros [ (m & Hin & Em & Hg) Hn ]. split; [ | exact Hn ].
    exists m. split; [ exact Em | ]. apply filter_In.
    split; [ exact Hin | ]. subst id. rewrite Hg. reflexivity.
Qed.

(** X11.  The catalog of the inference endpoint always begins with the
    two models of the safety list, holds no model twice and holds no
    model whose lower-cased identifier contains "gemma-7b"; when the hub
    answers with a list of models, every model of that list that is not
    such a one is in the catalog. *)
Theorem hf_catalog_shape (w : World) (st : State) :
  exists ids,
    fst (discoverTrendingHFModels w st) = Ok ids
    /\ firstn 2 ids = SAFETY_FALLBACK_HF
    /\ NoDup ids
    /\ (forall id, In id ids -> isGemma7b id = false)
    /\ (forall models m,
          fetch_hf_models w (tick st) = HFListingBody (Some models) ->
          In m models -> isGemma7b (modelId m) = false ->
          In (modelId m) ids).
Proof.
  assert (Hs : NoDup SAFETY_FALLBACK_HF).
  { repeat constructor; cbn; intuition discriminate. }
  assert (Hg : forall id, In id SAFETY_FALLBACK_HF -> isGemma7b id = false).
  { intros id [ <- | [ <- | [] ] ]; reflexivity. }
  unfold discoverTrendingHFModels.
  destruct (fetch_hf_models w (tick st)) as [ e | [ models | ] ] eqn:Ef.
  - exists SAFETY_FALLBACK_HF. cbn.
    split; [ reflexivity | split; [ reflexivity | split; [ exact Hs | ] ] ].
    split; [ exact Hg | ]. intros models m H. discriminate H.
  - destruct (trendingHFModels_shape models) as (more & E & Hd & Hm).
    rewrite E. exists (SAFETY_FALLBACK_HF ++ more)%list. cbn [fst].
    split; [ reflexivity | split; [ reflexivity | split; [ exact Hd | ] ] ].
    split.
    + intros id Hin. apply in_app_or in Hin. destruct Hin as [ Hin | Hin ].
      * apply Hg, Hin.
      * apply Hm in Hin. destruct Hin as [ (m & _ & _ & H) _ ]. exact H.
    + intros models' m Em Hin Hgm. inversion Em; subst models'.
      destruct (in_dec string_dec (modelId m) SAFETY_FALLBACK_HF) as [ Hi | Hi ].
      * apply in_or_app. left. exact Hi.
      * apply in_or_app. right. apply Hm. split; [ | exact Hi ].
        exists m. split; [ exact Hin | split; [ reflexivity | exact Hgm ] ].
  - exists SAFETY_FALLBACK_HF. cbn.
    split; [ reflexivity | split; [ reflexivity | split; [ exact Hs | ] ] ].
    split; [ exact Hg | ]. intros models m H. discriminate H.
Qed.

Lemma hf_catalog_shape_witness :
  exists ids,
    fst (discoverTrendingHFModels hubOnly initialState) = Ok ids
    /\ In "tiiuae/falcon-7b-instruct" ids.
Proof.
  destruct (hf_catalog_shape hubOnly initialState)
    as (ids & E & _ & _ & _ & H).
  exists ids. split; [ exact E | ].
  apply (H hubListing {| modelId := "tiiuae/falcon-7b-instruct" |}).
  - reflexivity.
  - right. left. reflexivity.
  - reflexivity.
Defined.

(** ** The offline search *)

Lemma StronglySorted_app_inv (A : Type) (R : A -> A -> Prop) (l1 l2 : list A) :
  StronglySorted R (l1 ++ l2) ->
  StronglySorted R l1 /\ StronglySorted R l2
  /\ forall a b, In a l1 -> In b l2 -> R a b.
Proof.
  induction l1 as [ | x l1 IH ]; cbn [List.app]; intros H.
  - split; [ constructor | split; [ exact H | intros a b [] ] ].
  - inversion H as [ | y l Hs Hall ]; subst.
    destruct (IH Hs) as (H1 & H2 & H3).
    rewrite Forall_app in Hall. destruct Hall as [ Ha1 Ha2 ].
    split; [ constructor; assumption | split; [ exact H2 | ] ].
    intros a b [ <- | Ha ] Hb.
    + rewrite Forall_forall in Ha2. apply Ha2, Hb.
    + apply H3; assumption.
Qed.

Lemma StronglySorted_map (A B : Type) (f : A -> B) (R : B -> B -> Prop)
  (l : list A) :
  StronglySorted (fun a b => R (f a) (f b)) l -> StronglySorted R (map f l).
Proof.
  induction 1 as [ | x l Hs IH Hall ]; cbn [map]; constructor.
  - exact IH.
  - rewrite Forall_forall in *. intros y Hy. apply in_map_iff in Hy.
    destruct Hy as (z & <- & Hz). apply Hall, Hz.
Qed.

Lemma filter_map_fst (keywords : list string) (memories : list Memory) :
  map fst (filter (fun item : Memory * Z => (0 <? snd item)%Z)
             (map (fun mem => (mem, memoryScore keywords mem)) memories))
  = filter (fun m => (0 <? memoryScore keywords m)%Z) memories.
Proof.
  induction memories as [ | m rest IH ]; [ reflexivity | ].
  cbn [map filter snd]. destruct (0 <? memoryScore keywords m)%Z.
  - cbn [map fst]. rewrite IH. reflexivity.
  - exact IH.
Qed.

Lemma scored_snd (keywords : list string) (memories : list Memory)
  (item : Memory * Z) :
  In item (map (fun mem => (mem, memoryScore keywords mem)) memories) ->
  snd item = memoryScore keywords (fst item).
Proof.
  intros H. apply in_map_iff in H. destruct H as (m & <- & _). reflexivity.
Qed.

Lemma offlineMemorySearch_keywords (query : string) (memories : list Memory) :
  offlineMemorySearch query memories
  = map offlineLine
      (map fst
         (firstn 3
            (Js.sort (byKey snd)
               (filter (fun item : Memory * Z => (0 <? snd item)%Z)
                  (map (fun mem => (mem, memoryScore (queryKeywords query) mem))
                       memories))))).
Proof.
  unfold offlineMemorySearch. fold (queryKeywords query).
  assert (Hnone : queryKeywords query = [] ->
                  map offlineLine
                    (map fst
                       (firstn 3
                          (Js.sort (byKey snd)
                             (filter (fun item : Memory * Z => (0 <? snd item)%Z)
                                (map (fun mem =>
                                        (mem, memoryScore (queryKeywords query) mem))
                                     memories))))) = []).
  { intros E. rewrite E.
    assert (Hf : filter (fun item : Memory * Z => (0 <? snd item)%Z)
                   (map (fun mem => (mem, memoryScore [] mem)) memories) = []).
    { clear. induction memories as [ | m rest IH ]; [ reflexivity | exact IH ]. }
    rewrite Hf. reflexivity. }
  destruct (Js.isEmpty (Js.trim query)) eqn:Eq.
  - symmetry. apply Hnone.
    unfold queryKeywords.
    assert (Hblank : forall s cur sp,
               Js.isEmpty (Js.trim s) = true ->
               filter (fun w => 3 <? String.length w)
                 (Js.splitSpaces_aux cur sp (Js.toLowerCase s))
               = filter (fun w => 3 <? String.length w) [cur]
               \/ filter (fun w => 3 <? String.length w)
                    (Js.splitSpaces_aux cur sp (Js.toLowerCase s))
                  = filter (fun w => 3 <? String.length w) [cur; ""]).
    { clear. intros s. induction s as [ | c s IH ]; intros cur sp H.
      - left. reflexivity.
      - unfold Js.trim in H. cbn [Js.trimStart] in H.
        destruct (Js.isSpace c) eqn:Ec.
        + assert (El : Js.isSpace (Js.lowerChar c) = true).
          { revert Ec. clear.
            destruct c as [[] [] [] [] [] [] [] []]; vm_compute; congruence. }
          cbn [Js.toLowerCase Js.splitSpaces_aux]. rewrite El.
          destruct sp.
          * apply IH. exact H.
          * cbn [filter]. destruct (IH "" true H) as [ E | E ]; rewrite E;
              cbn [filter String.length Nat.ltb Nat.leb]; right; reflexivity.
        + exfalso. cbn [Js.trimEnd] in H.
          destruct (Js.trimEnd s); [ rewrite Ec in H | ]; discriminate H. }
    destruct (Hblank query "" false Eq) as [ E | E ];
      unfold Js.splitSpaces; rewrite E; reflexivity.
  - destruct (List.length (queryKeywords query) =? 0) eqn:Ek.
    + symmetry. apply Hnone. apply length_zero_nil, Ek.
    + rewrite map_map. reflexivity.
Qed.

Lemma offlineMemorySearch_best (query : string) (memories : list Memory) :
  let score := memoryScore (queryKeywords query) in
  let matching := filter (fun m => (0 <? score m)%Z) memories in
  exists picked rest,
    offlineMemorySearch query memories = map offlineLine picked
    /\ Permutation (picked ++ rest) matching
    /\ List.length picked = Nat.min 3 (List.length matching)
    /\ StronglySorted (fun a b => (score a >= score b)%Z) picked
    /\ forall p r, In p picked -> In r rest -> (score p >= score r)%Z.
Proof.
  cbv zeta. rewrite offlineMemorySearch_keywords.
  set (keywords := queryKeywords query).
  set (scored := map (fun mem => (mem, memoryScore keywords mem)) memories).
  set (items := filter (fun item : Memory * Z => (0 <? snd item)%Z) scored).
  set (sorted := Js.sort (byKey snd) items).
  assert (Hperm : Permutation sorted items) by apply (sort_perm _ snd).
  assert (Hsnd : forall item, In item sorted ->
                   snd item = memoryScore keywords (fst item)).
  { intros item H. apply (scored_snd keywords memories).
    apply (Permutation_in _ Hperm) in H. apply filter_In in H. apply H. }
  assert (Hsorted : StronglySorted
                      (fun a b : Memory * Z =>
                         (memoryScore keywords (fst a)
                          >= memoryScore keywords (fst b))%Z) sorted).
  { pose proof (sort_descending _ snd items) as H. fold sorted in H.
    revert Hsnd H. generalize sorted. clear. intros l Hsnd H.
    induction H as [ | x l Hs IH Hall ]; constructor.
    - apply IH. intros item Hi. apply Hsnd. right. exact Hi.
    - rewrite Forall_forall in *. intros y Hy.
      rewrite <- (Hsnd x) by (left; reflexivity).
      rewrite <- (Hsnd y) by (right; exact Hy). apply Hall, Hy. }
  exists (map fst (firstn 3 sorted)), (map fst (skipn 3 sorted)).
  split; [ reflexivity | ].
  rewrite <- (firstn_skipn 3 sorted) in Hsorted.
  apply StronglySorted_app_inv in Hsorted. destruct Hsorted as (H1 & _ & H3).
  split; [ | split; [ | split ] ].
  - rewrite <- map_app, firstn_skipn.
    rewrite <- (filter_map_fst keywords memories). fold scored. fold items.
    apply Permutation_map, Hperm.
  - rewrite length_map, length_firstn.
    rewrite <- (filter_map_fst keywords memories). fold scored. fold items.
    rewrite length_map, (Permutation_length Hperm). reflexivity.
  - apply StronglySorted_map, H1.
  - intros p r Hp Hr. apply in_map_iff in Hp, Hr.
    destruct Hp as (a & <- & Ha). destruct Hr as (b & <- & Hb).
    apply H3; assumption.
Qed.

(** X12.  The offline search returns the best three matches: the lines
    of at most three memories, each of them stored and with a positive
    score for the words of the query that are longer than three
    characters, in decreasing order of score; as many as three whenever
    three memories have a positive score, and none that scores less
    than a memory left out. *)
Theorem offline_search_best_three (query : string) (memories : list Memory) :
  let score := memoryScore (queryKeywords query) in
  let matching := filter (fun m => (0 <? score m)%Z) memories in
  exists picked rest,
    offlineMemorySearch query memories = map offlineLine picked
    /\ Permutation (picked ++ rest) matching
    /\ List.length picked = Nat.min 3 (List.length matching)
    /\ StronglySorted (fun a b => (score a >= score b)%Z) picked
    /\ forall p r, In p picked -> In r rest -> (score p >= score r)%Z.
Proof.
  exact (offlineMemorySearch_best query memories).
Qed.

(** ** Events since a state *)

Lemma since_refl (P : Event -> Prop) (st : State) : since P st st.
Proof.
  exists []. rewrite List.app_nil_r. split; [ reflexivity | constructor ].
Qed.

Lemma since_trans (P : Event -> Prop) (a b c : State) :
  since P a b -> since P b c -> since P a c.
Proof.
  intros (e1 & H1 & F1) (e2 & H2 & F2). exists (e1 ++ e2)%list. split.
  - rewrite H2, H1, List.app_assoc. reflexivity.
  - apply Forall_app. split; assumption.
Qed.

Lemma since_log (P : Event -> Prop) (e : Event) (st : State) :
  P e -> since P st (log e st).
Proof.
  intros H. exists [e]. split; [ reflexivity | ].
  constructor; [ exact H | constructor ].
Qed.

Lemma since_weaken (P Q : Event -> Prop) (st st' : State) :
  (forall e, P e -> Q e) -> since P st st' -> since Q st st'.
Proof.
  intros H (events & E & F). exists events. split; [ exact E | ].
  eapply Forall_impl; [ exact H | exact F ].
Qed.

Lemma since_primaryOnly (P : Event -> Prop) (st st' : State) :
  (forall e, primaryOnly e = true -> P e) ->
  primaryOnlySince st st' -> since P st st'.
Proof.
  intros H (events & E & F). exists events. split; [ exact E | ].
  rewrite forallb_forall in F. apply Forall_forall.
  intros e He. apply H, F, He.
Qed.

Lemma since_same_trace (P : Event -> Prop) (a b c : State) :
  trace b = trace c -> since P a b -> since P a c.
Proof.
  intros E (events & H & F). exists events. rewrite <- E. split; assumption.
Qed.

(** ** What the caller is streamed *)

Lemma streamedText_app (a b : list Event) :
  streamedText (a ++ b)%list = streamedText a ++ streamedText b.
Proof.
  induction a as [ | e a IH ]; [ reflexivity | ].
  cbn [List.app streamedText fold_right]. fold (streamedText (a ++ b)%list).
  fold (streamedText a). rewrite IH.
  destruct e; try reflexivity. rewrite append_assoc. reflexivity.
Qed.

Lemma streamChunks_text (chunks : list (option string)) :
  forall full st,
  exists events,
    trace (snd (streamChunks CallerCallback chunks full st))
    = (trace st ++ events)%list
    /\ fst (streamChunks CallerCallback chunks full st)
       = full ++ streamedText events
    /\ Forall (fun e => exists text, e = EvChunk text /\ text <> "") events.
Proof.
  induction chunks as [ | [ text | ] chunks IH ]; intros full st;
    cbn [streamChunks].
  - exists []. rewrite List.app_nil_r, append_nil_r.
    split; [ reflexivity | split; [ reflexivity | constructor ] ].
  - destruct (Js.isEmpty text) eqn:Et; [ apply IH | ].
    destruct (IH (full ++ text) (callChunk CallerCallback text st))
      as (events & E1 & E2 & F).
    exists (EvChunk text :: events). split; [ | split ].
    + rewrite E1. cbn [callChunk log trace]. rewrite <- List.app_assoc.
      reflexivity.
    + rewrite E2. cbn [streamedText fold_right]. fold (streamedText events).
      apply append_assoc.
    + constructor; [ | exact F ]. exists text. split; [ reflexivity | ].
      destruct text; [ discriminate Et | discriminate ].
  - apply IH.
Qed.

(** X13.  With the caller's callback, the chunks that the primary
    provider's adapter hands over add up to the text it returns: the
    adapter records its request, then one chunk event for every chunk
    that has a non-empty text, and the returned text is these texts put
    together. *)
Theorem primary_stream_adds_up (w : World) (model : string)
  (contents : list Content) (config : GeminiConfig) (st st' : State)
  (text : string) :
  callGemini w model contents config (Some CallerCallback) st = (Ok text, st') ->
  exists chunks,
    trace st'
    = (trace st ++ EvGemini model contents config true :: chunks)%list
    /\ streamedText chunks = text
    /\ Forall (fun e => exists piece, e = EvChunk piece /\ piece <> "") chunks.
Proof.
  unfold callGemini.
  destruct (gemini_generateContentStream w (tick st) model contents config)
    as [ e | chunks failure ]; [ discriminate | ].
  destruct (streamChunks_text chunks ""
              (log (EvGemini model contents config true) st))
    as (events & E1 & E2 & F).
  destruct (streamChunks CallerCallback chunks ""
              (log (EvGemini model contents config true) st))
    as [ full st2 ].
  cbn [fst snd] in E1, E2.
  destruct failure as [ e | ]; intros H; inversion H; subst.
  exists events. split; [ | split; [ reflexivity | exact F ] ].
  rewrite E1. cbn [log trace]. rewrite <- List.app_assoc. reflexivity.
Qed.

Lemma primary_stream_adds_up_witness :
  exists chunks,
    trace (snd (callGemini brokenStream "gemini-2.5-flash" [] noConfig
                  (Some CallerCallback) initialState))
    = (trace initialState
       ++ EvGemini "gemini-2.5-flash" [] noConfig true :: chunks)%list
    /\ streamedText chunks = "Hello"
    /\ Forall (fun e => exists piece, e = EvChunk piece /\ piece <> "") chunks.
Proof.
  apply (primary_stream_adds_up brokenStream "gemini-2.5-flash" [] noConfig
           initialState _ "Hello").
  reflexivity.
Defined.

(** ** The requests of the marketplace adapter *)

Lemma streamDeltas_text (cb : Callback) (deltas : list string) :
  forall full st,
  exists events,
    trace (snd (streamDeltas cb deltas full st)) = (trace st ++ events)%list
    /\ filter isChatRequest events = []
    /\ Forall (sends [] []) events
    /\ (cb = CallerCallback ->
        fst (streamDeltas cb deltas full st) = full ++ streamedText events).
Proof.
  induction deltas as [ | chunk deltas IH ]; intros full st;
    cbn [streamDeltas].
  - exists []. rewrite List.app_nil_r, append_nil_r.
    split; [ reflexivity | split; [ reflexivity | split; [ constructor | ] ] ].
    reflexivity.
  - destruct (Js.isEmpty chunk); [ apply IH | ].
    destruct (IH (full ++ chunk) (callChunk cb chunk st))
      as (events & E1 & E2 & F & E3).
    destruct cb.
    + exists (EvChunk chunk :: events). split; [ | split; [ | split ] ].
      * rewrite E1. cbn [callChunk log trace]. rewrite <- List.app_assoc.
        reflexivity.
      * exact E2.
      * constructor; [ exact I | exact F ].
      * intros _. rewrite (E3 eq_refl). cbn [streamedText fold_right].
        fold (streamedText events). apply append_assoc.
    + exists events. split; [ exact E1 | split; [ exact E2 | split ] ].
      * exact F.
      * discriminate.
Qed.

Lemma streamDeltas_catalog (cb : Callback) (deltas : list string) :
  forall full st,
    cachedOpenRouterModels (snd (streamDeltas cb deltas full st))
    = cachedOpenRouterModels st.
Proof.
  induction deltas as [ | chunk deltas IH ]; intros full st;
    cbn [streamDeltas]; [ reflexivity | ].
  destruct (Js.isEmpty chunk); [ apply IH | ].
  rewrite IH. destruct cb; reflexivity.
Qed.

Lemma keysRun_stop (messages : list ChatMessage) (onChunk : option Callback)
  (modelName apiKey : string) (rest : list string) (st st1 : State)
  (loop : Loop) (more : list Event) :
  trace st1
  = (trace st ++ EvOpenRouter apiKey modelName messages (isSome onChunk)
                 :: more)%list ->
  filter isChatRequest more = [] ->
  Forall (sends [] []) more ->
  cachedOpenRouterModels st1 = cachedOpenRouterModels st ->
  (forall text, loop = Return text -> onChunk = Some CallerCallback ->
     streamedText more = text) ->
  keysRun messages onChunk modelName (apiKey :: rest) st (loop, st1).
Proof.
  intros Ht Hf Hs Hc Hr. exists 1, (EvOpenRouter apiKey modelName messages
                                      (isSome onChunk) :: more).
  cbn [fst snd List.length firstn map filter isChatRequest].
  split; [ lia | split; [ exact Ht | split; [ | split; [ | split ] ] ] ].
  - rewrite Hf. reflexivity.
  - constructor; [ left; reflexivity | ].
    eapply Forall_impl; [ | exact Hs ]. intros e. destruct e; cbn; tauto.
  - exact Hc.
  - intros text E1 E2. exists "". cbn [streamedText fold_right].
    fold (streamedText more). rewrite (Hr text E1 E2). reflexivity.
Qed.

Lemma keysRun_next (messages : list ChatMessage) (onChunk : option Callback)
  (modelName apiKey : string) (rest : list string) (st st1 : State)
  (more : list Event) (out : Loop * State) :
  trace st1
  = (trace st ++ EvOpenRouter apiKey modelName messages (isSome onChunk)
                 :: more)%list ->
  filter isChatRequest more = [] ->
  Forall (sends [] []) more ->
  cachedOpenRouterModels st1 = cachedOpenRouterModels st ->
  keysRun messages onChunk modelName rest st1 out ->
  keysRun messages onChunk modelName (apiKey :: rest) st out.
Proof.
  intros Ht Hf Hs Hc (n & events & Hn & E1 & E2 & F & C & R).
  exists (S n), (EvOpenRouter apiKey modelName messages (isSome onChunk)
                 :: more ++ events)%list.
  cbn [List.length firstn map filter isChatRequest].
  split; [ lia | split; [ | split; [ | split; [ | split ] ] ] ].
  - rewrite E1, Ht, <- List.app_assoc. reflexivity.
  - rewrite filter_app, Hf, E2. reflexivity.
  - constructor; [ left; reflexivity | ]. apply Forall_app. split.
    + eapply Forall_impl; [ | exact Hs ]. intros e. destruct e; cbn; tauto.
    + eapply Forall_impl; [ | exact F ].
      intros e. destruct e; cbn; tauto.
  - rewrite C. exact Hc.
  - intros text Ht' Hcb. destruct (R text Ht' Hcb) as (earlier & Ee).
    exists (streamedText more ++ earlier).
    cbn [streamedText fold_right].
    fold (streamedText (more ++ events)%list).
    rewrite streamedText_app, Ee. symmetry. apply append_assoc.
Qed.

Lemma openRouterKeys_run (w : World) (messages : list ChatMessage)
  (onChunk : option Callback) (modelName : string) (apiKeys : list string) :
  forall lastError st,
    keysRun messages onChunk modelName apiKeys st
      (openRouterKeys w messages onChunk modelName apiKeys lastError st).
Proof.
  induction apiKeys as [ | apiKey rest IH ]; intros lastError st.
  - exists 0, []. cbn. rewrite List.app_nil_r.
    repeat (split; [ first [ reflexivity | lia | constructor ] | ]).
    intros text H. discriminate H.
  - cbn [openRouterKeys].
    set (st1 := log (EvOpenRouter apiKey modelName messages (isSome onChunk)) st).
    assert (Ht : trace st1
                 = (trace st ++ EvOpenRouter apiKey modelName messages
                                  (isSome onChunk) :: [])%list) by reflexivity.
    assert (Hnext : forall e,
               keysRun messages onChunk modelName (apiKey :: rest) st
                 (openRouterKeys w messages onChunk modelName rest e st1)).
    { intros e. eapply keysRun_next;
        [ exact Ht | reflexivity | constructor | reflexivity | apply IH ]. }
    assert (Hstop : forall e,
               keysRun messages onChunk modelName (apiKey :: rest) st
                 (Continue e, st1)).
    { intros e. eapply keysRun_stop;
        [ exact Ht | reflexivity | constructor | reflexivity | ].
      intros text H. discriminate H. }
    destruct (fetch_openrouter_chat w (tick st) apiKey modelName messages
                (isSome onChunk)) as [ e | status body ]; [ apply Hnext | ].
    destruct (negb (statusOk status)).
    { destruct ((status =? 401)%Z || (status =? 402)%Z || (status =? 429)%Z);
        [ apply Hnext | apply Hstop ]. }
    destruct onChunk as [ cb | ].
    + destruct (streamDeltas_text cb (or_deltas body) "" st1)
        as (events & E1 & E2 & F & E3).
      pose proof (streamDeltas_catalog cb (or_deltas body) "" st1) as Hc.
      destruct (streamDeltas cb (or_deltas body) "" st1) as [ full st2 ].
      cbn [fst snd] in E1, E3, Hc.
      assert (Ht2 : trace st2
                    = (trace st ++ EvOpenRouter apiKey modelName messages
                                     (isSome (Some cb)) :: events)%list).
      { rewrite E1, Ht, <- List.app_assoc. reflexivity. }
      destruct (or_readError body) as [ e | ].
      * eapply keysRun_next;
          [ exact Ht2 | exact E2 | exact F | exact Hc | apply IH ].
      * eapply keysRun_stop; [ exact Ht2 | exact E2 | exact F | exact Hc | ].
        intros text H Hcb. inversion H; subst. inversion Hcb; subst.
        rewrite (E3 eq_refl). reflexivity.
    + destruct (or_json body) as [ text | e ]; [ | apply Hnext ].
      eapply keysRun_stop;
        [ exact Ht | reflexivity | constructor | reflexivity | ].
      intros t _ H. discriminate H.
Qed.

Lemma attempts_app (messages : list ChatMessage) (stream : bool)
  (apiKeys : list string) (a b : list (string * nat)) :
  attempts messages stream apiKeys (a ++ b)%list
  = (attempts messages stream apiKeys a
     ++ attempts messages stream apiKeys b)%list.
Proof.
  unfold attempts. apply flat_map_app.
Qed.

Lemma openRouterModels_run (w : World) (messages : list ChatMessage)
  (onChunk : option Callback) (apiKeys models : list string) :
  forall lastError st,
    modelsRun messages onChunk apiKeys models st
      (openRouterModels w messages onChunk apiKeys models lastError st).
Proof.
  induction models as [ | modelName rest IH ]; intros lastError st.
  - exists [], []. cbn. rewrite List.app_nil_r.
    split; [ reflexivity | split; [ reflexivity | ] ].
    split; [ exists []; reflexivity | ].
    split; [ reflexivity | split; [ constructor | split; [ constructor | ] ] ].
    split; [ reflexivity | ]. intros text H. discriminate H.
  - cbn [openRouterModels].
    destruct (openRouterKeys_run w messages onChunk modelName apiKeys
                lastError st) as (n & events & Hn & E1 & E2 & F & C & R).
    destruct (openRouterKeys w messages onChunk modelName apiKeys lastError st)
      as [ [ text | lastError1 ] st1 ]; cbn [fst snd] in *.
    + exists [(modelName, n)], events. cbn [fst snd].
      split; [ exact E1 | split; [ | split; [ | split; [ | split ] ] ] ].
      * unfold attempts. cbn [flat_map fst snd]. rewrite List.app_nil_r.
        exact E2.
      * exists rest. reflexivity.
      * intros H. exfalso. apply (H text). reflexivity.
      * constructor; [ exact Hn | constructor ].
      * split; [ exact F | split; [ exact C | exact R ] ].
    + destruct (IH lastError1 st1)
        as (tried & events' & E1' & E2' & (rest' & Hp) & Hall & Hl & F' & C' & R').
      exists ((modelName, n) :: tried), (events ++ events')%list.
      split; [ | split; [ | split; [ | split; [ | split ] ] ] ].
      * rewrite E1', E1, List.app_assoc. reflexivity.
      * rewrite filter_app, E2, E2'. unfold attempts.
        cbn [flat_map fst snd]. reflexivity.
      * exists rest'. cbn [map fst List.app]. rewrite Hp. reflexivity.
      * intros H. cbn [map fst]. rewrite (Hall H). reflexivity.
      * constructor; [ exact Hn | exact Hl ].
      * split; [ apply Forall_app; split; assumption | ].
        split; [ rewrite C'; exact C | ].
        intros text Ht Hcb. destruct (R' text Ht Hcb) as (earlier & Ee).
        exists (streamedText events ++ earlier).
        rewrite streamedText_app, Ee. symmetry. apply append_assoc.
Qed.

Lemma refresh_no_requests (w : World) (st : State) :
  exists events,
    trace (snd (refreshModelCache w st)) = (trace st ++ events)%list
    /\ filter isChatRequest events = []
    /\ Forall (sends [] []) events
    /\ streamedText events = "".
Proof.
  unfold refreshModelCache.
  destruct (cacheIsStale w st).
  - destruct (discoverFreeOpenRouterModels_total w st) as (ids & E & _).
    destruct (discoverTrendingHFModels_total w (log EvListOpenRouter st))
      as (hids & E' & _).
    rewrite E, E'. cbn [snd].
    exists [EvListOpenRouter; EvListHuggingFace]. cbn [trace log].
    rewrite <- List.app_assoc.
    split; [ reflexivity | split; [ reflexivity | split; [ | reflexivity ] ] ].
    repeat constructor.
  - exists []. cbn [snd]. rewrite List.app_nil_r.
    split; [ reflexivity | split; [ reflexivity | split; [ | reflexivity ] ] ].
    constructor.
Qed.

(** The state in which the adapter enters its loops. *)
Lemma callOpenRouter_unfold (w : World) (messages : list ChatMessage)
  (apiKeys : list string) (onChunk : option Callback)
  (specificModel : option string) (st : State) :
  exists st0 events0,
    trace st0 = (trace st ++ events0)%list
    /\ filter isChatRequest events0 = []
    /\ Forall (sends [] []) events0
    /\ streamedText events0 = ""
    /\ callOpenRouter w messages apiKeys onChunk specificModel st
       = match openRouterModels w messages onChunk apiKeys
                 (modelsToTry messages specificModel
                              (cachedOpenRouterModels st0)) None st0 with
         | (Return text, st1) => (Ok text, st1)
         | (Continue lastError, st1) =>
             (Throw (Error ("OpenRouter failed for model "
                            ++ match pinned specificModel with
                               | Some m => m
                               | None => "auto"
                               end
                            ++ ". Last error: " ++ lastErrorText lastError)),
              st1)
         end.
Proof.
  unfold callOpenRouter.
  destruct (List.length (cachedOpenRouterModels st) =? 0).
  - destruct (refresh_no_requests w st) as (events & E1 & E2 & F & E3).
    destruct (refreshModelCache_total w st) as (st0 & E & _).
    rewrite E in *. cbn [snd] in E1.
    exists st0, events. repeat (split; [ assumption | ]). reflexivity.
  - exists st, []. rewrite List.app_nil_r.
    split; [ reflexivity | split; [ reflexivity | split; [ constructor | ] ] ].
    split; reflexivity.
Qed.

Lemma attempts_length (messages : list ChatMessage) (stream : bool)
  (apiKeys : list string) (tried : list (string * nat)) :
  List.length (attempts messages stream apiKeys tried)
  <= List.length tried * List.length apiKeys.
Proof.
  induction tried as [ | mn tried IH ]; [ cbn; lia | ].
  unfold attempts in *. cbn [flat_map List.length].
  rewrite length_app, length_map, length_firstn. lia.
Qed.

(** X14.  The marketplace adapter asks in list order: its chat requests
    are, for the models of [modelsToTry] up to some point and in that
    order, the request of the model with the first credential, the
    second one and so on up to some point of the list of credentials,
    every request with the caller's messages.  So a credential is never
    used twice for a model, the requests number at most models times
    credentials, and when the adapter throws it has gone through every
    model. *)
Theorem marketplace_request_order (w : World) (messages : list ChatMessage)
  (apiKeys : list string) (onChunk : option Callback)
  (specificModel : option string) (st : State) :
  let out := callOpenRouter w messages apiKeys onChunk specificModel st in
  let models :=
    modelsToTry messages specificModel (cachedOpenRouterModels (snd out)) in
  exists events tried,
    trace (snd out) = (trace st ++ events)%list
    /\ filter isChatRequest events
       = attempts messages (isSome onChunk) apiKeys tried
    /\ (exists rest, (map fst tried ++ rest)%list = models)
    /\ Forall (fun mn => snd mn <= List.length apiKeys) tried
    /\ List.length (filter isChatRequest events)
       <= List.length models * List.length apiKeys
    /\ ((exists e, fst out = Throw e) -> map fst tried = models).
Proof.
  cbv zeta.
  destruct (callOpenRouter_unfold w messages apiKeys onChunk specificModel st)
    as (st0 & events0 & E0 & F0 & _ & _ & E).
  rewrite E. clear E.
  destruct (openRouterModels_run w messages onChunk apiKeys
              (modelsToTry messages specificModel (cachedOpenRouterModels st0))
              None st0)
    as (tried & events & E1 & E2 & (rest & Hp) & Hall & Hl & _ & C & _).
  destruct (openRouterModels w messages onChunk apiKeys
              (modelsToTry messages specificModel (cachedOpenRouterModels st0))
              None st0) as [ loop st1 ].
  cbn [fst snd] in *.
  assert (Hgoal :
    exists events' tried',
      trace st1 = (trace st ++ events')%list
      /\ filter isChatRequest events'
         = attempts messages (isSome onChunk) apiKeys tried'
      /\ (exists rest',
            (map fst tried' ++ rest')%list
            = modelsToTry messages specificModel (cachedOpenRouterModels st1))
      /\ Forall (fun mn => snd mn <= List.length apiKeys) tried'
      /\ List.length (filter isChatRequest events')
         <= List.length (modelsToTry messages specificModel
                           (cachedOpenRouterModels st1))
            * List.length apiKeys
      /\ ((forall text, loop <> Return text) ->
          map fst tried'
          = modelsToTry messages specificModel (cachedOpenRouterModels st1))).
  { exists (events0 ++ events)%list, tried. rewrite C.
    split; [ rewrite E1, E0, List.app_assoc; reflexivity | ].
    split; [ rewrite filter_app, F0, E2; reflexivity | ].
    split; [ exists rest; exact Hp | ].
    split; [ exact Hl | ].
    split; [ | exact Hall ].
    rewrite filter_app, F0, E2. cbn [List.app].
    pose proof (attempts_length messages (isSome onChunk) apiKeys tried) as Ha.
    rewrite <- Hp, length_app, length_map.
    nia. }
  destruct Hgoal as (events' & tried' & G1 & G2 & G3 & G4 & G5 & G6).
  destruct loop as [ text | lastError ]; cbn [fst snd];
    exists events', tried';
    (split; [ exact G1 | split; [ exact G2 | split; [ exact G3 | ] ] ]);
    (split; [ exact G4 | split; [ exact G5 | ] ]).
  - intros (e & H). discriminate H.
  - intros _. apply G6. intros text H. discriminate H.
Qed.

Lemma marketplace_request_order_witness :
  exists events tried,
    trace (snd (callOpenRouter offline hello ["k1"; "k2"] None (Some "m/one")
                  warmState))
    = (trace warmState ++ events)%list
    /\ filter isChatRequest events = attempts hello false ["k1"; "k2"] tried
    /\ map fst tried = ["m/one"].
Proof.
  destruct (marketplace_request_order offline hello ["k1"; "k2"] None
              (Some "m/one") warmState)
    as (events & tried & E1 & E2 & _ & _ & _ & H).
  exists events, tried. split; [ exact E1 | split; [ exact E2 | ] ].
  apply H. eexists. reflexivity.
Defined.

(** X15.  The text that the marketplace adapter returns is the end of
    what it has streamed: when the adapter returns a text to a caller
    it streams to, the chunks handed over during the call add up to
    some text followed by the text returned.  The text in front is what
    attempts that broke off had streamed before. *)
Theorem marketplace_stream_ends_with_answer (w : World)
  (messages : list ChatMessage) (apiKeys : list string)
  (specificModel : option string) (st st' : State) (text : string) :
  callOpenRouter w messages apiKeys (Some CallerCallback) specificModel st
  = (Ok text, st') ->
  exists events earlier,
    trace st' = (trace st ++ events)%list
    /\ streamedText events = earlier ++ text.
Proof.
  destruct (callOpenRouter_unfold w messages apiKeys (Some CallerCallback)
              specificModel st)
    as (st0 & events0 & E0 & _ & _ & S0 & E).
  rewrite E. clear E.
  destruct (openRouterModels_run w messages (Some CallerCallback) apiKeys
              (modelsToTry messages specificModel (cachedOpenRouterModels st0))
              None st0)
    as (tried & events & E1 & _ & _ & _ & _ & _ & _ & R).
  destruct (openRouterModels w messages (Some CallerCallback) apiKeys
              (modelsToTry messages specificModel (cachedOpenRouterModels st0))
              None st0) as [ [ t | lastError ] st1 ];
    cbn [fst snd] in *; intros H; inversion H; subst.
  destruct (R text eq_refl eq_refl) as (earlier & Ee).
  exists (events0 ++ events)%list, earlier. split.
  - rewrite E1, E0, List.app_assoc. reflexivity.
  - rewrite streamedText_app, S0, Ee. reflexivity.
Qed.

Lemma marketplace_stream_ends_with_answer_witness :
  exists events earlier,
    trace (snd (callOpenRouter brokenStream hello ["k1"; "k2"]
                  (Some CallerCallback) (Some "m/one") warmState))
    = (trace warmState ++ events)%list
    /\ streamedText events = earlier ++ "Hello".
Proof.
  apply (marketplace_stream_ends_with_answer brokenStream hello ["k1"; "k2"]
           (Some "m/one") warmState).
  reflexivity.
Defined.

(** What the caller has been streamed when the first attempt broke
    off: the part of the first attempt, then the whole answer. *)
Example broken_stream_is_not_retracted :
  let out := callOpenRouter brokenStream hello ["k1"; "k2"]
               (Some CallerCallback) (Some "m/one") warmState in
  fst out = Ok "Hello" /\ streamedText (trace (snd out)) = "HelHello".
Proof.
  split; reflexivity.
Qed.

(** ** The order of the models *)

Lemma filter_all (A : Type) (f : A -> bool) (l : list A) :
  Forall (fun x => f x = true) l -> filter f l = l.
Proof.
  induction 1 as [ | x l Hx _ IH ]; [ reflexivity | ].
  cbn [filter]. rewrite Hx, IH. reflexivity.
Qed.

Lemma filter_none (A : Type) (f : A -> bool) (l : list A) :
  Forall (fun x => f x = false) l -> filter f l = [].
Proof.
  induction 1 as [ | x l Hx _ IH ]; [ reflexivity | ].
  cbn [filter]. rewrite Hx, IH. reflexivity.
Qed.

Lemma mentionsCode_cases (m : string) :
  (isCodingModel m = true /\ mentionsCode m = 1%Z)
  \/ (isCodingModel m = false /\ mentionsCode m = 0%Z).
Proof.
  unfold isCodingModel, mentionsCode.
  destruct (Js.includes m "coder" || Js.includes m "deepseek"); auto.
Qed.

Lemma sorted_by_coding_split (l : list string) :
  StronglySorted (fun a b => (mentionsCode a >= mentionsCode b)%Z) l ->
  l = (filter isCodingModel l
       ++ filter (fun m => negb (isCodingModel m)) l)%list.
Proof.
  induction 1 as [ | x l Hs IH Hall ]; [ reflexivity | ].
  cbn [filter]. destruct (mentionsCode_cases x) as [ [ Ec Em ] | [ Ec Em ] ];
    rewrite Ec; cbn [negb List.app].
  - f_equal. exact IH.
  - assert (Hn : Forall (fun y => isCodingModel y = false) l).
    { rewrite Forall_forall in *. intros y Hy.
      pose proof (Hall y Hy) as H.
      destruct (mentionsCode_cases y) as [ [ _ E ] | [ E _ ] ]; [ lia | exact E ]. }
    rewrite (filter_none _ _ _ Hn). cbn [List.app]. f_equal.
    symmetry. apply filter_all.
    eapply Forall_impl; [ | exact Hn ]. cbn. intros y ->. reflexivity.
Qed.

Lemma sort_byCoding (cached : list string) :
  Js.sort byCoding cached
  = (filter isCodingModel cached
     ++ filter (fun m => negb (isCodingModel m)) cached)%list.
Proof.
  change byCoding with (byKey mentionsCode).
  rewrite (sorted_by_coding_split _ (sort_descending _ mentionsCode cached)).
  assert (E1 : forall l, filter isCodingModel l
                         = filter (fun m => (mentionsCode m =? 1)%Z) l).
  { intros l. apply filter_ext. intros m.
    destruct (mentionsCode_cases m) as [ [ -> -> ] | [ -> -> ] ]; reflexivity. }
  assert (E0 : forall l, filter (fun m => negb (isCodingModel m)) l
                         = filter (fun m => (mentionsCode m =? 0)%Z) l).
  { intros l. apply filter_ext. intros m.
    destruct (mentionsCode_cases m) as [ [ -> -> ] | [ -> -> ] ]; reflexivity. }
  rewrite !E1, !E0, !(sort_stable _ mentionsCode). reflexivity.
Qed.

(** X16.  For a conversation that mentions code, the marketplace
    adapter tries the coding models first: when no model is pinned and
    a message contains "code" or "function", the models are tried in
    the order of the catalog except that those whose identifier
    contains "coder" or "deepseek" come before all others; otherwise
    the catalog is tried as it is, and a pinned model is tried alone. *)
Theorem coding_models_first (messages : list ChatMessage)
  (specificModel : option string) (cached : list string) :
  (pinned specificModel = None ->
   existsb (fun m => Js.includes (content m) "code"
                     || Js.includes (content m) "function") messages = true ->
   modelsToTry messages specificModel cached
   = (filter isCodingModel cached
      ++ filter (fun m => negb (isCodingModel m)) cached)%list)
  /\ (pinned specificModel = None ->
      existsb (fun m => Js.includes (content m) "code"
                        || Js.includes (content m) "function") messages = false ->
      modelsToTry messages specificModel cached = cached)
  /\ (forall m, pinned specificModel = Some m ->
      modelsToTry messages specificModel cached = [m]).
Proof.
  unfold modelsToTry. split; [ | split ].
  - intros -> ->. apply sort_byCoding.
  - intros -> ->. reflexivity.
  - intros m ->. reflexivity.
Qed.

Lemma coding_models_first_witness :
  modelsToTry [ {| role := "user"; content := "write a function" |} ] None
    SAFETY_FALLBACK_OPENROUTER
  = (filter isCodingModel SAFETY_FALLBACK_OPENROUTER
     ++ filter (fun m => negb (isCodingModel m)) SAFETY_FALLBACK_OPENROUTER)%list.
Proof.
  destruct (coding_models_first
              [ {| role := "user"; content := "write a function" |} ] None
              SAFETY_FALLBACK_OPENROUTER) as [ H _ ].
  apply H; reflexivity.
Defined.

(** ** When the orchestrator returns *)

Lemma runProvider_direct
  (h : string -> list Message -> AISettings -> Callback -> FM string)
  (w : World) (params : Params) (p : AIProvider) (st : State) :
  p <> hybrid ->
  exists out,
    forall h', runProvider h' w params p st = Some out.
Proof.
  intros Hp. destruct p; [ | | | congruence ].
  - eexists. intros h'. reflexivity.
  - cbn [runProvider].
    destruct (List.length (getOpenRouterKeys (p_settings params)) =? 0);
      eexists; intros h'; reflexivity.
  - cbn [runProvider].
    destruct (List.length (getHuggingFaceKeys (p_settings params)) =? 0);
      eexists; intros h'; reflexivity.
Qed.

Lemma tryProviders_direct (w : World) (params : Params)
  (providers : list AIProvider) :
  ~ In hybrid providers ->
  forall lastError st,
  exists out,
    forall h, tryProviders (runProvider h w params) providers lastError st
              = Some out.
Proof.
  induction providers as [ | p rest IH ]; intros Hn lastError st.
  - eexists. intros h. reflexivity.
  - assert (Hp : p <> hybrid) by (intros ->; apply Hn; left; reflexivity).
    assert (Hr : ~ In hybrid rest) by (intros H; apply Hn; right; exact H).
    destruct (runProvider_direct (fun _ _ _ _ _ => None) w params p st Hp)
      as ([ [ text | e ] st1 ] & E).
    + eexists. intros h. cbn [tryProviders]. rewrite E. reflexivity.
    + destruct (IH Hr (Some e) st1) as (out & Eo).
      exists out. intros h. cbn [tryProviders]. rewrite E. apply Eo.
Qed.

Lemma providerList_direct (settings : AISettings) :
  provider settings <> hybrid -> ~ In hybrid (providerList settings).
Proof.
  intros Hp. unfold providerList. rewrite !in_app_iff.
  intros [ [ H | [] ] | [ H | [ H | H ] ] ].
  - congruence.
  - destruct (negb _); [ destruct H as [ H | [] ]; discriminate H | destruct H ].
  - destruct (negb _ && _); [ destruct H as [ H | [] ]; discriminate H | destruct H ].
  - destruct (negb _ && _); [ destruct H as [ H | [] ]; discriminate H | destruct H ].
Qed.

(** With a provider other than hybrid and no swarm, one unit of fuel is
    enough. *)
Lemma executeWithFallback_standard (w : World) (params : Params) (st : State) :
  provider (p_settings params) <> hybrid ->
  swarmEligible params = false ->
  exists out, forall f, executeWithFallback (S f) w params st = Some out.
Proof.
  intros Hp Hs.
  destruct (tryProviders_direct w params (providerList (p_settings params))
              (providerList_direct _ Hp) None (snd (refreshModelCache w st)))
    as (out & E).
  exists out. intros f. cbn [executeWithFallback]. rewrite Hs. apply E.
Qed.

Lemma swarmSynthesis_standard (prompt : string) (settings : AISettings)
  (onChunk : option Callback) (rs : list SwarmResult) :
  provider (p_settings (swarmSynthesisParams prompt settings onChunk rs))
  <> hybrid
  /\ swarmEligible (swarmSynthesisParams prompt settings onChunk rs) = false.
Proof.
  split; [ discriminate | reflexivity ].
Qed.

Lemma executeOpenRouterSwarm_returns (w : World) (prompt : string)
  (history : list Message) (settings : AISettings)
  (onChunk : option Callback) (st : State) :
  exists out,
    forall f,
      executeOpenRouterSwarm (S (S f)) w prompt history settings onChunk st
      = Some out.
Proof.
  cbn [executeOpenRouterSwarm].
  destruct (List.length (getOpenRouterKeys settings) =? 0);
    [ eexists; intros f; reflexivity | ].
  destruct (refreshModelCache w st) as [ [ [] | e ] st1 ];
    [ | eexists; intros f; reflexivity ].
  destruct (swarmCalls w (swarmMessages prompt history)
              (getOpenRouterKeys settings)
              (selectSwarmModels prompt (cachedOpenRouterModels st1))
              (notify onChunk
                 (swarmActivated
                    (List.length
                       (selectSwarmModels prompt (cachedOpenRouterModels st1))))
                 st1)) as [ results st3 ].
  destruct (List.length (filter isSuccessful results) =? 0);
    [ eexists; intros f; reflexivity | ].
  destruct (swarmSynthesis_standard prompt settings onChunk
              (filter isSuccessful results)) as [ Hp Hs ].
  apply (executeWithFallback_standard w _ _ Hp Hs).
Qed.

Lemma executeWithFallback_direct (w : World) (params : Params) (st : State) :
  provider (p_settings params) <> hybrid ->
  exists out,
    forall f, executeWithFallback (S (S (S f))) w params st = Some out.
Proof.
  intros Hp. destruct (swarmEligible params) eqn:Hs.
  - destruct (executeOpenRouterSwarm_returns w (p_prompt params)
                (p_history params) (p_settings params) (p_onChunk params)
                (snd (refreshModelCache w st))) as ([ [ text | e ] st1 ] & E).
    + eexists. intros f. cbn [executeWithFallback]. rewrite Hs.
      rewrite (E f). reflexivity.
    + destruct (tryProviders_direct w params (providerList (p_settings params))
                  (providerList_direct _ Hp) None st1) as (out & Eo).
      exists out. intros f. cbn [executeWithFallback]. rewrite Hs.
      rewrite (E f). apply Eo.
  - destruct (executeWithFallback_standard w params st Hp Hs) as (out & E).
    exists out. intros f. apply E.
Qed.

Lemma retrieveRelevantMemories_direct (w : World) (query : string)
  (settings : AISettings) (st : State) :
  provider settings <> hybrid ->
  exists out,
    forall f,
      retrieveRelevantMemories (S (S (S (S f)))) w query settings st = Some out.
Proof.
  intros Hp. cbn [retrieveRelevantMemories].
  destruct (List.length (getMemories w) =? 0);
    [ eexists; intros f; reflexivity | ].
  destruct (executeWithFallback_direct w
              (memoryQueryParams query settings (getMemories w)) st Hp)
    as ([ [ text | e ] st1 ] & E).
  - destruct (sanitizeAndParseJson text) as [ relevantIds | e ] eqn:Es.
    + destruct (relevantMemories relevantIds (getMemories w))
        as [ found | e ] eqn:Er;
        eexists; intros f; rewrite (E f), Es, Er; reflexivity.
    + eexists. intros f. rewrite (E f), Es. reflexivity.
  - eexists. intros f. rewrite (E f). reflexivity.
Qed.

Lemma getChatResponse_direct (w : World) (prompt : string)
  (history : list Message) (settings : AISettings) (files : list File)
  (onChunk : option Callback) (st : State) :
  provider settings <> hybrid ->
  exists out,
    forall f,
      getChatResponse (S (S (S (S (S f))))) w prompt history settings files
        onChunk st = Some out.
Proof.
  intros Hp. cbn [getChatResponse].
  destruct (List.length files =? 0).
  - destruct (retrieveRelevantMemories_direct w prompt settings st Hp)
      as ([ r st1 ] & E).
    destruct (executeWithFallback_direct w
                (chatParams prompt history settings files onChunk
                   match r with
                   | Ok relevant => memoryContext relevant
                   | Throw _ => ""
                   end) st1 Hp) as (out & Eo).
    exists out. intros f. rewrite (E f). apply (Eo (S f)).
  - destruct (executeWithFallback_direct w
                (chatParams prompt history settings files onChunk
                   (memoryContext [])) st Hp) as (out & Eo).
    exists out. intros f. apply (Eo (S f)).
Qed.

(** Without credentials the swarm is never tried. *)
Lemma swarmEligible_no_keys (params : Params) :
  openRouterApiKeys (p_settings params) = [] -> swarmEligible params = false.
Proof.
  intros H. unfold swarmEligible, getOpenRouterKeys. rewrite H.
  cbn [List.length Nat.ltb Nat.leb]. rewrite andb_false_r. reflexivity.
Qed.

Lemma executeWithFallback_no_keys_direct (w : World) (params : Params)
  (st : State) :
  provider (p_settings params) <> hybrid ->
  openRouterApiKeys (p_settings params) = [] ->
  exists out, forall f, executeWithFallback (S f) w params st = Some out.
Proof.
  intros Hp Ho. apply executeWithFallback_standard; [ exact Hp | ].
  apply swarmEligible_no_keys, Ho.
Qed.

Lemma getMultiModelResponse_no_keys (w : World) (prompt : string)
  (history : list Message) (settings : AISettings) (onChunk : Callback)
  (st : State) :
  openRouterApiKeys settings = [] ->
  huggingFaceApiKeys settings = [] ->
  exists out,
    forall f,
      getMultiModelResponse (S (S (S (S f)))) w prompt history settings
        onChunk st = Some out.
Proof.
  intros Ho Hh. cbn [getMultiModelResponse getChatResponse List.length Nat.eqb].
  destruct (refreshModelCache w st) as [ [ [] | e ] st1 ];
    [ | eexists; intros f; reflexivity ].
  rewrite Ho, Hh. cbn [List.length Nat.eqb andb retrieveRelevantMemories].
  assert (Hg : provider (withProvider settings gemini) <> hybrid)
    by discriminate.
  destruct (List.length (getMemories w) =? 0).
  - destruct (executeWithFallback_no_keys_direct w
                (chatParams prompt history (withProvider settings gemini) []
                   (Some onChunk) (memoryContext [])) st1 Hg Ho) as (out & E).
    exists out. intros f. apply (E (S f)).
  - destruct (executeWithFallback_no_keys_direct w
                (memoryQueryParams prompt (withProvider settings gemini)
                   (getMemories w)) st1 Hg Ho) as ([ r st2 ] & E).
    assert (Hnext : forall context,
               exists out, forall f,
                 executeWithFallback (S (S f)) w
                   (chatParams prompt history (withProvider settings gemini) []
                      (Some onChunk) context) st2 = Some out).
    { intros context.
      destruct (executeWithFallback_no_keys_direct w
                  (chatParams prompt history (withProvider settings gemini) []
                     (Some onChunk) context) st2 Hg Ho) as (out & Eo).
      exists out. intros f. apply (Eo (S f)). }
    destruct r as [ text | e ].
    + destruct (sanitizeAndParseJson text) as [ relevantIds | e ] eqn:Es.
      * destruct (relevantMemories relevantIds (getMemories w))
          as [ found | e ] eqn:Er.
        -- destruct (Hnext (memoryContext (map memoryLine found)))
             as (out & Eo).
           exists out. intros f. rewrite (E f), Es, Er. apply Eo.
        -- destruct (Hnext (memoryContext
                              (offlineMemorySearch prompt (getMemories w))))
             as (out & Eo).
           exists out. intros f. rewrite (E f), Es, Er. apply Eo.
      * destruct (Hnext (memoryContext
                           (offlineMemorySearch prompt (getMemories w))))
          as (out & Eo).
        exists out. intros f. rewrite (E f), Es. apply Eo.
    + destruct (Hnext (memoryContext
                         (offlineMemorySearch prompt (getMemories w))))
        as (out & Eo).
      exists out. intros f. rewrite (E f). apply Eo.
Qed.

Lemma executeWithFallback_no_keys (w : World) (params : Params) (st : State) :
  openRouterApiKeys (p_settings params) = [] ->
  huggingFaceApiKeys (p_settings params) = [] ->
  exists out,
    forall f, executeWithFallback (S (S (S (S (S f))))) w params st = Some out.
Proof.
  intros Ho Hh.
  destruct (AIProvider_eqb (provider (p_settings params)) hybrid) eqn:Ep.
  - assert (Hp : provider (p_settings params) = hybrid)
      by (destruct (provider (p_settings params));
          first [ reflexivity | discriminate Ep ]).
    destruct (getMultiModelResponse_no_keys w (p_prompt params)
                (p_history params) (p_settings params)
                (match p_onChunk params with
                 | Some cb => cb
                 | None => EmptyCallback
                 end) (snd (refreshModelCache w st)) Ho Hh)
      as ([ [ text | e ] st1 ] & E).
    + eexists. intros f. cbn [executeWithFallback].
      rewrite (swarmEligible_no_keys params Ho).
      unfold providerList, getOpenRouterKeys, getHuggingFaceKeys.
      rewrite Hp, Ho, Hh.
      cbn [AIProvider_eqb negb List.length Nat.ltb Nat.leb andb List.app
           tryProviders runProvider].
      rewrite (E f). reflexivity.
    + destruct (callGemini w (geminiModel (p_settings params) (p_files params))
                  (geminiContents params) (geminiConfig params)
                  (p_onChunk params) st1) as [ [ t | e' ] st2 ] eqn:Eg;
        eexists; intros f; cbn [executeWithFallback];
        rewrite (swarmEligible_no_keys params Ho);
        unfold providerList, getOpenRouterKeys, getHuggingFaceKeys;
        rewrite Hp, Ho, Hh;
        cbn [AIProvider_eqb negb List.length Nat.ltb Nat.leb andb List.app
             tryProviders runProvider];
        rewrite (E f); cbn [lift]; rewrite Eg; reflexivity.
  - assert (Hp : provider (p_settings params) <> hybrid)
      by (intros H; rewrite H in Ep; discriminate Ep).
    destruct (executeWithFallback_no_keys_direct w params st Hp Ho)
      as (out & E).
    exists out. intros f. apply E.
Qed.

(** X17.  The orchestrator returns whenever the chosen provider is not
    hybrid, and also with hybrid chosen when no credential is
    configured: there is then an outcome, a text or an error, that the
    call has for every depth of calls of five or more. *)
Theorem orchestrator_returns (w : World) (params : Params) (st : State) :
  provider (p_settings params) <> hybrid
  \/ (openRouterApiKeys (p_settings params) = []
      /\ huggingFaceApiKeys (p_settings params) = []) ->
  exists r st',
    forall fuel, 5 <= fuel ->
      executeWithFallback fuel w params st = Some (r, st').
Proof.
  intros [ Hp | [ Ho Hh ] ].
  - destruct (executeWithFallback_direct w params st Hp) as ([ r st' ] & E).
    exists r, st'. intros fuel Hf.
    destruct fuel as [ | [ | [ | f ] ] ]; try lia. apply E.
  - destruct (executeWithFallback_no_keys w params st Ho Hh)
      as ([ r st' ] & E).
    exists r, st'. intros fuel Hf.
    destruct fuel as [ | [ | [ | [ | [ | f ] ] ] ] ]; try lia. apply E.
Qed.

Lemma orchestrator_returns_witness :
  exists r st',
    forall fuel, 5 <= fuel ->
      executeWithFallback fuel offline
        (ask "hi" (settingsOf openrouter ["k1"] [] true)) initialState
      = Some (r, st').
Proof.
  apply (orchestrator_returns offline
           (ask "hi" (settingsOf openrouter ["k1"] [] true)) initialState).
  left. discriminate.
Defined.

(** ** The credentials that requests carry *)

Lemma sends_mono (o h o' h' : list string) (e : Event) :
  incl o o' -> incl h h' -> sends o h e -> sends o' h' e.
Proof.
  intros Ho Hh. destruct e; cbn; auto.
Qed.

Lemma sends_primaryOnly (o h : list string) (e : Event) :
  primaryOnly e = true -> sends o h e.
Proof.
  destruct e; cbn; intros H; first [ exact I | discriminate H ].
Qed.

Lemma since_callGemini (o h : list string) (w : World) (model : string)
  (contents : list Content) (config : GeminiConfig)
  (onChunk : option Callback) (st : State) :
  since (sends o h) st (snd (callGemini w model contents config onChunk st)).
Proof.
  apply since_primaryOnly; [ apply sends_primaryOnly | ].
  apply primaryOnlySince_callGemini.
Qed.

Lemma since_refresh (o h : list string) (w : World) (st : State) :
  since (sends o h) st (snd (refreshModelCache w st)).
Proof.
  apply since_primaryOnly; [ apply sends_primaryOnly | ].
  apply primaryOnlySince_refresh.
Qed.

Lemma since_notify (o h : list string) (onChunk : option Callback)
  (text : string) (st : State) :
  since (sends o h) st (notify onChunk text st).
Proof.
  destruct onChunk as [ [ | ] | ]; cbn [notify callChunk];
    first [ apply since_refl | apply since_log; exact I ].
Qed.

Lemma since_callOpenRouter (w : World) (messages : list ChatMessage)
  (apiKeys : list string) (onChunk : option Callback)
  (specificModel : option string) (st : State) :
  since (sends apiKeys [])
    st (snd (callOpenRouter w messages apiKeys onChunk specificModel st)).
Proof.
  destruct (callOpenRouter_unfold w messages apiKeys onChunk specificModel st)
    as (st0 & events0 & E0 & _ & F0 & _ & E).
  rewrite E. clear E.
  destruct (openRouterModels_run w messages onChunk apiKeys
              (modelsToTry messages specificModel (cachedOpenRouterModels st0))
              None st0)
    as (tried & events & E1 & _ & _ & _ & _ & F & _ & _).
  destruct (openRouterModels w messages onChunk apiKeys
              (modelsToTry messages specificModel (cachedOpenRouterModels st0))
              None st0) as [ loop st1 ].
  cbn [snd] in E1.
  assert (H : since (sends apiKeys []) st st1).
  { exists (events0 ++ events)%list. split.
    - rewrite E1, E0, List.app_assoc. reflexivity.
    - apply Forall_app. split; [ | exact F ].
      eapply Forall_impl; [ | exact F0 ].
      intros e. apply sends_mono; intros x []. }
  destruct loop; exact H.
Qed.

Lemma since_huggingFaceKeys (w : World) (fullPrompt model : string)
  (allKeys apiKeys : list string) :
  incl apiKeys allKeys ->
  forall lastError st,
    since (sends [] allKeys)
      st (snd (huggingFaceKeys w fullPrompt model apiKeys lastError st)).
Proof.
  induction apiKeys as [ | apiKey rest IH ]; intros Hi lastError st.
  - apply since_refl.
  - cbn [huggingFaceKeys].
    assert (Hlog : since (sends [] allKeys) st
                     (log (EvHuggingFace apiKey model fullPrompt) st)).
    { apply since_log. apply Hi. left. reflexivity. }
    assert (Hnext : forall e,
               since (sends [] allKeys) st
                 (snd (huggingFaceKeys w fullPrompt model rest e
                         (log (EvHuggingFace apiKey model fullPrompt) st)))).
    { intros e. eapply since_trans; [ exact Hlog | ].
      apply IH. intros x Hx. apply Hi. right. exact Hx. }
    destruct (fetch_hf_inference w (tick st) apiKey model fullPrompt)
      as [ e | status body ]; [ apply Hnext | ].
    destruct (negb (statusOk status)).
    { destruct ((status =? 401)%Z || (status =? 429)%Z);
        [ apply Hnext | exact Hlog ]. }
    destruct body as [ data | e ]; [ | apply Hnext ].
    destruct (huggingFaceText data); [ exact Hlog | apply Hnext ].
Qed.

Lemma since_huggingFaceModels (w : World) (fullPrompt : string)
  (apiKeys models : list string) :
  forall lastError st,
    since (sends [] apiKeys)
      st (snd (huggingFaceModels w fullPrompt apiKeys models lastError st)).
Proof.
  induction models as [ | model rest IH ]; intros lastError st.
  - apply since_refl.
  - cbn [huggingFaceModels].
    pose proof (since_huggingFaceKeys w fullPrompt model apiKeys apiKeys
                  (fun x H => H) lastError st) as H.
    destruct (huggingFaceKeys w fullPrompt model apiKeys lastError st)
      as [ [ text | lastError1 ] st1 ]; cbn [snd] in *.
    + exact H.
    + eapply since_trans; [ exact H | apply IH ].
Qed.

Lemma since_callHuggingFace (w : World) (prompt : string)
  (apiKeys : list string) (systemInstruction : option string) (st : State) :
  since (sends [] apiKeys)
    st (snd (callHuggingFace w prompt apiKeys systemInstruction st)).
Proof.
  unfold callHuggingFace.
  assert (H0 : exists st0,
             (if List.length (cachedHuggingFaceModels st) =? 0
              then refreshModelCache w st else (Ok tt, st)) = (Ok tt, st0)
             /\ since (sends [] apiKeys) st st0).
  { destruct (List.length (cachedHuggingFaceModels st) =? 0).
    - pose proof (since_refresh [] apiKeys w st) as H.
      destruct (refreshModelCache_total w st) as (st0 & E & _).
      rewrite E in *. exists st0. split; [ reflexivity | exact H ].
    - exists st. split; [ reflexivity | apply since_refl ]. }
  destruct H0 as (st0 & E & H0). rewrite E.
  pose proof (since_huggingFaceModels w
                (huggingFacePrompt prompt systemInstruction) apiKeys
                (cachedHuggingFaceModels st0) None st0) as H.
  destruct (huggingFaceModels w (huggingFacePrompt prompt systemInstruction)
              apiKeys (cachedHuggingFaceModels st0) None st0)
    as [ [ text | lastError ] st1 ]; cbn [snd] in *;
    (eapply since_trans; [ exact H0 | exact H ]).
Qed.

Lemma since_swarmCalls (w : World) (messages : list ChatMessage)
  (apiKeys : list string) (swarmModels : list string) :
  forall st,
    since (sends apiKeys [])
      st (snd (swarmCalls w messages apiKeys swarmModels st)).
Proof.
  induction swarmModels as [ | model rest IH ]; intros st.
  - apply since_refl.
  - cbn [swarmCalls].
    pose proof (since_callOpenRouter w messages apiKeys None (Some model) st)
      as H.
    destruct (callOpenRouter w messages apiKeys None (Some model) st)
      as [ r st1 ]. cbn [snd] in H.
    pose proof (IH st1) as H'.
    destruct (swarmCalls w messages apiKeys rest st1) as [ results st2 ].
    cbn [snd] in *. eapply since_trans; eassumption.
Qed.

Lemma getOpenRouterKeys_eq (settings : AISettings) :
  getOpenRouterKeys settings = openRouterApiKeys settings.
Proof.
  unfold getOpenRouterKeys. destruct (openRouterApiKeys settings); reflexivity.
Qed.

Lemma getHuggingFaceKeys_eq (settings : AISettings) :
  getHuggingFaceKeys settings = huggingFaceApiKeys settings.
Proof.
  unfold getHuggingFaceKeys. destruct (huggingFaceApiKeys settings); reflexivity.
Qed.

Lemma usesKeysOf_openrouter (settings : AISettings) (e : Event) :
  sends (getOpenRouterKeys settings) [] e -> usesKeysOf settings e.
Proof.
  rewrite getOpenRouterKeys_eq. apply sends_mono; [ intros x H; exact H | ].
  intros x [].
Qed.

Lemma usesKeysOf_huggingface (settings : AISettings) (e : Event) :
  sends [] (getHuggingFaceKeys settings) e -> usesKeysOf settings e.
Proof.
  rewrite getHuggingFaceKeys_eq. apply sends_mono; [ intros x [] | ].
  intros x H. exact H.
Qed.

Lemma usesKeysOf_neither (settings : AISettings) (e : Event) :
  sends [] [] e -> usesKeysOf settings e.
Proof.
  apply sends_mono; intros x [].
Qed.

Lemma since_hybridCalls (w : World) (prompt : string) (settings : AISettings)
  (st : State) :
  since (usesKeysOf settings) st (snd (hybridCalls w prompt settings st)).
Proof.
  unfold hybridCalls.
  pose proof (since_callGemini [] [] w "gemini-2.5-pro"
                [ {| c_role := "user"; c_parts := [TextPart prompt] |} ]
                noConfig None st) as Hg.
  destruct (callGemini w "gemini-2.5-pro"
              [ {| c_role := "user"; c_parts := [TextPart prompt] |} ]
              noConfig None st) as [ g st1 ]. cbn [snd] in Hg.
  apply (since_weaken _ _ _ _ (usesKeysOf_neither settings)) in Hg.
  assert (Ho : exists o st2,
             (if 0 <? List.length (getOpenRouterKeys settings)
              then
                let (r, st') :=
                  callOpenRouter w [ {| role := "user"; content := prompt |} ]
                    (getOpenRouterKeys settings) None None st1 in
                ([hybridBranch "OpenRouter (Dynamic)" r], st')
              else ([], st1)) = (o, st2)
             /\ since (usesKeysOf settings) st1 st2).
  { destruct (0 <? List.length (getOpenRouterKeys settings)).
    - pose proof (since_callOpenRouter w
                    [ {| role := "user"; content := prompt |} ]
                    (getOpenRouterKeys settings) None None st1) as H.
      destruct (callOpenRouter w [ {| role := "user"; content := prompt |} ]
                  (getOpenRouterKeys settings) None None st1) as [ r st' ].
      eexists. eexists. split; [ reflexivity | ].
      apply (since_weaken _ _ _ _ (usesKeysOf_openrouter settings)), H.
    - eexists. eexists. split; [ reflexivity | apply since_refl ]. }
  destruct Ho as (o & st2 & Eo & Ho). rewrite Eo.
  assert (Hh : exists h st3,
             (if 0 <? List.length (getHuggingFaceKeys settings)
              then
                let (r, st') :=
                  callHuggingFace w prompt (getHuggingFaceKeys settings)
                    None st2 in
                ([hybridBranch "HuggingFace (Dynamic)" r], st')
              else ([], st2)) = (h, st3)
             /\ since (usesKeysOf settings) st2 st3).
  { destruct (0 <? List.length (getHuggingFaceKeys settings)).
    - pose proof (since_callHuggingFace w prompt
                    (getHuggingFaceKeys settings) None st2) as H.
      destruct (callHuggingFace w prompt (getHuggingFaceKeys settings)
                  None st2) as [ r st' ].
      eexists. eexists. split; [ reflexivity | ].
      apply (since_weaken _ _ _ _ (usesKeysOf_huggingface settings)), H.
    - eexists. eexists. split; [ reflexivity | apply since_refl ]. }
  destruct Hh as (h & st3 & Eh & Hh). rewrite Eh. cbn [snd].
  eapply since_trans; [ exact Hg | ].
  eapply since_trans; [ exact Ho | exact Hh ].
Qed.

Lemma since_tryProviders (P : Event -> Prop) (run : AIProvider -> FM string)
  (providers : list AIProvider) :
  (forall p st r st', run p st = Some (r, st') -> since P st st') ->
  forall lastError st r st',
    tryProviders run providers lastError st = Some (r, st') ->
    since P st st'.
Proof.
  intros Hrun. induction providers as [ | p rest IH ];
    intros lastError st r st' H; cbn [tryProviders] in H.
  - inversion H; subst. apply since_refl.
  - destruct (run p st) as [ [ [ text | e ] st1 ] | ] eqn:E;
      [ | | discriminate H ].
    + inversion H; subst. eapply Hrun, E.
    + eapply since_trans; [ eapply Hrun, E | eapply IH, H ].
Qed.

Lemma since_runProvider
  (h : string -> list Message -> AISettings -> Callback -> FM string)
  (w : World) (params : Params) :
  (forall prompt history cb st r st',
     h prompt history (p_settings params) cb st = Some (r, st') ->
     since (usesKeysOf (p_settings params)) st st') ->
  forall p st r st',
    runProvider h w params p st = Some (r, st') ->
    since (usesKeysOf (p_settings params)) st st'.
Proof.
  intros Hh p st r st' H. destruct p; cbn [runProvider] in H.
  - unfold lift in H. inversion H as [ E ].
    pose proof (since_callGemini [] [] w
                  (geminiModel (p_settings params) (p_files params))
                  (geminiContents params) (geminiConfig params)
                  (p_onChunk params) st) as Hg.
    rewrite E in Hg. cbn [snd] in Hg.
    apply (since_weaken _ _ _ _ (usesKeysOf_neither _)), Hg.
  - destruct (List.length (getOpenRouterKeys (p_settings params)) =? 0).
    + inversion H; subst. apply since_refl.
    + unfold lift in H. inversion H as [ E ].
      pose proof (since_callOpenRouter w (openRouterMessages params)
                    (getOpenRouterKeys (p_settings params))
                    (p_onChunk params) None st) as Ho.
      rewrite E in Ho. cbn [snd] in Ho.
      apply (since_weaken _ _ _ _ (usesKeysOf_openrouter _)), Ho.
  - destruct (List.length (getHuggingFaceKeys (p_settings params)) =? 0).
    + inversion H; subst. apply since_refl.
    + unfold lift in H. inversion H as [ E ].
      pose proof (since_callHuggingFace w (huggingFaceFinalPrompt params)
                    (getHuggingFaceKeys (p_settings params))
                    (p_systemInstruction params) st) as Ho.
      rewrite E in Ho. cbn [snd] in Ho.
      apply (since_weaken _ _ _ _ (usesKeysOf_huggingface _)), Ho.
  - eapply Hh, H.
Qed.

Lemma confined (fuel : nat) :
  (forall w params st r st',
     executeWithFallback fuel w params st = Some (r, st') ->
     since (usesKeysOf (p_settings params)) st st')
  /\ (forall w prompt history settings onChunk st r st',
        executeOpenRouterSwarm fuel w prompt history settings onChunk st
        = Some (r, st') ->
        since (usesKeysOf settings) st st')
  /\ (forall w prompt history settings onChunk st r st',
        getMultiModelResponse fuel w prompt history settings onChunk st
        = Some (r, st') ->
        since (usesKeysOf settings) st st')
  /\ (forall w prompt history settings files onChunk st r st',
        getChatResponse fuel w prompt history settings files onChunk st
        = Some (r, st') ->
        since (usesKeysOf settings) st st')
  /\ (forall w query settings st r st',
        retrieveRelevantMemories fuel w query settings st = Some (r, st') ->
        since (usesKeysOf settings) st st').
Proof.
  induction fuel as [ | f (IHe & IHs & IHm & IHc & IHr) ].
  { repeat split; intros; discriminate. }
  split; [ | split; [ | split; [ | split ] ] ].
  - (* executeWithFallback *)
    intros w params st r st' H. cbn [executeWithFallback] in H.
    pose proof (since_refresh (openRouterApiKeys (p_settings params))
                  (huggingFaceApiKeys (p_settings params)) w st) as H0.
    fold (usesKeysOf (p_settings params)) in H0.
    assert (Hstd : forall st1 r st',
               tryProviders
                 (runProvider (getMultiModelResponse f w) w params)
                 (providerList (p_settings params)) None st1 = Some (r, st') ->
               since (usesKeysOf (p_settings params)) st1 st').
    { intros st1 r1 st1'. apply since_tryProviders.
      apply since_runProvider. intros prompt history cb. apply IHm. }
    destruct (swarmEligible params).
    + destruct (executeOpenRouterSwarm f w (p_prompt params)
                  (p_history params) (p_settings params) (p_onChunk params)
                  (snd (refreshModelCache w st)))
        as [ [ [ text | e ] st1 ] | ] eqn:Es; [ | | discriminate H ].
      * inversion H; subst.
        eapply since_trans; [ exact H0 | eapply IHs, Es ].
      * eapply since_trans; [ exact H0 | ].
        eapply since_trans; [ eapply IHs, Es | eapply Hstd, H ].
    + eapply since_trans; [ exact H0 | eapply Hstd, H ].
  - (* executeOpenRouterSwarm *)
    intros w prompt history settings onChunk st r st' H.
    cbn [executeOpenRouterSwarm] in H.
    destruct (List.length (getOpenRouterKeys settings) =? 0).
    { inversion H; subst. apply since_refl. }
    pose proof (since_refresh (openRouterApiKeys settings)
                  (huggingFaceApiKeys settings) w st) as H0.
    fold (usesKeysOf settings) in H0.
    destruct (refreshModelCache w st) as [ [ [] | e ] st1 ]; cbn [snd] in H0.
    2: { inversion H; subst. exact H0. }
    set (swarmModels := selectSwarmModels prompt (cachedOpenRouterModels st1))
      in *.
    pose proof (since_notify (openRouterApiKeys settings)
                  (huggingFaceApiKeys settings) onChunk
                  (swarmActivated (List.length swarmModels)) st1) as H1.
    fold (usesKeysOf settings) in H1.
    pose proof (since_swarmCalls w (swarmMessages prompt history)
                  (getOpenRouterKeys settings) swarmModels
                  (notify onChunk (swarmActivated (List.length swarmModels))
                     st1)) as H2.
    apply (since_weaken _ _ _ _ (usesKeysOf_openrouter settings)) in H2.
    destruct (swarmCalls w (swarmMessages prompt history)
                (getOpenRouterKeys settings) swarmModels
                (notify onChunk (swarmActivated (List.length swarmModels)) st1))
      as [ results st3 ]. cbn [snd] in H2.
    assert (H3 : since (usesKeysOf settings) st st3).
    { eapply since_trans; [ exact H0 | ].
      eapply since_trans; [ exact H1 | exact H2 ]. }
    destruct (List.length (filter isSuccessful results) =? 0).
    { inversion H; subst. exact H3. }
    apply IHe in H.
    eapply since_trans; [ exact H3 | ].
    eapply since_trans; [ | exact H ].
    apply (since_notify (openRouterApiKeys settings)
             (huggingFaceApiKeys settings)).
  - (* getMultiModelResponse *)
    intros w prompt history settings onChunk st r st' H.
    cbn [getMultiModelResponse] in H.
    pose proof (since_refresh (openRouterApiKeys settings)
                  (huggingFaceApiKeys settings) w st) as H0.
    fold (usesKeysOf settings) in H0.
    destruct (refreshModelCache w st) as [ [ [] | e ] st1 ]; cbn [snd] in H0.
    2: { inversion H; subst. exact H0. }
    destruct ((List.length (openRouterApiKeys settings) =? 0)
              && (List.length (huggingFaceApiKeys settings) =? 0)).
    + apply IHc in H. eapply since_trans; [ exact H0 | exact H ].
    + pose proof (since_hybridCalls w prompt settings st1) as H1.
      destruct (hybridCalls w prompt settings st1) as [ results st2 ].
      cbn [snd] in H1.
      destruct (List.length (validResults results) =? 0).
      * inversion H; subst. eapply since_trans; eassumption.
      * apply IHe in H.
        eapply since_trans; [ exact H0 | ].
        eapply since_trans; [ exact H1 | exact H ].
  - (* getChatResponse *)
    intros w prompt history settings files onChunk st r st' H.
    cbn [getChatResponse] in H.
    destruct (List.length files =? 0).
    + destruct (retrieveRelevantMemories f w prompt settings st)
        as [ [ r1 st1 ] | ] eqn:Er; [ | discriminate H ].
      apply IHr in Er. apply IHe in H.
      eapply since_trans; [ exact Er | exact H ].
    + apply IHe in H. exact H.
  - (* retrieveRelevantMemories *)
    intros w query settings st r st' H.
    cbn [retrieveRelevantMemories] in H.
    destruct (List.length (getMemories w) =? 0).
    { inversion H; subst. apply since_refl. }
    destruct (executeWithFallback f w
                (memoryQueryParams query settings (getMemories w)) st)
      as [ [ [ text | e ] st1 ] | ] eqn:Ee; [ | | discriminate H ].
    + apply IHe in Ee.
      destruct (sanitizeAndParseJson text) as [ relevantIds | e ].
      * destruct (relevantMemories relevantIds (getMemories w));
          inversion H; subst; exact Ee.
      * inversion H; subst. exact Ee.
    + apply IHe in Ee. inversion H; subst. exact Ee.
Qed.

(** X18.  Every request carries a configured credential: whatever the
    orchestrator and the chat function do before they return, each of
    their requests to the marketplace carries a credential of
    [openRouterApiKeys] and each request to the inference endpoint one
    of [huggingFaceApiKeys].  With an empty list the provider is not
    contacted at all. *)
Theorem requests_carry_configured_keys (fuel : nat) (w : World) :
  (forall params st r st',
     executeWithFallback fuel w params st = Some (r, st') ->
     exists events,
       trace st' = (trace st ++ events)%list
       /\ Forall (usesKeysOf (p_settings params)) events)
  /\ (forall prompt history settings files onChunk st r st',
        getChatResponse fuel w prompt history settings files onChunk st
        = Some (r, st') ->
        exists events,
          trace st' = (trace st ++ events)%list
          /\ Forall (usesKeysOf settings) events).
Proof.
  destruct (confined fuel) as (He & _ & _ & Hc & _). split.
  - intros params st r st' H. apply (He w params st r st' H).
  - intros prompt history settings files onChunk st r st' H.
    apply (Hc w prompt history settings files onChunk st r st' H).
Qed.

Lemma requests_carry_configured_keys_witness :
  exists events,
    trace (snd (spentKeyOutcome))
    = (trace initialState ++ events)%list
    /\ Forall (usesKeysOf (settingsOf openrouter ["k1"; "k2"] [] false)) events.
Proof.
  destruct (requests_carry_configured_keys 2 firstKeySpent) as [ H _ ].
  apply (H (ask "hi" (settingsOf openrouter ["k1"; "k2"] [] false))
           initialState (fst spentKeyOutcome)).
  reflexivity.
Defined.

(** ** The indices of the active credentials *)

Lemma tryProviders_ext (run run' : AIProvider -> FM string) :
  (forall p st, run p st = run' p st) ->
  forall providers lastError st,
    tryProviders run providers lastError st
    = tryProviders run' providers lastError st.
Proof.
  intros H. induction providers as [ | p rest IH ]; intros lastError st.
  - reflexivity.
  - cbn [tryProviders]. rewrite H.
    destruct (run' p st) as [ [ [ text | e ] st1 ] | ]; try reflexivity.
    apply IH.
Qed.

Lemma sameButIndices_refl (s : AISettings) : sameButIndices s s.
Proof.
  repeat split.
Qed.

Lemma sameButIndices_withProvider (a b : AISettings) (p : AIProvider) :
  sameButIndices a b ->
  sameButIndices (withProvider a p) (withProvider b p).
Proof.
  intros (H1 & H2 & H3 & H4). repeat split; assumption.
Qed.

Lemma sameButIndices_synthesis (a b : AISettings) :
  sameButIndices a b ->
  sameButIndices (withProvider (withoutComplexTaskMode a) gemini)
                 (withProvider (withoutComplexTaskMode b) gemini).
Proof.
  intros (H1 & H2 & H3 & H4). repeat split; assumption.
Qed.

Lemma getOpenRouterKeys_same (a b : AISettings) :
  sameButIndices a b -> getOpenRouterKeys b = getOpenRouterKeys a.
Proof.
  intros (_ & H & _). rewrite !getOpenRouterKeys_eq. symmetry. exact H.
Qed.

Lemma getHuggingFaceKeys_same (a b : AISettings) :
  sameButIndices a b -> getHuggingFaceKeys b = getHuggingFaceKeys a.
Proof.
  intros (_ & _ & H & _). rewrite !getHuggingFaceKeys_eq. symmetry. exact H.
Qed.

Lemma providerList_same (a b : AISettings) :
  sameButIndices a b -> providerList b = providerList a.
Proof.
  intros H. unfold providerList.
  rewrite (getOpenRouterKeys_same a b H), (getHuggingFaceKeys_same a b H).
  destruct H as (H & _). rewrite H. reflexivity.
Qed.

Lemma swarmEligible_same (params : Params) (s : AISettings) :
  sameButIndices (p_settings params) s ->
  swarmEligible (setSettings params s) = swarmEligible params.
Proof.
  intros H. unfold swarmEligible.
  cbn [setSettings p_settings p_files p_jsonMode].
  rewrite (getOpenRouterKeys_same _ _ H).
  destruct H as (_ & _ & _ & H). rewrite H. reflexivity.
Qed.

Lemma hybridCalls_same (w : World) (prompt : string) (a b : AISettings)
  (st : State) :
  sameButIndices a b -> hybridCalls w prompt b st = hybridCalls w prompt a st.
Proof.
  intros H. unfold hybridCalls.
  rewrite (getOpenRouterKeys_same a b H), (getHuggingFaceKeys_same a b H).
  reflexivity.
Qed.

Lemma runProvider_same
  (h : string -> list Message -> AISettings -> Callback -> FM string)
  (w : World) (params : Params) (s : AISettings) :
  sameButIndices (p_settings params) s ->
  (forall prompt history cb st,
     h prompt history s cb st = h prompt history (p_settings params) cb st) ->
  forall p st,
    runProvider h w (setSettings params s) p st = runProvider h w params p st.
Proof.
  intros H Hh p st. destruct p; cbn [runProvider].
  - unfold geminiModel, geminiConfig, geminiContents.
    cbn [setSettings p_settings p_files p_jsonMode p_systemInstruction
         p_useTools p_history p_prompt p_onChunk].
    destruct H as (_ & _ & _ & H). rewrite H. reflexivity.
  - cbn [setSettings p_settings p_onChunk].
    rewrite (getOpenRouterKeys_same _ _ H). reflexivity.
  - cbn [setSettings p_settings p_systemInstruction].
    rewrite (getHuggingFaceKeys_same _ _ H). reflexivity.
  - cbn [setSettings p_settings p_prompt p_history p_onChunk]. apply Hh.
Qed.

Lemma indices_ignored (fuel : nat) :
  (forall w params s st,
     sameButIndices (p_settings params) s ->
     executeWithFallback fuel w (setSettings params s) st
     = executeWithFallback fuel w params st)
  /\ (forall w prompt history a b onChunk st,
        sameButIndices a b ->
        executeOpenRouterSwarm fuel w prompt history b onChunk st
        = executeOpenRouterSwarm fuel w prompt history a onChunk st)
  /\ (forall w prompt history a b onChunk st,
        sameButIndices a b ->
        getMultiModelResponse fuel w prompt history b onChunk st
        = getMultiModelResponse fuel w prompt history a onChunk st)
  /\ (forall w prompt history a b files onChunk st,
        sameButIndices a b ->
        getChatResponse fuel w prompt history b files onChunk st
        = getChatResponse fuel w prompt history a files onChunk st)
  /\ (forall w query a b st,
        sameButIndices a b ->
        retrieveRelevantMemories fuel w query b st
        = retrieveRelevantMemories fuel w query a st).
Proof.
  induction fuel as [ | f (IHe & IHs & IHm & IHc & IHr) ].
  { repeat split; intros; reflexivity. }
  split; [ | split; [ | split; [ | split ] ] ].
  - intros w params s st H. cbn [executeWithFallback].
    rewrite (swarmEligible_same params s H).
    cbn [setSettings p_settings p_prompt p_history p_onChunk].
    fold (setSettings params s).
    rewrite (providerList_same _ _ H).
    rewrite (IHs w (p_prompt params) (p_history params) (p_settings params) s
               (p_onChunk params) _ H).
    assert (Hrun : forall p st1,
               runProvider (getMultiModelResponse f w) w (setSettings params s)
                 p st1
               = runProvider (getMultiModelResponse f w) w params p st1).
    { apply runProvider_same; [ exact H | ].
      intros prompt history cb st1. apply IHm, H. }
    destruct (swarmEligible params).
    + destruct (executeOpenRouterSwarm f w (p_prompt params)
                  (p_history params) (p_settings params) (p_onChunk params)
                  (snd (refreshModelCache w st)))
        as [ [ [ text | e ] st1 ] | ]; try reflexivity.
      apply tryProviders_ext, Hrun.
    + apply tryProviders_ext, Hrun.
  - intros w prompt history a b onChunk st H.
    cbn [executeOpenRouterSwarm].
    rewrite (getOpenRouterKeys_same a b H).
    destruct (List.length (getOpenRouterKeys a) =? 0); [ reflexivity | ].
    destruct (refreshModelCache w st) as [ [ [] | e ] st1 ]; [ | reflexivity ].
    destruct (swarmCalls w (swarmMessages prompt history)
                (getOpenRouterKeys a)
                (selectSwarmModels prompt (cachedOpenRouterModels st1))
                (notify onChunk
                   (swarmActivated
                      (List.length
                         (selectSwarmModels prompt (cachedOpenRouterModels st1))))
                   st1)) as [ results st3 ].
    destruct (List.length (filter isSuccessful results) =? 0);
      [ reflexivity | ].
    apply (IHe w (swarmSynthesisParams prompt a onChunk
                    (filter isSuccessful results))
               (withProvider (withoutComplexTaskMode b) gemini)).
    apply sameButIndices_synthesis, H.
  - intros w prompt history a b onChunk st H.
    cbn [getMultiModelResponse].
    destruct (refreshModelCache w st) as [ [ [] | e ] st1 ]; [ | reflexivity ].
    rewrite (hybridCalls_same w prompt a b st1 H).
    pose proof H as (_ & Ho & Hh & _). rewrite <- Ho, <- Hh.
    destruct ((List.length (openRouterApiKeys a) =? 0)
              && (List.length (huggingFaceApiKeys a) =? 0)).
    + apply IHc, sameButIndices_withProvider, H.
    + destruct (hybridCalls w prompt a st1) as [ results st2 ].
      destruct (List.length (validResults results) =? 0); [ reflexivity | ].
      apply (IHe w (hybridSynthesisParams a (validResults results)) b).
      exact H.
  - intros w prompt history a b files onChunk st H.
    cbn [getChatResponse].
    rewrite (IHr w prompt a b st H).
    destruct (if List.length files =? 0
              then retrieveRelevantMemories f w prompt a st
              else Some (Ok [], st)) as [ [ r st1 ] | ]; [ | reflexivity ].
    apply (IHe w (chatParams prompt history a files onChunk _) b). exact H.
  - intros w query a b st H. cbn [retrieveRelevantMemories].
    destruct (List.length (getMemories w) =? 0); [ reflexivity | ].
    pose proof (IHe w (memoryQueryParams query a (getMemories w)) b st H)
      as E.
    change (setSettings (memoryQueryParams query a (getMemories w)) b)
      with (memoryQueryParams query b (getMemories w)) in E.
    rewrite E. reflexivity.
Qed.

(** X19.  The indices of the active credentials have no part in a
    request: the orchestrator and the chat function do the same, event
    for event and with the same outcome, whatever the two indices in
    the settings are. *)
Theorem key_indices_are_ignored (fuel : nat) (w : World) (i j : Z) :
  (forall params st,
     executeWithFallback fuel w
       (setSettings params (setIndices (p_settings params) i j)) st
     = executeWithFallback fuel w params st)
  /\ (forall prompt history settings files onChunk st,
        getChatResponse fuel w prompt history (setIndices settings i j) files
          onChunk st
        = getChatResponse fuel w prompt history settings files onChunk st).
Proof.
  destruct (indices_ignored fuel) as (He & _ & _ & Hc & _). split.
  - intros params st. apply He. repeat split.
  - intros prompt history settings files onChunk st. apply Hc. repeat split.
Qed.

(** ** The exported functions that call the orchestrator *)

(** X20.  The two research functions return whatever provider the
    settings choose, hybrid too, because they put the primary provider
    in its place: each has an outcome, a text or an error, that it has
    for every depth of calls of three or more. *)
Theorem research_functions_return (w : World) (input : string)
  (settings : AISettings) (st : State) :
  (exists r st',
     forall fuel, 3 <= fuel ->
       analyzeUrlContent fuel w input settings st = Some (r, st'))
  /\ (exists r st',
        forall fuel, 3 <= fuel ->
          performDeepResearch fuel w input settings st = Some (r, st')).
Proof.
  assert (Hg : provider (withProvider settings gemini) <> hybrid)
    by discriminate.
  split.
  - unfold analyzeUrlContent. cbv zeta.
    match goal with
    | |- exists r st', forall fuel, _ ->
           executeWithFallback fuel w ?p st = _ =>
        destruct (executeWithFallback_direct w p st Hg) as ([ r st' ] & E)
    end.
    exists r, st'. intros fuel Hf.
    destruct fuel as [ | [ | [ | f ] ] ]; try lia. apply E.
  - unfold performDeepResearch. cbv zeta.
    match goal with
    | |- exists r st', forall fuel, _ ->
           executeWithFallback fuel w ?p st = _ =>
        destruct (executeWithFallback_direct w p st Hg) as ([ r st' ] & E)
    end.
    exists r, st'. intros fuel Hf.
    destruct fuel as [ | [ | [ | f ] ] ]; try lia. apply E.
Qed.

(** *** The switch of session *)




(** What the sample answer gives. *)
Example switchChosen_target :
  fst switchChosen = Ok (Some (Json.JString "session-1")).
Proof.
  reflexivity.
Qed.

(** *** The choice of a skill *)




(** What the sample answer gives. *)
Example skillChosen_plan :
  fst skillChosen
  = Ok (Some {| plan_skillName := "add";
                plan_code := "return a + b";
                plan_args := Json.JArray [Json.JNumber 2; Json.JNumber 3] |}).
Proof.
  reflexivity.
Qed.

(** *** The repair of a skill *)

Lemma eqb_backtick (a : ascii) :
  Ascii.eqb a backtick = Ascii.eqb "`" a.
Proof.
  apply Ascii.eqb_sym.
Qed.

Lemma startsWith_fence_cons (a : ascii) (r : string) :
  Js.startsWith fence (String a r)
  = match r with
    | String b (String c _) =>
        Ascii.eqb a backtick && Ascii.eqb b backtick && Ascii.eqb c backtick
    | _ => false
    end.
Proof.
  unfold fence. destruct r as [ | b [ | c r3 ] ]; cbn [Js.startsWith].
  - apply andb_false_r.
  - rewrite !andb_false_r. reflexivity.
  - rewrite !eqb_backtick, andb_true_r, andb_assoc. reflexivity.
Qed.

Lemma removeFences_fence (r : string) :
  removeFences (fence ++ r) = removeFences r.
Proof.
  reflexivity.
Qed.

Lemma removeFences_other (a : ascii) (r : string) :
  Js.startsWith fence (String a r) = false ->
  removeFences (String a r) = String a (removeFences r).
Proof.
  rewrite startsWith_fence_cons. cbn [removeFences].
  destruct r as [ | b [ | c r3 ] ]; try reflexivity.
  intros ->. reflexivity.
Qed.

Lemma startsWith_fence_true (s : string) :
  Js.startsWith fence s = true -> exists r, s = fence ++ r.
Proof.
  destruct s as [ | a r ]; [ discriminate | ].
  rewrite startsWith_fence_cons. destruct r as [ | b [ | c r3 ] ];
    try discriminate.
  intros H. apply andb_prop in H. destruct H as [ H Hc ].
  apply andb_prop in H. destruct H as [ Ha Hb ].
  apply Ascii.eqb_eq in Ha, Hb, Hc. subst. exists r3. reflexivity.
Qed.

(** Induction along the passes of [removeFences]. *)
Lemma removeFences_induction (P : string -> Prop) :
  P "" ->
  (forall r, P r -> P (fence ++ r)) ->
  (forall a r, Js.startsWith fence (String a r) = false -> P r ->
               P (String a r)) ->
  forall s, P s.
Proof.
  intros H0 Hf Ho s.
  assert (H : forall n s, String.length s <= n -> P s).
  { clear s. induction n as [ | n IH ]; intros s Hn.
    - destruct s; [ exact H0 | cbn in Hn; lia ].
    - destruct s as [ | a r ]; [ exact H0 | ].
      destruct (Js.startsWith fence (String a r)) eqn:E.
      + destruct (startsWith_fence_true _ E) as (r3 & E3). rewrite E3.
        apply Hf, IH. rewrite E3 in Hn. cbn in Hn. lia.
      + apply Ho; [ exact E | ]. apply IH. cbn in Hn. lia. }
  apply (H (String.length s)). lia.
Qed.

Lemma startsWith_fence_leading (s : string) :
  Js.startsWith fence s = true <-> 3 <= leadingBackticks s.
Proof.
  destruct s as [ | a [ | b [ | c r ] ] ]; cbn [leadingBackticks].
  - split; [ discriminate | lia ].
  - rewrite startsWith_fence_cons. destruct (Ascii.eqb a backtick);
      split; first [ discriminate | lia ].
  - rewrite startsWith_fence_cons.
    destruct (Ascii.eqb a backtick), (Ascii.eqb b backtick);
      split; first [ discriminate | lia ].
  - rewrite startsWith_fence_cons.
    destruct (Ascii.eqb a backtick), (Ascii.eqb b backtick),
      (Ascii.eqb c backtick); cbn; split; first [ discriminate | lia | auto ].
Qed.

Lemma leadingBackticks_removeFences (s : string) :
  leadingBackticks (removeFences s) = leadingBackticks s mod 3.
Proof.
  induction s as [ | r IH | a r Hs IH ] using removeFences_induction.
  - reflexivity.
  - rewrite removeFences_fence, IH.
    change (leadingBackticks (fence ++ r)) with (3 + leadingBackticks r).
    replace (3 + leadingBackticks r) with (leadingBackticks r + 1 * 3) by lia.
    rewrite Nat.Div0.mod_add. reflexivity.
  - rewrite (removeFences_other a r Hs). cbn [leadingBackticks].
    destruct (Ascii.eqb a backtick) eqn:Ea; [ | reflexivity ].
    rewrite IH.
    assert (Hl : leadingBackticks (String a r) < 3).
    { destruct (Nat.lt_ge_cases (leadingBackticks (String a r)) 3)
        as [ H | H ]; [ exact H | ].
      apply startsWith_fence_leading in H. congruence. }
    cbn [leadingBackticks] in Hl. rewrite Ea in Hl.
    rewrite (Nat.mod_small (leadingBackticks r)) by lia.
    rewrite Nat.mod_small by lia. reflexivity.
Qed.

Lemma removeFences_no_fence (s : string) :
  Js.find fence (removeFences s) = None.
Proof.
  induction s as [ | r IH | a r Hs IH ] using removeFences_induction.
  - reflexivity.
  - rewrite removeFences_fence. exact IH.
  - pose proof (leadingBackticks_removeFences (String a r)) as Hl.
    rewrite (removeFences_other a r Hs) in *.
    cbn [Js.find]. rewrite IH. cbn [option_map].
    destruct (Js.startsWith fence (String a (removeFences r))) eqn:E;
      [ | reflexivity ].
    apply startsWith_fence_leading in E. rewrite Hl in E.
    pose proof (Nat.mod_upper_bound (leadingBackticks (String a r)) 3).
    lia.
Qed.

Lemma find_none_trimStart (pat s : string) :
  Js.find pat s = None -> Js.find pat (Js.trimStart s) = None.
Proof.
  induction s as [ | c s IH ]; intros H; [ exact H | ].
  cbn [Js.trimStart]. destruct (Js.isSpace c); [ | exact H ].
  apply IH. apply (find_none_cons _ _ _ H).
Qed.

Lemma trimEnd_prefix (s : string) : exists rest, s = Js.trimEnd s ++ rest.
Proof.
  induction s as [ | c s (rest & IH) ].
  - exists "". reflexivity.
  - cbn [Js.trimEnd]. destruct (Js.trimEnd s) as [ | d t ] eqn:E.
    + destruct (Js.isSpace c).
      * exists (String c s). reflexivity.
      * exists s. reflexivity.
    + exists rest. cbn [append] in *. f_equal. exact IH.
Qed.

Lemma startsWith_prefix (pat p rest : string) :
  Js.startsWith pat p = true -> Js.startsWith pat (p ++ rest) = true.
Proof.
  revert p. induction pat as [ | a pat IH ]; intros p H; [ reflexivity | ].
  destruct p as [ | b p ]; [ discriminate | ].
  cbn [Js.startsWith append] in *. apply andb_prop in H.
  destruct H as [ H1 H2 ]. rewrite H1, (IH _ H2). reflexivity.
Qed.

Lemma find_none_prefix (pat p rest : string) :
  pat <> "" -> Js.find pat (p ++ rest) = None -> Js.find pat p = None.
Proof.
  intros Hne. induction p as [ | c p IH ]; intros H.
  - destruct pat; [ congruence | reflexivity ].
  - cbn [append] in H. destruct (find_none_cons _ _ _ H) as [ H1 H2 ].
    cbn [Js.find]. rewrite (IH H2).
    destruct (Js.startsWith pat (String c p)) eqn:E; [ | reflexivity ].
    apply (startsWith_prefix _ _ rest) in E. cbn [append] in E. congruence.
Qed.

Lemma find_none_trim (s : string) :
  Js.find fence s = None -> Js.find fence (Js.trim s) = None.
Proof.
  intros H. unfold Js.trim.
  destruct (trimEnd_prefix (Js.trimStart s)) as (rest & E).
  apply (find_none_prefix fence _ rest); [ discriminate | ].
  rewrite <- E. apply find_none_trimStart, H.
Qed.

Lemma no_backtick_cons (c : ascii) (s : string) :
  Js.includes (String c s) "`" = false ->
  Ascii.eqb c backtick = false /\ Js.includes s "`" = false.
Proof.
  intros H. apply includes_false in H.
  destruct (find_none_cons _ _ _ H) as [ H1 H2 ]. split.
  - rewrite eqb_backtick. cbn [Js.startsWith] in H1.
    rewrite andb_true_r in H1. exact H1.
  - unfold Js.includes. rewrite H2. reflexivity.
Qed.

Lemma no_backtick_no_fence (s : string) :
  Js.includes s "`" = false ->
  forall r, Js.startsWith fence (s ++ r) = Js.startsWith fence r
            \/ Js.startsWith fence (s ++ r) = false.
Proof.
  intros H r. destruct s as [ | c s ]; [ left; reflexivity | right ].
  destruct (no_backtick_cons c s H) as [ Hc _ ].
  cbn [append]. rewrite startsWith_fence_cons.
  destruct (s ++ r) as [ | b [ | d t ] ]; try reflexivity.
  rewrite Hc. reflexivity.
Qed.

Lemma removeFences_no_backtick (s : string) :
  Js.includes s "`" = false -> removeFences s = s.
Proof.
  induction s as [ | c s IH ]; intros H; [ reflexivity | ].
  destruct (no_backtick_cons c s H) as [ Hc Hs ].
  rewrite removeFences_other, (IH Hs); [ reflexivity | ].
  rewrite startsWith_fence_cons. destruct s as [ | b [ | d t ] ];
    try reflexivity.
  rewrite Hc. reflexivity.
Qed.

Lemma find_fence_after (body after : string) :
  Js.includes body "`" = false ->
  Js.find fence (body ++ fence ++ after) = Some (String.length body).
Proof.
  induction body as [ | c body IH ]; intros H; [ reflexivity | ].
  destruct (no_backtick_cons c body H) as [ Hc Hs ].
  cbn [append Js.find String.length]. rewrite (IH Hs).
  rewrite startsWith_fence_cons.
  destruct (body ++ fence ++ after) as [ | b [ | d t ] ]; try reflexivity.
  rewrite Hc. reflexivity.
Qed.

Lemma startsWith_longer (a b t : string) :
  Js.startsWith (a ++ b) t = true -> Js.startsWith a t = true.
Proof.
  revert t. induction a as [ | c a IH ]; intros t H; [ reflexivity | ].
  destruct t as [ | d t ]; [ discriminate H | ].
  cbn [append Js.startsWith] in *. apply andb_prop in H.
  destruct H as [ H1 H2 ]. rewrite H1, (IH _ H2). reflexivity.
Qed.

Lemma skillCodeBlock_no_backtick (s : string) :
  Js.includes s "`" = false -> skillCodeBlock s = None.
Proof.
  assert (Hb : forall t, Js.startsWith fence t = false -> blockAt t = None).
  { intros t Ht. unfold blockAt, blockAfterTag.
    assert (E : forall tag, Js.startsWith (fence ++ tag ++ Js.nl) t = false).
    { intros tag. destruct (Js.startsWith (fence ++ tag ++ Js.nl) t) eqn:E;
        [ | reflexivity ].
      apply startsWith_longer in E. congruence. }
    rewrite !E. reflexivity. }
  induction s as [ | c s IH ]; intros H.
  - reflexivity.
  - destruct (no_backtick_cons c s H) as [ Hc Hs ].
    cbn [skillCodeBlock]. rewrite Hb, (IH Hs); [ reflexivity | ].
    rewrite startsWith_fence_cons. destruct s as [ | b [ | d t ] ];
      try reflexivity.
    rewrite Hc. reflexivity.
Qed.

Lemma blockAfterTag_fenced (tag body after : string) :
  Js.includes body "`" = false ->
  blockAfterTag tag (fence ++ tag ++ Js.nl ++ body ++ fence ++ after)
  = Some body.
Proof.
  intros Hb. unfold blockAfterTag.
  assert (E : fence ++ tag ++ Js.nl ++ body ++ fence ++ after
              = (fence ++ tag ++ Js.nl) ++ body ++ fence ++ after).
  { rewrite !append_assoc. reflexivity. }
  rewrite E, startsWith_append.
  assert (El : 3 + String.length tag + 1
               = String.length (fence ++ tag ++ Js.nl)).
  { rewrite !length_append. cbn. lia. }
  rewrite El, drop_append, (find_fence_after body after Hb), take_append.
  reflexivity.
Qed.

Lemma blockAt_fenced (tag body after : string) :
  In tag ["javascript"; "js"; ""] ->
  Js.includes body "`" = false ->
  blockAt (fence ++ tag ++ Js.nl ++ body ++ fence ++ after) = Some body.
Proof.
  intros [ <- | [ <- | [ <- | [] ] ] ] Hb; unfold blockAt.
  - rewrite (blockAfterTag_fenced "javascript" body after Hb). reflexivity.
  - rewrite (blockAfterTag_fenced "js" body after Hb).
    assert (E : blockAfterTag "javascript"
                  (fence ++ "js" ++ Js.nl ++ body ++ fence ++ after) = None)
      by reflexivity.
    rewrite E. reflexivity.
  - rewrite (blockAfterTag_fenced "" body after Hb).
    assert (E1 : blockAfterTag "javascript"
                   (fence ++ "" ++ Js.nl ++ body ++ fence ++ after) = None)
      by reflexivity.
    assert (E2 : blockAfterTag "js"
                   (fence ++ "" ++ Js.nl ++ body ++ fence ++ after) = None)
      by reflexivity.
    rewrite E1, E2. reflexivity.
Qed.

Lemma skillCodeBlock_skip (before rest : string) :
  Js.includes before "`" = false ->
  skillCodeBlock (before ++ fence ++ rest) = skillCodeBlock (fence ++ rest).
Proof.
  induction before as [ | c before IH ]; intros H; [ reflexivity | ].
  destruct (no_backtick_cons c before H) as [ Hc Hs ].
  cbn [append skillCodeBlock].
  assert (Hn : blockAt (String c (before ++ fence ++ rest)) = None).
  { unfold blockAt, blockAfterTag.
    assert (E : forall tag,
               Js.startsWith (fence ++ tag ++ Js.nl)
                 (String c (before ++ fence ++ rest)) = false).
    { intros tag.
      destruct (Js.startsWith (fence ++ tag ++ Js.nl)
                  (String c (before ++ fence ++ rest))) eqn:E;
        [ | reflexivity ].
      apply startsWith_longer in E. cbn [fence Js.startsWith] in E.
      rewrite <- eqb_backtick, Hc in E. discriminate E. }
    rewrite !E. reflexivity. }
  rewrite Hn. apply IH, Hs.
Qed.

Lemma fixedCode_clean (text : string) :
  Js.includes (fixedCode text) fence = false
  /\ Js.trim (fixedCode text) = fixedCode text.
Proof.
  unfold fixedCode. split; [ | apply trim_idempotent ].
  unfold Js.includes. rewrite find_none_trim; [ reflexivity | ].
  apply removeFences_no_fence.
Qed.

(** X23.  The repaired code carries no fence: when [fixSkillCode]
    returns, its text holds no three backticks in a row and no white
    space at either end.  If the answer holds no backtick the text is
    the trimmed answer; if the answer holds one block between fences,
    tagged "javascript", "js" or not at all, the text is the trimmed
    body of the block and what is around the block is dropped. *)
Theorem fixed_code_has_no_fence (fuel : nat) (w : World)
  (brokenCode errorMessage : string) (settings : AISettings)
  (st st' : State) (code : string) :
  fixSkillCode fuel w brokenCode errorMessage settings st
  = Some (Ok code, st') ->
  exists text,
    executeWithFallback fuel w (fixRequest brokenCode errorMessage settings) st
    = Some (Ok text, st')
    /\ Js.includes code fence = false
    /\ Js.trim code = code
    /\ (Js.includes text "`" = false -> code = Js.trim text)
    /\ (forall before tag body after,
          text = before ++ fence ++ tag ++ Js.nl ++ body ++ fence ++ after ->
          Js.includes before "`" = false ->
          In tag ["javascript"; "js"; ""] ->
          Js.includes body "`" = false ->
          code = Js.trim body).
Proof.
  unfold fixSkillCode.
  destruct (executeWithFallback fuel w
              (fixRequest brokenCode errorMessage settings) st)
    as [ [ [ text | e ] st1 ] | ]; intros H; inversion H; subst.
  exists text. split; [ reflexivity | ].
  destruct (fixedCode_clean text) as [ H1 H2 ].
  split; [ exact H1 | split; [ exact H2 | split ] ].
  - intros Hn. unfold fixedCode.
    rewrite (skillCodeBlock_no_backtick text Hn),
      (removeFences_no_backtick text Hn). reflexivity.
  - intros before tag body after -> Hb Ht Hbody. unfold fixedCode.
    rewrite (skillCodeBlock_skip before _ Hb).
    change (skillCodeBlock (fence ++ tag ++ Js.nl ++ body ++ fence ++ after))
      with (match blockAt (fence ++ tag ++ Js.nl ++ body ++ fence ++ after) with
            | Some group => Some group
            | None => skillCodeBlock
                        (Js.drop 1 (fence ++ tag ++ Js.nl ++ body
                                    ++ fence ++ after))
            end).
    rewrite (blockAt_fenced tag body after Ht Hbody).
    rewrite (removeFences_no_backtick body Hbody). reflexivity.
Qed.

Lemma fixed_code_has_no_fence_witness :
  Js.includes "return a + b;" fence = false
  /\ Js.trim "return a + b;" = "return a + b;".
Proof.
  destruct (fixed_code_has_no_fence 1 doctor "return a +" "SyntaxError"
              (settingsOf gemini [] [] false) initialState (snd repaired)
              "return a + b;")
    as (text & _ & H1 & H2 & _).
  - reflexivity.
  - split; [ exact H1 | exact H2 ].
Defined.

(** What the sample answer gives. *)
Example repaired_code : fst repaired = Ok "return a + b;".
Proof.
  reflexivity.
Qed.

(** ** The session service *)

Lemma take_all (n : nat) (s : string) :
  String.length s <= n -> Js.take n s = s.
Proof.
  revert n. induction s as [ | c s IH ]; intros n H.
  - destruct n; reflexivity.
  - destruct n as [ | n ]; [ cbn in H; lia | ].
    cbn [Js.take]. rewrite IH; [ reflexivity | cbn in H; lia ].
Qed.

Lemma take_take (n m : nat) (s : string) :
  Js.take (Nat.min n m) s = Js.take n (Js.take m s).
Proof.
  revert n m. induction s as [ | c s IH ]; intros n m.
  - destruct n, m; reflexivity.
  - destruct n as [ | n ]; [ reflexivity | ].
    destruct m as [ | m ]; [ reflexivity | ].
    cbn [Nat.min Js.take]. rewrite IH. reflexivity.
Qed.

Lemma length_take (n : nat) (s : string) :
  String.length (Js.take n s) = Nat.min n (String.length s).
Proof.
  revert n. induction s as [ | c s IH ]; intros n.
  - destruct n; reflexivity.
  - destruct n as [ | n ]; [ reflexivity | ].
    cbn [Js.take String.length Nat.min]. rewrite IH. reflexivity.
Qed.

Lemma slice_from_start (s : string) (n : nat) :
  slice s 0 (Z.of_nat n) = Js.take n s.
Proof.
  unfold slice. cbv zeta.
  assert (E0 : (0 <? 0)%Z = false) by reflexivity.
  assert (En : (Z.of_nat n <? 0)%Z = false) by (apply Z.ltb_ge; lia).
  rewrite E0, En.
  replace (Z.to_nat (Z.min 0 (Z.of_nat (String.length s)))) with 0 by lia.
  cbn [Js.drop].
  replace (Z.to_nat
             (Z.max (Z.min (Z.of_nat n) (Z.of_nat (String.length s))
                     - Z.min 0 (Z.of_nat (String.length s))) 0))
    with (Nat.min (String.length s) n) by lia.
  rewrite take_take. apply take_all. rewrite length_take. lia.
Qed.

(** X24.  The title made from the messages is short: it has at most 33
    characters.  It is the text of the first message of the user when
    that text has at most 30 characters, its first 30 characters
    followed by three dots when it is longer, and "New Conversation"
    when the user has sent no message. *)
Theorem generated_title_is_short (messages : list Message) :
  String.length (SessionService.generateTitle messages) <= 33
  /\ (List.find SessionService.isUser messages = None ->
      SessionService.generateTitle messages = "New Conversation")
  /\ (forall m, List.find SessionService.isUser messages = Some m ->
        SessionService.generateTitle messages
        = if 30 <? String.length (msg_text m)
          then Js.take 30 (msg_text m) ++ "..."
          else msg_text m).
Proof.
  unfold SessionService.generateTitle.
  destruct messages as [ | m0 rest ].
  { split; [ cbn; lia | split; [ reflexivity | discriminate ] ]. }
  cbn [List.length Nat.eqb].
  destruct (List.find SessionService.isUser (m0 :: rest)) as [ m | ].
  - change 30%Z with (Z.of_nat 30). rewrite slice_from_start.
    split; [ | split; [ discriminate | ] ].
    + rewrite length_append, length_take.
      destruct (30 <? String.length (msg_text m)); cbn [String.length]; lia.
    + intros m' E. inversion E; subst m'.
      destruct (30 <? String.length (msg_text m)) eqn:El; [ reflexivity | ].
      apply Nat.ltb_ge in El. rewrite take_all by exact El.
      apply append_nil_r.
  - split; [ cbn; lia | split; [ reflexivity | discriminate ] ].
Qed.

Lemma generated_title_is_short_witness :
  SessionService.generateTitle firstQuestion
  = "How do I sort a list in Python...".
Proof.
  destruct (generated_title_is_short firstQuestion) as (_ & _ & H).
  apply (H {| msg_id := 1;
              msg_text := "How do I sort a list in Python without the built-in?";
              msg_sender := user |}).
  reflexivity.
Defined.

(** *** Stored sessions that are not [null] *)









(** *** The sort *)







(** *** Saving *)





























(** *** The order of the stored sessions *)





(** The sample store after its first session has been saved again: the
    session moves to the front and keeps its title and [createdAt]. *)
Example saved_again :
  match SessionService.saveSession digitsTime "300" "s1" firstQuestion None
          twoSessions with
  | Ok store' =>
      SessionService.getSessions store'
      = Json.JArray
          [ SessionService.newSession "s1"
              (Some (Json.JString "How do I sort a list in Python..."))
              firstQuestion (Some (Json.JString "100")) "300";
            SessionService.newSession "s2" (Some (Json.JString "Notes")) []
              (Some (Json.JString "200")) "200" ]
  | Throw _ => False
  end.
Proof.
  reflexivity.
Qed.

(** ** The cache of the catalogs *)

(** X28.  A refresh is not repeated within the hour: after a refresh
    that has discovered the catalogs, a second refresh that starts no
    more than an hour after the first one started makes no request and
    leaves the catalogs and the instant of the discovery as they
    are. *)
Theorem refresh_within_the_hour (w : World) (st : State) :
  cacheIsStale w st = true ->
  (Date_now w (tick (snd (refreshModelCache w st))) - Date_now w (tick st)
   <= CACHE_DURATION)%Z ->
  refreshModelCache w (snd (refreshModelCache w st))
  = (Ok tt, snd (refreshModelCache w st)).
Proof.
  intros Hs Ht.
  destruct (refreshModelCache_total w st) as (st1 & E & H).
  destruct (H Hs) as (Hne & _).
  assert (El : lastDiscoveryTime st1 = Date_now w (tick st)).
  { revert E. unfold refreshModelCache. rewrite Hs.
    destruct (discoverFreeOpenRouterModels w st) as [ [ ids | e ] s1 ];
      [ | discriminate ].
    destruct (discoverTrendingHFModels w s1) as [ [ hids | e ] s2 ];
      [ | discriminate ].
    intros E. inversion E. reflexivity. }
  rewrite E in *. cbn [snd] in *.
  unfold refreshModelCache at 1. unfold cacheIsStale. rewrite El.
  assert (E1 : (Date_now w (tick st1) - Date_now w (tick st)
                >? CACHE_DURATION)%Z = false).
  { rewrite Z.gtb_ltb. apply Z.ltb_ge. exact Ht. }
  assert (E2 : (List.length (cachedOpenRouterModels st1) =? 0) = false).
  { destruct (cachedOpenRouterModels st1); [ congruence | reflexivity ]. }
  rewrite E1, E2. reflexivity.
Qed.

Lemma refresh_within_the_hour_witness :
  refreshModelCache listingOnly (snd (refreshModelCache listingOnly initialState))
  = (Ok tt, snd (refreshModelCache listingOnly initialState)).
Proof.
  apply (refresh_within_the_hour listingOnly initialState).
  - reflexivity.
  - vm_compute. discriminate.
Defined.

(** ** The fan-out of a swarm *)

(** A chat request for one of [models] with one of [apiKeys], not
    streamed, that carries [messages]; any other event passes. *)
Lemma attempts_In (messages : list ChatMessage) (stream : bool)
  (apiKeys : list string) (tried : list (string * nat)) (e : Event) :
  In e (attempts messages stream apiKeys tried) ->
  exists k m, e = EvOpenRouter k m messages stream
              /\ In k apiKeys /\ In m (map fst tried).
Proof.
  unfold attempts. rewrite in_flat_map. intros ((m & n) & Hin & He).
  apply in_map_iff in He. destruct He as (k & <- & Hk).
  exists k, m. split; [ reflexivity | split ].
  - rewrite <- (firstn_skipn n apiKeys). apply in_or_app. left. exact Hk.
  - apply in_map_iff. exists (m, n). split; [ reflexivity | exact Hin ].
Qed.

Lemma pinned_call (w : World) (messages : list ChatMessage)
  (apiKeys : list string) (model : string) (st : State) :
  model <> "" ->
  exists events,
    trace (snd (callOpenRouter w messages apiKeys None (Some model) st))
    = (trace st ++ events)%list
    /\ List.length (filter isChatRequest events) <= List.length apiKeys
    /\ Forall (fanOutEvent messages apiKeys [model]) events.
Proof.
  intros Hne.
  destruct (callOpenRouter_unfold w messages apiKeys None (Some model) st)
    as (st0 & events0 & E0 & F0 & _ & _ & E).
  rewrite E. clear E.
  assert (Em : forall cached, modelsToTry messages (Some model) cached = [model]).
  { intros cached. unfold modelsToTry, pinned.
    destruct model; [ congruence | reflexivity ]. }
  rewrite Em.
  destruct (openRouterModels_run w messages None apiKeys [model] None st0)
    as (tried & events & E1 & E2 & (rest & Hp) & _ & Hl & _ & _ & _).
  destruct (openRouterModels w messages None apiKeys [model] None st0)
    as [ loop st1 ]. cbn [snd] in E1.
  assert (Hgoal : exists events',
             trace st1 = (trace st ++ events')%list
             /\ List.length (filter isChatRequest events')
                <= List.length apiKeys
             /\ Forall (fanOutEvent messages apiKeys [model]) events').
  { exists (events0 ++ events)%list. split; [ | split ].
    - rewrite E1, E0, List.app_assoc. reflexivity.
    - rewrite filter_app, F0, E2. cbn [List.app].
      pose proof (attempts_length messages (isSome (@None Callback)) apiKeys
                    tried) as Ha.
      assert (Ht : List.length tried <= 1).
      { rewrite <- (length_map fst tried).
        assert (Hx : List.length (map fst tried ++ rest)%list = 1)
          by (rewrite Hp; reflexivity).
        rewrite length_app in Hx. lia. }
      nia.
    - apply Forall_forall. intros e He.
      destruct e as [ | | k m msgs stream | | | ]; try exact I.
      assert (Hin : In (EvOpenRouter k m msgs stream)
                       (filter isChatRequest (events0 ++ events)%list)).
      { apply filter_In. split; [ exact He | reflexivity ]. }
      rewrite filter_app, F0, E2 in Hin. cbn [List.app] in Hin.
      apply attempts_In in Hin.
      destruct Hin as (k' & m' & Ee & Hk & Hm). inversion Ee; subst.
      cbn [fanOutEvent]. repeat split; try assumption.
      rewrite <- Hp. apply in_or_app. left. exact Hm. }
  destruct loop; exact Hgoal.
Qed.

Lemma fanOutEvent_more (messages : list ChatMessage)
  (apiKeys models models' : list string) (e : Event) :
  incl models models' ->
  fanOutEvent messages apiKeys models e ->
  fanOutEvent messages apiKeys models' e.
Proof.
  intros Hi. destruct e; cbn [fanOutEvent]; try tauto.
  intros (H1 & H2 & H3 & H4). repeat split; auto.
Qed.

Lemma swarmCalls_requests (w : World) (messages : list ChatMessage)
  (apiKeys : list string) (swarmModels : list string) :
  ~ In "" swarmModels ->
  forall st,
  exists events,
    trace (snd (swarmCalls w messages apiKeys swarmModels st))
    = (trace st ++ events)%list
    /\ List.length (filter isChatRequest events)
       <= List.length swarmModels * List.length apiKeys
    /\ Forall (fanOutEvent messages apiKeys swarmModels) events.
Proof.
  induction swarmModels as [ | model rest IH ]; intros Hn st.
  - exists []. cbn. rewrite List.app_nil_r.
    split; [ reflexivity | split; [ lia | constructor ] ].
  - assert (Hm : model <> "").
    { intros ->. apply Hn. left. reflexivity. }
    assert (Hr : ~ In "" rest) by (intros H; apply Hn; right; exact H).
    cbn [swarmCalls].
    destruct (pinned_call w messages apiKeys model st Hm)
      as (events & E1 & L1 & F1).
    destruct (callOpenRouter w messages apiKeys None (Some model) st)
      as [ r st1 ]. cbn [snd] in E1.
    destruct (IH Hr st1) as (events' & E2 & L2 & F2).
    destruct (swarmCalls w messages apiKeys rest st1) as [ results st2 ].
    cbn [snd] in *.
    exists (events ++ events')%list. split; [ | split ].
    + rewrite E2, E1, List.app_assoc. reflexivity.
    + rewrite filter_app, length_app. cbn [List.length]. lia.
    + apply Forall_app. split.
      * eapply Forall_impl; [ | exact F1 ]. intros e.
        apply fanOutEvent_more. intros x [ <- | [] ]. left. reflexivity.
      * eapply Forall_impl; [ | exact F2 ]. intros e.
        apply fanOutEvent_more. intros x Hx. right. exact Hx.
Qed.

Lemma selectSwarmModels_at_most_five (prompt : string)
  (available : list string) :
  List.length (selectSwarmModels prompt available) <= 5.
Proof.
  destruct available as [ | a rest ]; [ cbn; lia | ].
  destruct (selectSwarmModels_shape prompt (a :: rest)) as (sel & E & _);
    [ discriminate | ].
  rewrite E. rewrite length_firstn. lia.
Qed.

Lemma selectSwarmModels_incl (prompt : string) (available : list string) :
  available <> [] ->
  incl (selectSwarmModels prompt available) available.
Proof.
  intros Hne.
  destruct (selectSwarmModels_shape prompt available Hne)
    as (sel & E & _ & Hi & _).
  rewrite E. intros y Hy.
  assert (Hf : In y (fillSelected available sel)).
  { rewrite <- (firstn_skipn 5 (fillSelected available sel)).
    apply in_or_app. left. exact Hy. }
  apply fillSelected_In in Hf. destruct Hf; auto.
Qed.

(** X29.  The fan-out of a swarm costs at most five requests for each
    credential: if the catalog holds no model with an empty name, the
    requests to the selected models are one result for each model,
    and at most as many chat requests as five times the number of
    credentials; each of them asks one of the selected models, with
    one of the credentials, for the whole answer at once, and carries
    the messages of the swarm. *)
Theorem swarm_fan_out_is_bounded (w : World) (prompt : string)
  (messages : list ChatMessage) (apiKeys catalog : list string) (st : State) :
  ~ In "" catalog ->
  let swarmModels := selectSwarmModels prompt catalog in
  let out := swarmCalls w messages apiKeys swarmModels st in
  exists events,
    trace (snd out) = (trace st ++ events)%list
    /\ map sr_model (fst out) = swarmModels
    /\ List.length (filter isChatRequest events) <= 5 * List.length apiKeys
    /\ Forall (fanOutEvent messages apiKeys swarmModels) events.
Proof.
  intros Hn. cbv zeta.
  assert (Hs : ~ In "" (selectSwarmModels prompt catalog)).
  { destruct catalog as [ | a rest ].
    - cbn. intuition discriminate.
    - intros H. apply Hn.
      apply (selectSwarmModels_incl prompt (a :: rest)); [ discriminate | ].
      exact H. }
  destruct (swarmCalls_requests w messages apiKeys
              (selectSwarmModels prompt catalog) Hs st)
    as (events & E & L & F).
  exists events. split; [ exact E | split; [ apply swarmCalls_models | ] ].
  split; [ | exact F ].
  pose proof (selectSwarmModels_at_most_five prompt catalog). nia.
Qed.

Lemma swarm_fan_out_is_bounded_witness :
  exists events,
    trace (snd (swarmCalls threeOfFive hello ["k1"]
                  (selectSwarmModels "hi" (map or_id fiveFree)) initialState))
    = (trace initialState ++ events)%list
    /\ List.length (filter isChatRequest events) <= 5 * 1.
Proof.
  destruct (swarm_fan_out_is_bounded threeOfFive "hi" hello ["k1"]
              (map or_id fiveFree) initialState)
    as (events & E & _ & L & _).
  - cbn. intuition discriminate.
  - exists events. split; [ exact E | exact L ].
Defined.

(** ** The memories that are retrieved *)





(** What the sample answer gives. *)
Example recalled_lines :
  fst recalled
  = Ok [ "[Memory: Editor]" ++ Js.nl ++ "The user writes code in Emacs." ].
Proof.
  reflexivity.
Qed.
